(** * Monitoring core of the fraud-detection service

    A shallow embedding of [utils/monitoring.py] (class [ModelMonitor] and
    [extract_predictions_for_monitoring]) and of the feedback path of
    [api.py] ([prediction_feedback], [process_feedback]).

    Modelling conventions.
    - The prediction log [prediction_logs.jsonl] is a sequence of lines; a
      line is the text between two newline characters.
    - [json.dumps] / [json.loads] are modelled by a printer and a parser
      over the JSON values the log can hold.  Python [str] ranges over the
      code points 0..255 (Rocq [ascii]); Python [float] ranges over finite
      decimals, printed positionally (CPython switches to exponent
      notation outside 1e-4 .. 1e16, which changes the text that is
      written but not the value read back), together with NaN and the
      two infinities.
    - Python dictionaries are insertion-ordered association lists with
      unique keys; [json.dumps] prints them in that order.
    - Exceptions are values of [exn]; a computation that may raise returns
      a [result].  Where a library function is followed only on a part of
      its inputs, the model answers [Unmodelled] on the others.
    - The wall clock is an explicit argument [now]; a function that reads
      the clock once per row takes the successive readings, [now 0],
      [now 1], and so on. *)

From Stdlib Require Import String Ascii List Bool Arith ZArith NArith QArith Lia.
From Stdlib Require Import Decimal DecimalString DecimalN DecimalFacts.
Import ListNotations.

Local Close Scope Q_scope.
Local Open Scope nat_scope.
Local Open Scope list_scope.
Local Open Scope string_scope.

(** ** Exceptions *)

(** The exceptions the modelled code raises.  [Unmodelled] is not an
    exception of Python: it is the answer of the model on an input on
    which it does not follow a library function (a JSON escape of a code
    point above 255, a date text in a layout [isoformat] does not write,
    [float] or [str] of a value that is not modelled, the rows of a table
    with an integer beyond 64 bits, a target [sklearn.metrics] does not
    take as a small number).  Nothing is stated about what the code does
    there. *)
Inductive exn : Type :=
| JSONDecodeError
| KeyError
| ValueError
| TypeError
| AttributeError
| HTTPException (status_code : nat)
| Unmodelled.

(** The outcome of a computation: a value, or an exception. *)
Inductive result (A : Type) : Type :=
| Ok (a : A)
| Raise (e : exn).

Arguments Ok {A} a.
Arguments Raise {A} e.

(** Sequencing: an exception of the first computation ends the second. *)
Definition bind {A B : Type} (r : result A) (k : A -> result B) : result B :=
  match r with
  | Ok a => k a
  | Raise e => Raise e
  end.

Declare Scope result_scope.
Delimit Scope result_scope with result.
Notation "x <- r ;; k" := (bind r (fun x => k))
  (at level 61, r at next level, right associativity) : result_scope.
Notation "' p <- r ;; k" := (bind r (fun x => let p := x in k))
  (at level 61, p pattern, r at next level, right associativity) : result_scope.

(** [for x in l: body] where the body may raise. *)
Fixpoint mapM {A B : Type} (f : A -> result B) (l : list A) : result (list B) :=
  match l with
  | [] => Ok []
  | x :: r =>
      match f x with
      | Raise e => Raise e
      | Ok y =>
          match mapM f r with
          | Raise e => Raise e
          | Ok ys => Ok (y :: ys)
          end
      end
  end.

(** ** Characters *)

(** The double quote, the backslash and the line feed. *)
Definition dquote : ascii := "034"%char.
Definition backslash : ascii := "\"%char.
Definition newline : ascii := "010"%char.

(** The characters ["0"] to ["9"]. *)
Definition is_digit (c : ascii) : bool :=
  let n := nat_of_ascii c in (48 <=? n)%nat && (n <=? 57)%nat.

(** ** JSON values *)

Module Json.

(** A finite Python float: sign, integer part and fraction digits.  The
    fraction is kept in the form [repr] prints: at least one digit and no
    trailing zero, except for the single digit ["0"]. *)
Record decimal : Type := Decimal_
  { dneg : bool;
    dint : N;
    dfrac : string }.

(** The floats that are not finite; [json.dumps] writes them as [NaN],
    [Infinity] and [-Infinity], and [json.loads] reads these back. *)
Inductive nonfinite : Type := NaN | PosInf | NegInf.

Unset Elimination Schemes.
(** The values [json.loads] returns: [None], [bool], [int], [float],
    [str], [list] and [dict] with string keys in insertion order. *)
Inductive json : Type :=
| JNull
| JBool (b : bool)
| JInt (z : Z)
| JFloat (d : decimal)
| JNonFinite (k : nonfinite)
| JStr (s : string)
| JArr (l : list json)
| JObj (l : list (string * json)).
Set Elimination Schemes.

Section JsonInd.
Variable P : json -> Prop.
Hypothesis Hnull : P JNull.
Hypothesis Hbool : forall b, P (JBool b).
Hypothesis Hint : forall z, P (JInt z).
Hypothesis Hfloat : forall d, P (JFloat d).
Hypothesis Hnonfinite : forall k, P (JNonFinite k).
Hypothesis Hstr : forall s, P (JStr s).
Hypothesis Harr : forall l, Forall P l -> P (JArr l).
Hypothesis Hobj : forall l, Forall (fun kv => P (snd kv)) l -> P (JObj l).

(** Induction on values, with the hypothesis for the elements of an array
    and for the members of an object. *)
Fixpoint json_ind (v : json) : P v :=
  match v with
  | JNull => Hnull
  | JBool b => Hbool b
  | JInt z => Hint z
  | JFloat d => Hfloat d
  | JNonFinite k => Hnonfinite k
  | JStr s => Hstr s
  | JArr l =>
      Harr l ((fix go (l : list json) : Forall P l :=
                 match l with
                 | [] => Forall_nil _
                 | x :: r => Forall_cons x (json_ind x) (go r)
                 end) l)
  | JObj l =>
      Hobj l ((fix go (l : list (string * json))
                 : Forall (fun kv => P (snd kv)) l :=
                 match l with
                 | [] => Forall_nil _
                 | kv :: r =>
                     Forall_cons (P := fun kv => P (snd kv)) kv
                       (json_ind (snd kv)) (go r)
                 end) l)
  end.
End JsonInd.

(** *** Python dictionaries with string keys *)

Section Dict.
Context {V : Type}.

(** [d.get(k)]: the value of the first entry with key [k]. *)
Fixpoint dict_get (d : list (string * V)) (k : string) : option V :=
  match d with
  | [] => None
  | (k', v) :: r => if String.eqb k' k then Some v else dict_get r k
  end.

(** [d[k] = v]: an existing key keeps its position, a new key goes last. *)
Fixpoint dict_set (d : list (string * V)) (k : string) (v : V)
  : list (string * V) :=
  match d with
  | [] => [(k, v)]
  | (k', v') :: r =>
      if String.eqb k' k then (k', v) :: r else (k', v') :: dict_set r k v
  end.

(** [k in d] *)
Definition dict_mem (d : list (string * V)) (k : string) : bool :=
  match dict_get d k with Some _ => true | None => false end.

(** [list(d.keys())] *)
Definition dict_keys (d : list (string * V)) : list string := map fst d.

(** [dict(pairs)] *)
Definition dict_of_pairs (l : list (string * V)) : list (string * V) :=
  fold_left (fun d kv => dict_set d (fst kv) (snd kv)) l [].
End Dict.

(** *** [json.dumps] *)

(** The decimal digits of a natural number. *)
Definition print_N (n : N) : string := NilEmpty.string_of_uint (N.to_uint n).

(** [int.__repr__] *)
Definition print_Z (z : Z) : string :=
  if (z <? 0)%Z then String "-" (print_N (Z.abs_N z)) else print_N (Z.to_N z).

(** [float.__repr__] of a finite float, in positional notation. *)
Definition print_decimal (d : decimal) : string :=
  (if dneg d then "-" else "") ++ print_N (dint d) ++ "." ++ dfrac d.

(** A lowercase hexadecimal digit. *)
Definition hex_digit (n : N) : ascii :=
  if (n <? 10)%N then ascii_of_N (48 + n) else ascii_of_N (87 + n).

(** One character of [json.encoder.py_encode_basestring_ascii]. *)
Definition escape_char (c : ascii) : string :=
  let n := N_of_ascii c in
  if Ascii.eqb c dquote then String backslash (String dquote "")
  else if Ascii.eqb c backslash then String backslash (String backslash "")
  else if (n =? 10)%N then String backslash "n"
  else if (n =? 13)%N then String backslash "r"
  else if (n =? 9)%N then String backslash "t"
  else if (n =? 8)%N then String backslash "b"
  else if (n =? 12)%N then String backslash "f"
  else if (32 <=? n)%N && (n <=? 126)%N then String c ""
  else String backslash
         ("u00" ++ String (hex_digit (n / 16)) (String (hex_digit (n mod 16)) "")).

(** The body of a string literal. *)
Fixpoint escape (s : string) : string :=
  match s with
  | EmptyString => ""
  | String c r => escape_char c ++ escape r
  end.

(** [py_encode_basestring_ascii]: the string between double quotes. *)
Definition quote (s : string) : string :=
  String dquote (escape s ++ String dquote "").

(** [json.dumps(v)] with its default separators [", "] and [": "]. *)
Fixpoint dumps (v : json) : string :=
  match v with
  | JNull => "null"
  | JBool true => "true"
  | JBool false => "false"
  | JInt z => print_Z z
  | JFloat d => print_decimal d
  | JNonFinite NaN => "NaN"
  | JNonFinite PosInf => "Infinity"
  | JNonFinite NegInf => "-Infinity"
  | JStr s => quote s
  | JArr l =>
      match l with
      | [] => "[]"
      | x :: r =>
          "[" ++ dumps x ++
          (fix tail (r : list json) : string :=
             match r with
             | [] => "]"
             | y :: r' => ", " ++ dumps y ++ tail r'
             end) r
      end
  | JObj l =>
      match l with
      | [] => "{}"
      | (k, x) :: r =>
          "{" ++ quote k ++ ": " ++ dumps x ++
          (fix tail (r : list (string * json)) : string :=
             match r with
             | [] => "}"
             | (k', y) :: r' => ", " ++ quote k' ++ ": " ++ dumps y ++ tail r'
             end) r
      end
  end.

(** The text of an array after its first element. *)
Fixpoint dumps_elems (r : list json) : string :=
  match r with
  | [] => "]"
  | y :: r' => ", " ++ dumps y ++ dumps_elems r'
  end.

(** The text of an object after its first member. *)
Fixpoint dumps_members (r : list (string * json)) : string :=
  match r with
  | [] => "}"
  | (k, y) :: r' => ", " ++ quote k ++ ": " ++ dumps y ++ dumps_members r'
  end.

(** *** [json.loads] *)

(** The white space of JSON: space, tab, line feed, carriage return. *)
Definition is_ws (c : ascii) : bool :=
  let n := N_of_ascii c in
  (n =? 32)%N || (n =? 9)%N || (n =? 10)%N || (n =? 13)%N.

(** [WHITESPACE.match(s, idx).end()] *)
Fixpoint skip_ws (s : string) : string :=
  match s with
  | String c r => if is_ws c then skip_ws r else s
  | EmptyString => s
  end.

(** The value of a hexadecimal digit of either case. *)
Definition hex_val (c : ascii) : option N :=
  let n := N_of_ascii c in
  if (48 <=? n)%N && (n <=? 57)%N then Some (n - 48)%N
  else if (97 <=? n)%N && (n <=? 102)%N then Some (n - 87)%N
  else if (65 <=? n)%N && (n <=? 70)%N then Some (n - 55)%N
  else None.

(** The code point of a [\uXXXX] escape. *)
Definition hex4 (a b c d : ascii) : option N :=
  match hex_val a, hex_val b, hex_val c, hex_val d with
  | Some x, Some y, Some z, Some w => Some (((x * 16 + y) * 16 + z) * 16 + w)%N
  | _, _, _, _ => None
  end.

(** [BACKSLASH]: the character an escape letter stands for. *)
Definition unescape (e : ascii) : option ascii :=
  let n := N_of_ascii e in
  if Ascii.eqb e dquote then Some dquote
  else if Ascii.eqb e backslash then Some backslash
  else if Ascii.eqb e "/" then Some "/"%char
  else if Ascii.eqb e "b" then Some (ascii_of_N 8)
  else if Ascii.eqb e "f" then Some (ascii_of_N 12)
  else if Ascii.eqb e "n" then Some (ascii_of_N 10)
  else if Ascii.eqb e "r" then Some (ascii_of_N 13)
  else if Ascii.eqb e "t" then Some (ascii_of_N 9)
  else None.

(** [json.decoder.py_scanstring] in strict mode, entered after the opening
    quote; returns the decoded string and the text after the closing
    quote.  The escape of a code point above 255 stands for a character
    that the strings of the model cannot hold: the scanner stops there,
    and [wide_escape] below tells such a text from a malformed one. *)
Fixpoint scan_string (s : string) : option (string * string) :=
  match s with
  | EmptyString => None
  | String c r =>
      if Ascii.eqb c dquote then Some ("", r)
      else if Ascii.eqb c backslash then
        match r with
        | EmptyString => None
        | String e r1 =>
            if Ascii.eqb e "u" then
              match r1 with
              | String h1 (String h2 (String h3 (String h4 r2))) =>
                  match hex4 h1 h2 h3 h4 with
                  | Some n =>
                      if (n <? 256)%N then
                        match scan_string r2 with
                        | Some (t, rest) => Some (String (ascii_of_N n) t, rest)
                        | None => None
                        end
                      else None
                  | None => None
                  end
              | _ => None
              end
            else
              match unescape e with
              | Some c' =>
                  match scan_string r1 with
                  | Some (t, rest) => Some (String c' t, rest)
                  | None => None
                  end
              | None => None
              end
        end
      else if (N_of_ascii c <? 32)%N then None
      else
        match scan_string r with
        | Some (t, rest) => Some (String c t, rest)
        | None => None
        end
  end.

(** Whether the text holds the escape [\uXXXX] of a code point above 255.
    The text is read from left to right the way [scan_string] reads the
    escapes of a string. *)
Fixpoint wide_escape (s : string) : bool :=
  match s with
  | EmptyString => false
  | String c r =>
      if Ascii.eqb c backslash then
        match r with
        | EmptyString => false
        | String e r1 =>
            if Ascii.eqb e "u" then
              match r1 with
              | String h1 (String h2 (String h3 (String h4 r2))) =>
                  match hex4 h1 h2 h3 h4 with
                  | Some n => (255 <? n)%N || wide_escape r2
                  | None => wide_escape r1
                  end
              | _ => false
              end
            else wide_escape r1
        end
      else wide_escape r
  end.

(** The longest prefix of digits, and what follows it. *)
Fixpoint scan_digits (s : string) : string * string :=
  match s with
  | String c r =>
      if is_digit c then let '(ds, rest) := scan_digits r in (String c ds, rest)
      else ("", s)
  | EmptyString => ("", "")
  end.

(** [int(ds)] for a string of digits. *)
Definition N_of_digits (ds : string) : N :=
  match NilEmpty.uint_of_string ds with
  | Some u => N.of_uint u
  | None => 0%N
  end.

(** Fraction digits as [repr] shows them. *)
Fixpoint strip_zeros (s : string) : string :=
  match s with
  | EmptyString => ""
  | String c r =>
      match strip_zeros r with
      | EmptyString => if Ascii.eqb c "0" then "" else String c ""
      | r' => String c r'
      end
  end.

(** The fraction digits without trailing zeros, one digit at least. *)
Definition canon_frac (s : string) : string :=
  match strip_zeros s with
  | EmptyString => "0"
  | s' => s'
  end.

(** ["0" * n] *)
Fixpoint zeros (n : nat) : string :=
  match n with
  | O => ""
  | S n => String "0" (zeros n)
  end.

(** The value [ip.fr * 10^e] as a decimal. *)
Definition shift_decimal (neg : bool) (ip fr : string) (e : Z) : decimal :=
  if (0 <=? e)%Z then
    let k := Z.to_nat e in
    let fr' := fr ++ zeros (k - String.length fr) in
    {| dneg := neg;
       dint := N_of_digits (ip ++ substring 0 k fr');
       dfrac := canon_frac (substring k (String.length fr' - k) fr') |}
  else
    let k := Z.to_nat (- e) in
    let ip' := zeros (k - String.length ip) ++ ip in
    let cut := (String.length ip' - k)%nat in
    {| dneg := neg;
       dint := N_of_digits (substring 0 cut ip');
       dfrac := canon_frac (substring cut k ip' ++ fr) |}.

(** The integer part: ["0"] or a nonzero digit followed by digits. *)
Definition int_digits_ok (ds : string) : bool :=
  match ds with
  | EmptyString => false
  | String c EmptyString => true
  | String c _ => negb (Ascii.eqb c "0")
  end.

(** The optional minus sign of a number. *)
Definition scan_sign (s : string) : bool * string :=
  match s with
  | String c r => if Ascii.eqb c "-" then (true, r) else (false, s)
  | EmptyString => (false, s)
  end.

(** The fraction, when a point follows. *)
Definition scan_frac (s : string) : option string * string :=
  match s with
  | String c r =>
      if Ascii.eqb c "."
      then let '(ds, rest) := scan_digits r in (Some ds, rest)
      else (None, s)
  | EmptyString => (None, s)
  end.

(** The optional sign of an exponent. *)
Definition scan_exp_sign (s : string) : bool * string :=
  match s with
  | String c r =>
      if Ascii.eqb c "-" then (true, r)
      else if Ascii.eqb c "+" then (false, r)
      else (false, s)
  | EmptyString => (false, s)
  end.

(** [int(integer)] without fraction and exponent, a float otherwise. *)
Definition number_value (neg : bool) (ip : string) (fr : option string)
    (e : option Z) : json :=
  match fr, e with
  | None, None =>
      JInt (if neg then - Z.of_N (N_of_digits ip) else Z.of_N (N_of_digits ip))%Z
  | Some f, None =>
      JFloat {| dneg := neg; dint := N_of_digits ip; dfrac := canon_frac f |}
  | _, Some e =>
      JFloat (shift_decimal neg ip (match fr with Some f => f | None => "" end) e)
  end.

(** [NUMBER_RE] of [json.scanner], entered at a digit or a minus sign.  A
    number that is followed by a character the grammar cannot continue
    with is rejected here; [json.loads] rejects the text in either case. *)
Definition scan_number (s : string) : option (json * string) :=
  let '(neg, s1) := scan_sign s in
  let '(ip, s2) := scan_digits s1 in
  if negb (int_digits_ok ip) then None
  else
    let '(fr, s3) := scan_frac s2 in
    match fr with
    | Some EmptyString => None
    | _ =>
        match s3 with
        | String c r =>
            if Ascii.eqb c "e" || Ascii.eqb c "E" then
              let '(eneg, r1) := scan_exp_sign r in
              let '(ed, r2) := scan_digits r1 in
              match ed with
              | EmptyString => None
              | _ =>
                  let e := Z.of_N (N_of_digits ed) in
                  Some (number_value neg ip fr
                          (Some (if eneg then - e else e)%Z), r2)
              end
            else Some (number_value neg ip fr None, s3)
        | EmptyString => Some (number_value neg ip fr None, s3)
        end
    end.

(** [s[len(p):]] when [s.startswith(p)]. *)
Fixpoint strip_prefix (p s : string) : option string :=
  match p with
  | EmptyString => Some s
  | String a p' =>
      match s with
      | String b s' => if Ascii.eqb a b then strip_prefix p' s' else None
      | EmptyString => None
      end
  end.

(** [scan_once], [JSONArray] and [JSONObject] of [json.decoder]; [fuel]
    bounds the nesting of calls. *)
Fixpoint parse_value (fuel : nat) (s : string) : option (json * string) :=
  match fuel with
  | O => None
  | S fuel =>
      match s with
      | EmptyString => None
      | String c r =>
          if Ascii.eqb c dquote then
            match scan_string r with
            | Some (t, rest) => Some (JStr t, rest)
            | None => None
            end
          else if Ascii.eqb c "{" then
            match skip_ws r with
            | String c1 r1 =>
                if Ascii.eqb c1 "}" then Some (JObj [], r1)
                else if Ascii.eqb c1 dquote then parse_members fuel r1 []
                else None
            | EmptyString => None
            end
          else if Ascii.eqb c "[" then
            match skip_ws r with
            | String c1 r1 =>
                if Ascii.eqb c1 "]" then Some (JArr [], r1)
                else parse_elems fuel (String c1 r1) []
            | EmptyString => None
            end
          else if Ascii.eqb c "n" then
            match strip_prefix "ull" r with
            | Some rest => Some (JNull, rest)
            | None => None
            end
          else if Ascii.eqb c "t" then
            match strip_prefix "rue" r with
            | Some rest => Some (JBool true, rest)
            | None => None
            end
          else if Ascii.eqb c "f" then
            match strip_prefix "alse" r with
            | Some rest => Some (JBool false, rest)
            | None => None
            end
          else if Ascii.eqb c "N" then
            match strip_prefix "aN" r with
            | Some rest => Some (JNonFinite NaN, rest)
            | None => None
            end
          else if Ascii.eqb c "I" then
            match strip_prefix "nfinity" r with
            | Some rest => Some (JNonFinite PosInf, rest)
            | None => None
            end
          else if Ascii.eqb c "-" then
            match strip_prefix "Infinity" r with
            | Some rest => Some (JNonFinite NegInf, rest)
            | None => scan_number s
            end
          else if is_digit c then scan_number s
          else None
      end
  end

(** Entered at the first character of an element. *)
with parse_elems (fuel : nat) (s : string) (acc : list json)
  : option (json * string) :=
  match fuel with
  | O => None
  | S fuel =>
      match parse_value fuel s with
      | None => None
      | Some (v, r) =>
          match skip_ws r with
          | String c r1 =>
              if Ascii.eqb c "]" then Some (JArr (List.rev (v :: acc)), r1)
              else if Ascii.eqb c "," then parse_elems fuel (skip_ws r1) (v :: acc)
              else None
          | EmptyString => None
          end
      end
  end

(** Entered after the opening quote of a key. *)
with parse_members (fuel : nat) (s : string) (acc : list (string * json))
  : option (json * string) :=
  match fuel with
  | O => None
  | S fuel =>
      match scan_string s with
      | None => None
      | Some (k, r) =>
          match skip_ws r with
          | String c r1 =>
              if Ascii.eqb c ":" then
                match parse_value fuel (skip_ws r1) with
                | None => None
                | Some (v, r2) =>
                    match skip_ws r2 with
                    | String c2 r3 =>
                        if Ascii.eqb c2 "}" then
                          Some (JObj (dict_of_pairs (List.rev ((k, v) :: acc))), r3)
                        else if Ascii.eqb c2 "," then
                          match skip_ws r3 with
                          | String c3 r4 =>
                              if Ascii.eqb c3 dquote then
                                parse_members fuel r4 ((k, v) :: acc)
                              else None
                          | EmptyString => None
                          end
                        else None
                    | EmptyString => None
                    end
                end
              else None
          | EmptyString => None
          end
      end
  end.

(** [json.loads(s)]: one value between optional white space; [None]: the
    text is malformed, or it holds an escape above 255. *)
Definition loads (s : string) : option json :=
  match parse_value (S (String.length s)) (skip_ws s) with
  | Some (v, r) =>
      match skip_ws r with
      | EmptyString => Some v
      | _ => None
      end
  | None => None
  end.

End Json.


Import Json.

(** ** Python operations on parsed values *)

(** [p in s] for two strings. *)
Fixpoint is_substring (p s : string) : bool :=
  String.prefix p s ||
  match s with
  | EmptyString => false
  | String _ r => is_substring p r
  end.

(** [v is None] *)
Definition is_none (v : json) : bool :=
  match v with JNull => true | _ => false end.

(** [v == s] for a Python string [s]. *)
Definition eq_str (v : json) (s : string) : bool :=
  match v with JStr t => String.eqb t s | _ => false end.

(** [v[k]] *)
Definition py_getitem (v : json) (k : string) : result json :=
  match v with
  | JObj d =>
      match dict_get d k with
      | Some x => Ok x
      | None => Raise KeyError
      end
  | _ => Raise TypeError
  end.

(** [k in v] *)
Definition py_contains (v : json) (k : string) : result bool :=
  match v with
  | JObj d => Ok (dict_mem d k)
  | JArr l => Ok (existsb (fun x => eq_str x k) l)
  | JStr s => Ok (is_substring k s)
  | _ => Raise TypeError
  end.

(** [v.get(k)]; a missing key gives [None]. *)
Definition py_get (v : json) (k : string) : result json :=
  match v with
  | JObj d =>
      match dict_get d k with
      | Some x => Ok x
      | None => Ok JNull
      end
  | _ => Raise AttributeError
  end.

(** [v[k] = x] *)
Definition py_setitem (v : json) (k : string) (x : json) : result json :=
  match v with
  | JObj d => Ok (JObj (dict_set d k x))
  | _ => Raise TypeError
  end.

(** [json.loads(line)] with its exception.  A text that is not read and
    holds an escape above 255 is outside the model; any other text that
    is not read is malformed. *)
Definition json_loads (line : string) : result json :=
  match loads line with
  | Some v => Ok v
  | None => if wide_escape line then Raise Unmodelled else Raise JSONDecodeError
  end.

(** [json.dumps(v)] *)
Definition json_dumps (v : json) : string := dumps v.

(** [str.strip()] on code points below 256. *)
Definition is_space (c : ascii) : bool :=
  let n := N_of_ascii c in
  ((9 <=? n)%N && (n <=? 13)%N) || ((28 <=? n)%N && (n <=? 32)%N)
  || (n =? 133)%N || (n =? 160)%N.

(** [s.lstrip()] *)
Fixpoint lstrip (s : string) : string :=
  match s with
  | String c r => if is_space c then lstrip r else s
  | EmptyString => s
  end.

(** [s.rstrip()] *)
Fixpoint rstrip (s : string) : string :=
  match s with
  | EmptyString => ""
  | String c r =>
      match rstrip r with
      | EmptyString => if is_space c then "" else String c ""
      | r' => String c r'
      end
  end.

(** [s.strip()] *)
Definition strip (s : string) : string := rstrip (lstrip s).

(** ** [datetime] *)

(** A naive [datetime]. *)
Record datetime : Type := mk_datetime
  { year : N; month : N; day : N;
    hour : N; minute : N; second : N; microsecond : N }.

(** The digits of [n], padded with zeros on the left to [width]. *)
Definition pad (width : nat) (n : N) : string :=
  let ds := print_N n in
  zeros (width - String.length ds) ++ ds.

(** [d.isoformat()] *)
Definition isoformat (d : datetime) : string :=
  pad 4 (year d) ++ "-" ++ pad 2 (month d) ++ "-" ++ pad 2 (day d) ++ "T" ++
  pad 2 (hour d) ++ ":" ++ pad 2 (minute d) ++ ":" ++ pad 2 (second d) ++
  (if (microsecond d =? 0)%N then "" else "." ++ pad 6 (microsecond d)).

(** [d.strftime('%Y%m%d')] *)
Definition strftime_Ymd (d : datetime) : string :=
  pad 4 (year d) ++ pad 2 (month d) ++ pad 2 (day d).

(** Exactly [k] digits at the start of [s], and what follows them. *)
Fixpoint take_digits (k : nat) (s : string) : option (string * string) :=
  match k with
  | O => Some ("", s)
  | S k =>
      match s with
      | String c r =>
          if is_digit c then
            match take_digits k r with
            | Some (ds, rest) => Some (String c ds, rest)
            | None => None
            end
          else None
      | EmptyString => None
      end
  end.

(** A field of [k] digits. *)
Definition take_number (k : nat) (s : string) : result (N * string) :=
  match take_digits k s with
  | Some (ds, rest) => Ok (N_of_digits ds, rest)
  | None => Raise ValueError
  end.

(** The separator [c] at the start of [s]. *)
Definition expect (c : ascii) (s : string) : result string :=
  match s with
  | String c' r => if Ascii.eqb c c' then Ok r else Raise ValueError
  | EmptyString => Raise ValueError
  end.

(** [calendar.isleap] *)
Definition is_leap (y : N) : bool :=
  ((y mod 4 =? 0) && negb (y mod 100 =? 0) || (y mod 400 =? 0))%N.

(** The number of days of month [m] of year [y]. *)
Definition days_in_month (y m : N) : N :=
  (if m =? 2 then (if is_leap y then 29 else 28)
   else if (m =? 4) || (m =? 6) || (m =? 9) || (m =? 11) then 30
   else 31)%N.

(** The ranges the constructor of [datetime] checks. *)
Definition valid_datetime (d : datetime) : bool :=
  ((1 <=? year d) && (year d <=? 9999) &&
   (1 <=? month d) && (month d <=? 12) &&
   (1 <=? day d) && (day d <=? days_in_month (year d) (month d)) &&
   (hour d <=? 23) && (minute d <=? 59) && (second d <=? 59) &&
   (microsecond d <=? 999999))%N.

Local Open Scope result_scope.

(** The fields of a text in the layout [isoformat] writes for naive
    datetimes: [YYYY-MM-DDTHH:MM:SS] with an optional [.ffffff]. *)
Definition read_isoformat (s : string) : result datetime :=
  '(y, s) <- take_number 4 s ;;
  s <- expect "-" s ;;
  '(mo, s) <- take_number 2 s ;;
  s <- expect "-" s ;;
  '(d, s) <- take_number 2 s ;;
  s <- expect "T" s ;;
  '(h, s) <- take_number 2 s ;;
  s <- expect ":" s ;;
  '(mi, s) <- take_number 2 s ;;
  s <- expect ":" s ;;
  '(sec, s) <- take_number 2 s ;;
  '(us, s) <-
     match s with
     | EmptyString => Ok (0%N, s)
     | _ => s <- expect "." s ;; take_number 6 s
     end ;;
  match s with
  | EmptyString => Ok (mk_datetime y mo d h mi sec us)
  | _ => Raise ValueError
  end.

(** [datetime.fromisoformat(s)].  A text in the layout of [isoformat] is
    read, and refused with [ValueError] when a field is out of range.  A
    text that does not start with the four digits of a year is refused by
    every version of the library.  The other texts (a date alone, another
    separator, a fraction of another length, a UTC offset, the hour 24)
    are read by some versions and refused by others, and an offset gives
    a datetime that cannot be compared with a naive one: they are outside
    the model. *)
Definition fromisoformat (s : string) : result datetime :=
  match read_isoformat s with
  | Ok dt =>
      if valid_datetime dt then Ok dt
      else if (hour dt =? 24)%N then Raise Unmodelled
      else Raise ValueError
  | Raise _ =>
      match take_digits 4 s with
      | Some _ => Raise Unmodelled
      | None => Raise ValueError
      end
  end.

(** [datetime.fromisoformat(v)] for a parsed value [v]. *)
Definition fromisoformat_value (v : json) : result datetime :=
  match v with
  | JStr s => fromisoformat s
  | _ => Raise TypeError
  end.

(** Position of a datetime on the time line, in microseconds of a calendar
    with months of 31 days: it orders datetimes as Python compares them. *)
Definition dt_key (d : datetime) : Z :=
  ((((((Z.of_N (year d) * 12 + Z.of_N (month d)) * 31 + Z.of_N (day d)) * 24
      + Z.of_N (hour d)) * 60 + Z.of_N (minute d)) * 60
    + Z.of_N (second d)) * 1000000 + Z.of_N (microsecond d))%Z.

(** [a < b] and [a <= b] on datetimes. *)
Definition dt_ltb (a b : datetime) : bool := (dt_key a <? dt_key b)%Z.
Definition dt_leb (a b : datetime) : bool := (dt_key a <=? dt_key b)%Z.

(** ** Loops whose body may raise *)

(** [for x in l: if keep(x): out.append(x)] where [keep] may raise. *)
Fixpoint filterM {A : Type} (f : A -> result bool) (l : list A)
  : result (list A) :=
  match l with
  | [] => Ok []
  | x :: r =>
      b <- f x ;;
      ys <- filterM f r ;;
      Ok (if b then x :: ys else ys)
  end.

(** [for x in l: try: body(x) except E: continue] *)
Fixpoint filter_ok {A B : Type} (f : A -> result B) (l : list A) : list B :=
  match l with
  | [] => []
  | x :: r =>
      match f x with
      | Ok y => y :: filter_ok f r
      | Raise _ => filter_ok f r
      end
  end.

(** ** Numbers *)

(** A Python number that is supplied by a caller: [int] or finite
    [float]. *)
Inductive number : Type :=
| NInt (z : Z)
| NFloat (d : decimal).

(** The number as a value. *)
Definition json_of_number (n : number) : json :=
  match n with
  | NInt z => JInt z
  | NFloat d => JFloat d
  end.

(** An optional argument as a value, a missing one being [None]. *)
Definition json_of_option {A : Type} (f : A -> json) (o : option A) : json :=
  match o with
  | Some a => f a
  | None => JNull
  end.

(** The rational value of a finite float. *)
Definition Q_of_decimal (d : decimal) : Q :=
  let frac := Z.of_N (N_of_digits (dfrac d)) in
  let scale := Z.to_pos (10 ^ Z.of_nat (String.length (dfrac d))) in
  let q := Qplus (inject_Z (Z.of_N (dint d))) (Qmake frac scale) in
  if dneg d then Qopp q else q.

(** The rational value of a number. *)
Definition Q_of_number (n : number) : Q :=
  match n with
  | NInt z => inject_Z z
  | NFloat d => Q_of_decimal d
  end.

(** [a < b] on rationals. *)
Definition Qltb (a b : Q) : bool := negb (Qle_bool b a).

(** [a / b] with [zero_division = 0]. *)
Definition ratio (a b : nat) : Q :=
  match b with
  | O => 0%Q
  | S _ => Qred (Qmake (Z.of_nat a) (Pos.of_nat b))
  end.

(** ** [sklearn.metrics], binary classification with [pos_label = 1]

    Targets are the numbers with an integral value; [None], NaN, the
    infinities and the other floats are reported as [ValueError].
    [precision_score], [recall_score] and [f1_score] with
    [average = 'binary'] refuse targets with more than two classes, and
    two classes neither of which is the positive label.  What the
    library does with text, lists, dictionaries and numbers that do not
    fit 64 bits depends on how NumPy converts the whole list: lists that
    hold such a target are outside the model. *)

(** The integers of 64 bits. *)
Definition in_int64 (z : Z) : bool :=
  ((- 2 ^ 63 <=? z) && (z <? 2 ^ 63))%Z.

(** The targets that are modelled. *)
Definition modelled_target (v : json) : bool :=
  match v with
  | JStr _ | JArr _ | JObj _ => false
  | JInt z => in_int64 z
  | JFloat d => (Z.of_N (dint d) <? 2 ^ 63)%Z
  | _ => true
  end.

(** The class a target stands for, when its value is integral. *)
Definition label_value (v : json) : option Z :=
  match v with
  | JInt z => Some z
  | JBool b => Some (if b then 1 else 0)%Z
  | JFloat d =>
      if String.eqb (dfrac d) "0"
      then Some (if dneg d then - Z.of_N (dint d) else Z.of_N (dint d))%Z
      else None
  | _ => None
  end.

(** The classes of a list of targets. *)
Definition targets (l : list json) : result (list Z) :=
  mapM (fun v => match label_value v with
                 | Some z => Ok z
                 | None => Raise ValueError
                 end) l.

(** [_check_targets]: the classes of the true labels and of the
    predictions. *)
Definition check_targets (y_true y_pred : list json)
  : result (list Z * list Z) :=
  if negb (forallb modelled_target (y_true ++ y_pred)%list)
  then Raise Unmodelled
  else
    match targets y_true with
    | Raise e => Raise e
    | Ok yt =>
        match targets y_pred with
        | Raise e => Raise e
        | Ok yp => Ok (yt, yp)
        end
    end.

(** The number of positions at which true label and prediction satisfy
    [f]. *)
Definition count_pairs (f : Z -> Z -> bool) (y_true y_pred : list Z) : nat :=
  List.length (filter (fun p => f (fst p) (snd p)) (combine y_true y_pred)).

(** The positive class. *)
Definition is_pos (z : Z) : bool := (z =? 1)%Z.

(** The cells of the confusion matrix. *)
Definition tp_count := count_pairs (fun t p => is_pos t && is_pos p).
Definition fp_count := count_pairs (fun t p => negb (is_pos t) && is_pos p).
Definition fn_count := count_pairs (fun t p => is_pos t && negb (is_pos p)).
Definition tn_count := count_pairs (fun t p => negb (is_pos t) && negb (is_pos p)).

(** The check of [average = 'binary']: at most two classes, and among
    two classes the positive one. *)
Definition binary_targets (y_true y_pred : list Z) : result unit :=
  let classes := nodup Z.eq_dec (y_true ++ y_pred)%list in
  if (2 <? List.length classes)%nat then Raise ValueError
  else if negb (existsb is_pos classes) && (2 <=? List.length classes)%nat
       then Raise ValueError
  else Ok tt.

(** The fraction of positions at which prediction and true label agree. *)
Definition accuracy_score (y_true y_pred : list json) : result Q :=
  '(yt, yp) <- check_targets y_true y_pred ;;
  Ok (ratio (count_pairs Z.eqb yt yp) (List.length yt)).

(** [tp / (tp + fp)] *)
Definition precision_score (y_true y_pred : list json) : result Q :=
  '(yt, yp) <- check_targets y_true y_pred ;;
  _ <- binary_targets yt yp ;;
  Ok (ratio (tp_count yt yp) (tp_count yt yp + fp_count yt yp)).

(** [tp / (tp + fn)] *)
Definition recall_score (y_true y_pred : list json) : result Q :=
  '(yt, yp) <- check_targets y_true y_pred ;;
  _ <- binary_targets yt yp ;;
  Ok (ratio (tp_count yt yp) (tp_count yt yp + fn_count yt yp)).

(** [2 tp / (2 tp + fp + fn)], the harmonic mean of precision and recall. *)
Definition f1_score (y_true y_pred : list json) : result Q :=
  '(yt, yp) <- check_targets y_true y_pred ;;
  _ <- binary_targets yt yp ;;
  Ok (ratio (2 * tp_count yt yp)
        (2 * tp_count yt yp + fp_count yt yp + fn_count yt yp)).

(** ** Persisted state *)

(** Values of a Metrics Snapshot. *)
Inductive mval : Type :=
| MInt (n : Z)
| MFloat (q : Q)
| MStr (s : string).

(** A Metrics Snapshot: a dictionary from metric names to values. *)
Definition metrics : Type := list (string * mval).

(** Content of a history file: the list this code writes, or any other
    document, which the code wraps into a list. *)
Inductive history (A : Type) : Type :=
| HList (l : list A)
| HOther (x : A).

Arguments HList {A} l.
Arguments HOther {A} x.

(** The list [existing_metrics] that is loaded from a history file. *)
Definition existing_entries {A : Type} (h : option (history A)) : list A :=
  match h with
  | None => []
  | Some (HList l) => l
  | Some (HOther x) => [x]
  end.

(** A truth value: a [bool] of Python, or the [numpy.bool_] that the
    comparison of a NumPy number gives, which [json] does not
    serialize. *)
Inductive truth : Type :=
| PyBool (b : bool)
| NpBool (b : bool).

(** [if t:] *)
Definition is_true (t : truth) : bool :=
  match t with PyBool b | NpBool b => b end.

(** The entry of one feature in a Drift Report. *)
Record feature_drift : Type :=
  { ks_stat : Q; p_value : Q; drift_detected : truth }.

(** A Drift Report. *)
Record drift_report : Type :=
  { dr_timestamp : string;
    n_reference : nat;
    n_current : nat;
    dr_features : list (string * feature_drift);
    overall_drift : bool }.

(** A column of numeric dtype ([int64] or [float64]), or of dtype
    [object], whose cells are Python objects.  Columns of the other
    dtypes ([bool], [datetime64] and the like) are not represented. *)
Inductive column : Type :=
| NumCol (cells : list (option number))
| ObjCol (cells : list json).

(** A [pandas.DataFrame]: its number of rows and its columns in order;
    a missing cell of a numeric column is NaN. *)
Record DataFrame : Type :=
  { nrows : nat;
    columns : list (string * column) }.

(** Content of the drift history file: a document, or the beginning of
    one, which is what [json.dump] leaves behind when it raises. *)
Inductive drift_file : Type :=
| DriftDocument (h : history drift_report)
| DriftCut.

(** The files of the monitor. *)
Inductive file : Type :=
| prediction_logs_jsonl
| performance_metrics_json
| drift_metrics_json.

(** The files under [metrics_path] ([None]: the file does not exist), the
    DataFrame objects of the process by address, and the files opened for
    writing or appending so far, oldest first. *)
Record state : Type :=
  { prediction_logs : option (list string);
    performance_metrics : option (history metrics);
    drift_metrics : option drift_file;
    frames : list DataFrame;
    written : list file }.

(** [open(path, "w")] and the writing of the new content, for each of
    the three files. *)
Definition set_prediction_logs (st : state) (lines : list string) : state :=
  {| prediction_logs := Some lines;
     performance_metrics := performance_metrics st;
     drift_metrics := drift_metrics st;
     frames := frames st;
     written := (written st ++ [prediction_logs_jsonl])%list |}.

Definition set_performance_metrics (st : state) (l : list metrics) : state :=
  {| prediction_logs := prediction_logs st;
     performance_metrics := Some (HList l);
     drift_metrics := drift_metrics st;
     frames := frames st;
     written := (written st ++ [performance_metrics_json])%list |}.

Definition set_drift_metrics (st : state) (l : list drift_report) : state :=
  {| prediction_logs := prediction_logs st;
     performance_metrics := performance_metrics st;
     drift_metrics := Some (DriftDocument (HList l));
     frames := frames st;
     written := (written st ++ [drift_metrics_json])%list |}.

(** [open(drift_path, "w")] followed by a [json.dump] that raises: the
    file keeps the text that was written until then. *)
Definition cut_drift_metrics (st : state) : state :=
  {| prediction_logs := prediction_logs st;
     performance_metrics := performance_metrics st;
     drift_metrics := Some DriftCut;
     frames := frames st;
     written := (written st ++ [drift_metrics_json])%list |}.

(** The list with [x] at index [i]; an index out of range changes
    nothing. *)
Fixpoint set_nth {A : Type} (l : list A) (i : nat) (x : A) : list A :=
  match l, i with
  | [], _ => []
  | _ :: r, O => x :: r
  | y :: r, S i => y :: set_nth r i x
  end.

(** The object at address [a] becomes [df]. *)
Definition set_frame (st : state) (a : nat) (df : DataFrame) : state :=
  {| prediction_logs := prediction_logs st;
     performance_metrics := performance_metrics st;
     drift_metrics := drift_metrics st;
     frames := set_nth (frames st) a df;
     written := written st |}.

(** [open(log_path, "a")] followed by one [write] per line. *)
Definition append_lines (st : state) (lines : list string) : state :=
  set_prediction_logs st
    (match prediction_logs st with
     | Some old => old ++ lines
     | None => lines
     end)%list.

(** ** [ModelMonitor] *)

(** The configuration dictionary of the monitor; [None] is a missing
    key. *)
Record Config : Type :=
  { cfg_enable_monitoring : option bool;
    cfg_drift_detection : option bool;
    cfg_performance_tracking : option bool;
    cfg_alert_threshold : option (list (string * Q)) }.

(** [config.get(key, True)] *)
Definition get_flag (o : option bool) : bool :=
  match o with Some b => b | None => true end.

(** The attributes of a [ModelMonitor]. *)
Record ModelMonitor : Type :=
  { config : Config;
    enable_monitoring : bool;
    alert_threshold : list (string * Q) }.

(** [ModelMonitor.__init__] *)
Definition ModelMonitor_init (cfg : Config) : ModelMonitor :=
  {| config := cfg;
     enable_monitoring := get_flag (cfg_enable_monitoring cfg);
     alert_threshold :=
       match cfg_alert_threshold cfg with
       | Some t => t
       | None => [("precision", 8 # 10); ("recall", 8 # 10); ("f1", 8 # 10)]%Q
       end |}.

(** [config.MONITORING_CONFIG] *)
Definition MONITORING_CONFIG : Config :=
  {| cfg_enable_monitoring := Some true;
     cfg_drift_detection := Some true;
     cfg_performance_tracking := Some true;
     cfg_alert_threshold :=
       Some [("precision", 8 # 10); ("recall", 8 # 10); ("f1", 8 # 10)]%Q |}.

(** *** [log_prediction] *)

(** [if metadata:] holds for a dictionary that is given and not empty. *)
Definition truthy_dict {A : Type} (o : option (list A)) : bool :=
  match o with
  | Some (_ :: _) => true
  | _ => false
  end.

(** The dictionary [log_entry] of [log_prediction]. *)
Definition prediction_entry (now : datetime) (prediction_id : string)
    (features : list (string * json)) (prediction : number)
    (probability : option decimal) (true_label : option number)
    (metadata : option (list (string * json))) : list (string * json) :=
  let log_entry :=
    [("prediction_id", JStr prediction_id);
     ("timestamp", JStr (isoformat now));
     ("prediction", json_of_number prediction);
     ("probability", json_of_option JFloat probability);
     ("true_label", json_of_option json_of_number true_label);
     ("features", JObj features)] in
  if truthy_dict metadata
  then dict_set log_entry "metadata"
         (JObj (match metadata with Some md => md | None => [] end))
  else log_entry.

(** Appends one line to the prediction log, unless monitoring is
    disabled. *)
Definition log_prediction (m : ModelMonitor) (now : datetime)
    (prediction_id : string) (features : list (string * json))
    (prediction : number) (probability : option decimal)
    (true_label : option number) (metadata : option (list (string * json)))
    (st : state) : state :=
  if negb (enable_monitoring m) then st
  else
    let log_entry :=
      prediction_entry now prediction_id features prediction probability
        true_label metadata in
    append_lines st [json_dumps (JObj log_entry)].

(** *** [log_batch_predictions] *)

(** The dtype of a column, and of the rows [iterrows] yields. *)
Inductive dtype : Type := int64 | float64 | object.

(** A value as a row of [iterrows] holds it: a Python object, or a
    [numpy.int64].  A [numpy.float64] is a [float] for [str], [float]
    and [json.dumps], and is not told apart from one. *)
Inductive scalar : Type :=
| PyObj (v : json)
| NpInt64 (z : Z).

(** [float(z)] for an integer. *)
Definition float_of_Z (z : Z) : json :=
  JFloat {| dneg := (z <? 0)%Z; dint := Z.abs_N z; dfrac := "0" |}.

(** [float(x)] of a cell; the float a text stands for is not modelled,
    nor is what [float] does with an integer beyond the range of the
    floats. *)
Definition py_float (x : scalar) : result json :=
  match x with
  | NpInt64 z => Ok (float_of_Z z)
  | PyObj (JInt z) =>
      if (Z.abs z <? 2 ^ 1023)%Z then Ok (float_of_Z z) else Raise Unmodelled
  | PyObj (JBool b) => Ok (float_of_Z (if b then 1 else 0))
  | PyObj (JFloat d) => Ok (JFloat d)
  | PyObj (JNonFinite k) => Ok (JNonFinite k)
  | PyObj (JStr _) => Raise Unmodelled
  | PyObj _ => Raise TypeError
  end.

(** [str(x)] of a cell; the text of a list or of a dictionary is not
    modelled. *)
Definition py_str (x : scalar) : result string :=
  match x with
  | NpInt64 z => Ok (print_Z z)
  | PyObj (JStr s) => Ok s
  | PyObj JNull => Ok "None"
  | PyObj (JBool true) => Ok "True"
  | PyObj (JBool false) => Ok "False"
  | PyObj (JNonFinite NaN) => Ok "nan"
  | PyObj (JNonFinite PosInf) => Ok "inf"
  | PyObj (JNonFinite NegInf) => Ok "-inf"
  | PyObj (JInt z) => Ok (print_Z z)
  | PyObj (JFloat d) => Ok (print_decimal d)
  | PyObj _ => Raise Unmodelled
  end.

(** Every cell of a numeric column is an integer. *)
Definition int_cells (cells : list (option number)) : bool :=
  forallb (fun c => match c with Some (NInt _) => true | _ => false end) cells.

(** A numeric column whose cells are all integers has the dtype [int64];
    with a float or a missing cell it has the dtype [float64]. *)
Definition column_dtype (c : column) : dtype :=
  match c with
  | NumCol cells => if int_cells cells then int64 else float64
  | ObjCol _ => object
  end.

(** The cell of row [i] as a Python object: an integer in a column of
    integers, a float in a column of floats, where a missing cell is
    NaN. *)
Definition cell (c : column) (i : nat) : json :=
  match c with
  | NumCol cells =>
      match nth_error cells i with
      | Some (Some (NInt z)) => if int_cells cells then JInt z else float_of_Z z
      | Some (Some (NFloat d)) => JFloat d
      | _ => JNonFinite NaN
      end
  | ObjCol cells =>
      match nth_error cells i with
      | Some v => v
      | None => JNull
      end
  end.

(** The common dtype of the columns, which is the dtype of every row:
    [object] as soon as a column is, [int64] when every column is, and
    [float64] otherwise. *)
Definition row_dtype (df : DataFrame) : dtype :=
  if existsb (fun kc => match column_dtype (snd kc) with
                        | object => true
                        | _ => false
                        end) (columns df)
  then object
  else if forallb (fun kc => match column_dtype (snd kc) with
                             | int64 => true
                             | _ => false
                             end) (columns df)
  then int64
  else float64.

(** The cell [v] in a row of dtype [d]: a row of integers holds
    [numpy.int64], a row of floats the float of every cell, and a row of
    objects the Python objects. *)
Definition in_row (d : dtype) (v : json) : scalar :=
  match d, v with
  | int64, JInt z => NpInt64 z
  | float64, JInt z => PyObj (float_of_Z z)
  | _, _ => PyObj v
  end.

(** Every integer of a numeric column is a 64-bit integer, so that the
    dtype of the column is [int64] or [float64]. *)
Definition int64_columns (df : DataFrame) : bool :=
  forallb (fun kc => match snd kc with
                     | NumCol cells =>
                         forallb (fun x => match x with
                                           | Some (NInt z) => in_int64 z
                                           | _ => true
                                           end) cells
                     | ObjCol _ => true
                     end) (columns df).

(** [row[col]] for the row [i] of [df]; the rows [iterrows] yields for a
    table with a larger integer in a numeric column are not modelled. *)
Definition row_get (df : DataFrame) (i : nat) (col : string) : result scalar :=
  if negb (int64_columns df) then Raise Unmodelled
  else
    match dict_get (columns df) col with
    | Some c => Ok (in_row (row_dtype df) (cell c i))
    | None => Raise KeyError
    end.

(** [col in row] *)
Definition row_mem (df : DataFrame) (col : string) : bool :=
  dict_mem (columns df) col.

(** [f"pred_{datetime.now().strftime('%Y%m%d')}_{i}"] for each row; the
    clock is read once per row. *)
Definition generated_ids (now : nat -> datetime) (n : nat) : list string :=
  map (fun i => "pred_" ++ strftime_Ymd (now i) ++ "_" ++ print_N (N.of_nat i))
      (seq 0 n).

(** [df[name] = values] *)
Definition set_column (df : DataFrame) (name : string) (c : column)
  : DataFrame :=
  {| nrows := nrows df; columns := dict_set (columns df) name c |}.

(** The dictionary [log_entry] of a row: the keys [probability] and
    [true_label] are set only for a column that is named and present. *)
Record batch_record : Type :=
  { br_prediction_id : string;
    br_timestamp : string;
    br_prediction : json;
    br_features : list (string * scalar);
    br_probability : option json;
    br_true_label : option json }.

(** [float(row[col])] under [if col and col in row]. *)
Definition optional_float (df : DataFrame) (i : nat) (col : option string)
  : result (option json) :=
  match col with
  | Some c =>
      if negb (String.eqb c "") && row_mem df c
      then v <- row_get df i c ;; p <- py_float v ;; Ok (Some p)
      else Ok None
  | None => Ok None
  end.

(** The dictionary [log_entry] for the row [i], with the reading [now]
    of the clock. *)
Definition batch_entry (df : DataFrame) (now : datetime)
    (features_cols : list string) (prediction_col : string)
    (probability_col true_label_col : option string) (id_col : string)
    (i : nat) : result batch_record :=
  features <-
    mapM (fun col => v <- row_get df i col ;; Ok (col, v))
         (filter (row_mem df) features_cols) ;;
  id <- row_get df i id_col ;;
  id <- py_str id ;;
  prediction <-
    (if row_mem df prediction_col
     then v <- row_get df i prediction_col ;; py_float v
     else Ok JNull) ;;
  probability <- optional_float df i probability_col ;;
  true_label <- optional_float df i true_label_col ;;
  Ok {| br_prediction_id := id;
        br_timestamp := isoformat now;
        br_prediction := prediction;
        br_features := dict_of_pairs features;
        br_probability := probability;
        br_true_label := true_label |}.

(** The value [json.dumps] writes for a cell: a [numpy.int64] is not
    serializable. *)
Definition encode_scalar (x : scalar) : result json :=
  match x with
  | PyObj v => Ok v
  | NpInt64 _ => Raise TypeError
  end.

(** The keys of the entry in the order in which they were set, with the
    values [json.dumps] writes for the features. *)
Definition entry_dict (e : batch_record) (features : list (string * json))
  : list (string * json) :=
  let log_entry :=
    [("prediction_id", JStr (br_prediction_id e));
     ("timestamp", JStr (br_timestamp e));
     ("prediction", br_prediction e);
     ("features", JObj features)] in
  let log_entry :=
    match br_probability e with
    | Some p => dict_set log_entry "probability" p
    | None => log_entry
    end in
  match br_true_label e with
  | Some t => dict_set log_entry "true_label" t
  | None => log_entry
  end.

(** The entry as the value [json.dumps] writes. *)
Definition entry_json (e : batch_record) : result json :=
  features <-
    mapM (fun kv => v <- encode_scalar (snd kv) ;; Ok (fst kv, v))
         (br_features e) ;;
  Ok (JObj (entry_dict e features)).

(** [json.dumps(entry)] *)
Definition dumps_entry (e : batch_record) : result string :=
  v <- entry_json e ;; Ok (json_dumps v).

(** The loop under [with open(log_path, "a")]: the lines that were
    written, and the exception that ended the loop, if any. *)
Fixpoint write_entries (log_entries : list batch_record)
  : list string * result unit :=
  match log_entries with
  | [] => ([], Ok tt)
  | entry :: r =>
      match dumps_entry entry with
      | Raise e => ([], Raise e)
      | Ok line =>
          let '(lines, outcome) := write_entries r in (line :: lines, outcome)
      end
  end.

(** The table is passed by reference: [predictions_df] is the address of
    the caller's object in [frames].  The clock is read once per
    generated identifier and then once per row. *)
Definition log_batch_predictions (m : ModelMonitor) (now : nat -> datetime)
    (predictions_df : nat) (features_cols : list string)
    (prediction_col : string) (probability_col true_label_col : option string)
    (id_col : option string) (st : state) : result unit * state :=
  if negb (enable_monitoring m) then (Ok tt, st)
  else
    match nth_error (frames st) predictions_df with
    | None => (Raise TypeError, st)
    | Some df =>
        let provided :=
          match id_col with
          | Some c => if row_mem df c then Some c else None
          | None => None
          end in
        let '(st, df, id_col, readings) :=
          match provided with
          | Some c => (st, df, c, 0)
          | None =>
              let df' :=
                set_column df "prediction_id"
                  (ObjCol (map JStr (generated_ids now (nrows df)))) in
              (set_frame st predictions_df df', df', "prediction_id", nrows df)
          end in
        match mapM (fun i =>
                      batch_entry df (now (readings + i)) features_cols
                        prediction_col probability_col true_label_col id_col i)
                   (seq 0 (nrows df)) with
        | Raise e => (Raise e, st)
        | Ok log_entries =>
            let '(lines, outcome) := write_entries log_entries in
            (outcome, append_lines st lines)
        end
    end.

(** *** [calculate_performance_metrics] *)

(** The body of the time filter for one record. *)
Definition in_time_range (start_time end_time : option datetime) (log : json)
  : result bool :=
  ts <- py_getitem log "timestamp" ;;
  log_time <- fromisoformat_value ts ;;
  if match start_time with Some s => dt_ltb log_time s | None => false end
  then Ok false
  else if match end_time with Some e => dt_ltb e log_time | None => false end
  then Ok false
  else Ok true.

(** The block under [if start_time or end_time:]. *)
Definition filter_by_time (start_time end_time : option datetime)
    (logs : list json) : result (list json) :=
  match start_time, end_time with
  | None, None => Ok logs
  | _, _ => filterM (in_time_range start_time end_time) logs
  end.

(** ["prediction" in log and "true_label" in log and
     log["true_label"] is not None] *)
Definition is_labeled (log : json) : result bool :=
  b <- py_contains log "prediction" ;;
  if negb b then Ok false
  else
    b <- py_contains log "true_label" ;;
    if negb b then Ok false
    else
      t <- py_getitem log "true_label" ;;
      Ok (negb (is_none t)).

(** The lists [predictions] and [true_labels], as a list of pairs.  The
    list [probabilities], which is filled in the same loop and never read,
    is left out. *)
Fixpoint extract_labeled (logs : list json) : result (list (json * json)) :=
  match logs with
  | [] => Ok []
  | log :: r =>
      b <- is_labeled log ;;
      if b then
        p <- py_getitem log "prediction" ;;
        t <- py_getitem log "true_label" ;;
        rest <- extract_labeled r ;;
        Ok ((p, t) :: rest)
      else extract_labeled r
  end.

(** [_check_metric_alerts]: the metrics below their threshold. *)
Fixpoint _check_metric_alerts (thresholds : list (string * Q)) (ms : metrics)
  : result (list string) :=
  match thresholds with
  | [] => Ok []
  | (metric, threshold) :: r =>
      below <-
        match dict_get ms metric with
        | None => Ok false
        | Some (MFloat q) => Ok (Qltb q threshold)
        | Some (MInt n) => Ok (Qltb (inject_Z n) threshold)
        | Some (MStr _) => Raise TypeError
        end ;;
      alerts <- _check_metric_alerts r ms ;;
      Ok (if below then metric :: alerts else alerts)
  end.

(** The loop under [# Load logs]. *)
Definition load_logs (lines : list string) : result (list json) :=
  mapM json_loads lines.

(** The pairs of a prediction and its true label that the metrics are
    computed from. *)
Definition labeled_pairs (lines : list string)
    (start_time end_time : option datetime) : result (list (json * json)) :=
  logs <- load_logs lines ;;
  logs <- filter_by_time start_time end_time logs ;;
  extract_labeled logs.

(** The dictionary [metrics] before its timestamp is added: [None] when
    there is no labeled data. *)
Definition metrics_of (labeled : list (json * json)) : result (option metrics) :=
  let predictions := map fst labeled in
  let true_labels := map snd labeled in
  match true_labels with
  | [] => Ok None
  | _ :: _ =>
      let ms := dict_set [] "count" (MInt (Z.of_nat (List.length true_labels))) in
      a <- accuracy_score true_labels predictions ;;
      let ms := dict_set ms "accuracy" (MFloat a) in
      p <- precision_score true_labels predictions ;;
      let ms := dict_set ms "precision" (MFloat p) in
      r <- recall_score true_labels predictions ;;
      let ms := dict_set ms "recall" (MFloat r) in
      f <- f1_score true_labels predictions ;;
      let ms := dict_set ms "f1" (MFloat f) in
      Ok (Some ms)
  end.

(** What [calculate_performance_metrics] computes from the lines of the
    log, before anything is saved. *)
Definition compute_metrics (lines : list string)
    (start_time end_time : option datetime) : result (option metrics) :=
  labeled <- labeled_pairs lines start_time end_time ;;
  metrics_of labeled.

(** The metrics computed from the records [logs] of the window. *)
Definition metrics_over (logs : list json) : result (option metrics) :=
  labeled <- extract_labeled logs ;;
  metrics_of labeled.

(** The end of [calculate_performance_metrics], from the metrics that
    were computed: the timestamp, the history file and the alerts. *)
Definition save_metrics (m : ModelMonitor) (now : datetime) (st : state)
    (computed : result (option metrics)) : result metrics * state :=
  match computed with
  | Raise e => (Raise e, st)
  | Ok None => (Ok [], st)
  | Ok (Some ms) =>
      let existing_metrics := existing_entries (performance_metrics st) in
      let ms := dict_set ms "timestamp" (MStr (isoformat now)) in
      let st := set_performance_metrics st (existing_metrics ++ [ms])%list in
      match _check_metric_alerts (alert_threshold m) ms with
      | Raise e => (Raise e, st)
      | Ok _ => (Ok ms, st)
      end
  end.

(** Returns the metrics ([[]] is the empty dictionary) and the new state. *)
Definition calculate_performance_metrics (m : ModelMonitor) (now : datetime)
    (start_time end_time : option datetime) (st : state)
  : result metrics * state :=
  if negb (enable_monitoring m) then (Ok [], st)
  else
    match prediction_logs st with
    | None => (Ok [], st)
    | Some lines =>
        save_metrics m now st (compute_metrics lines start_time end_time)
    end.

(** *** [detect_data_drift] *)

(** Sorting by insertion, smallest value first. *)
Fixpoint insert_sorted (x : Q) (l : list Q) : list Q :=
  match l with
  | [] => [x]
  | y :: r => if Qle_bool x y then x :: l else y :: insert_sorted x r
  end.

Definition sort_values (l : list Q) : list Q := fold_right insert_sorted [] l.

(** The cells that are not missing. *)
Fixpoint present {A : Type} (l : list (option A)) : list A :=
  match l with
  | [] => []
  | Some x :: r => x :: present r
  | None :: r => present r
  end.

(** [Series.median()]: the median of the cells that are not missing. *)
Definition median (cells : list (option Q)) : Q :=
  let s := sort_values (present cells) in
  let n := List.length s in
  if Nat.even n
  then Qdiv (Qplus (nth (n / 2 - 1) s 0%Q) (nth (n / 2) s 0%Q)) (2 # 1)
  else nth (n / 2) s 0%Q.

(** [Series.fillna(x)] *)
Definition fillna (cells : list (option Q)) (x : Q) : list Q :=
  map (fun c => match c with Some v => v | None => x end) cells.

(** [Series.isnull().all()] *)
Definition all_null {A : Type} (cells : list (option A)) : bool :=
  forallb (fun c => match c with None => true | Some _ => false end) cells.

Section Drift.

(** [scipy.stats.ks_2samp], which returns the statistic and the p-value
    as NumPy numbers. *)
Variable ks_2samp : list Q -> list Q -> Q * Q.

(** The body of the loop for one column: [None] when the column is
    skipped. *)
Definition examine (reference_data current_data : DataFrame)
    (threshold : Q) (column : string) : option feature_drift :=
  match dict_get (columns reference_data) column,
        dict_get (columns current_data) column with
  | Some (NumCol rc), Some (NumCol cc) =>
      if all_null rc || all_null cc then None
      else
        let ref := map (option_map Q_of_number) rc in
        let cur := map (option_map Q_of_number) cc in
        let ref_values := fillna ref (median ref) in
        let cur_values := fillna cur (median cur) in
        let '(ks, p) := ks_2samp ref_values cur_values in
        Some {| ks_stat := ks; p_value := p;
                drift_detected := NpBool (Qltb p threshold) |}
  | _, _ => None
  end.

(** The loop over [feature_columns], from the entries and the verdict
    reached so far. *)
Fixpoint drift_loop (reference_data current_data : DataFrame)
    (threshold : Q) (feature_columns : list string)
    (features : list (string * feature_drift)) (overall : bool)
  : list (string * feature_drift) * bool :=
  match feature_columns with
  | [] => (features, overall)
  | column :: r =>
      match examine reference_data current_data threshold column with
      | None => drift_loop reference_data current_data threshold r
                  features overall
      | Some e =>
          drift_loop reference_data current_data threshold r
            (dict_set features column e)
            (if is_true (drift_detected e) then true else overall)
      end
  end.

(** [json.dump] accepts the report: none of its verdicts is a
    [numpy.bool_]. *)
Definition serializable (r : drift_report) : bool :=
  forallb (fun kv => match drift_detected (snd kv) with
                     | PyBool _ => true
                     | NpBool _ => false
                     end) (dr_features r).

(** [json.load] of the drift history: the list [existing_metrics]. *)
Definition load_drift_metrics (st : state) : result (list drift_report) :=
  match drift_metrics st with
  | None => Ok []
  | Some (DriftDocument h) => Ok (existing_entries (Some h))
  | Some DriftCut => Raise JSONDecodeError
  end.

(** Returns the report ([None] is the empty dictionary) and the new
    state.  The history is written with [json.dump], which raises
    [TypeError] at the first verdict that is a [numpy.bool_]; the file
    was opened for writing by then. *)
Definition detect_data_drift (m : ModelMonitor) (now : datetime)
    (reference_data current_data : DataFrame)
    (feature_columns : list string) (threshold : Q) (st : state)
  : result (option drift_report) * state :=
  if negb (get_flag (cfg_drift_detection (config m))) then (Ok None, st)
  else
    let '(features, overall) :=
      drift_loop reference_data current_data threshold feature_columns
        [] false in
    let drift_results :=
      {| dr_timestamp := isoformat now;
         n_reference := nrows reference_data;
         n_current := nrows current_data;
         dr_features := features;
         overall_drift := overall |} in
    match load_drift_metrics st with
    | Raise e => (Raise e, st)
    | Ok existing_metrics =>
        let existing_metrics := (existing_metrics ++ [drift_results])%list in
        if forallb serializable existing_metrics
        then (Ok (Some drift_results), set_drift_metrics st existing_metrics)
        else (Raise TypeError, cut_drift_metrics st)
    end.

End Drift.

(** *** [get_recent_predictions] *)

(** Insertion before the first element whose key is not greater. *)
Fixpoint insert_desc (key : json -> string) (x : json) (l : list json)
  : list json :=
  match l with
  | [] => [x]
  | y :: r =>
      if String.ltb (key x) (key y) then y :: insert_desc key x r else x :: l
  end.

(** [l.sort(key=..., reverse=True)]: stable, largest key first. *)
Definition sort_desc (key : json -> string) (l : list json) : list json :=
  fold_right (insert_desc key) [] l.

(** The sort key [x["timestamp"]] of a record that passed the filter. *)
Definition timestamp_key (log : json) : string :=
  match py_getitem log "timestamp" with
  | Ok (JStr s) => s
  | _ => ""
  end.

(** [log.get(k, default)] *)
Definition py_get_default (log : json) (k : string) (default : json)
  : result json :=
  match log with
  | JObj d =>
      match dict_get d k with
      | Some x => Ok x
      | None => Ok default
      end
  | _ => Raise AttributeError
  end.

(** The row of base fields that is extracted from a record. *)
Definition base_fields (log : json) : result (list (string * json)) :=
  i <- py_get_default log "prediction_id" (JStr "") ;;
  t <- py_get_default log "timestamp" (JStr "") ;;
  p <- py_get_default log "prediction" JNull ;;
  q <- py_get_default log "probability" JNull ;;
  l <- py_get_default log "true_label" JNull ;;
  Ok [("prediction_id", i); ("timestamp", t); ("prediction", p);
      ("probability", q); ("true_label", l)].

(** The rows of the table that is returned; [start_time] stands for
    [datetime.now() - timedelta(hours=hours)]. *)
Definition get_recent_predictions (start_time : datetime) (limit : nat)
    (st : state) : result (list (list (string * json))) :=
  match prediction_logs st with
  | None => Ok []
  | Some lines =>
      logs <- load_logs lines ;;
      filtered_logs <-
        filterM (fun log =>
                   ts <- py_getitem log "timestamp" ;;
                   log_time <- fromisoformat_value ts ;;
                   Ok (dt_leb start_time log_time)) logs ;;
      let filtered_logs := sort_desc timestamp_key filtered_logs in
      let filtered_logs := firstn limit filtered_logs in
      mapM base_fields filtered_logs
  end.

(** *** [extract_predictions_for_monitoring] *)

(** A date given as a string or as a [datetime]. *)
Inductive date_arg : Type :=
| DateStr (s : string)
| DateTime (d : datetime).

(** [datetime.fromisoformat] for the dates that are given as strings. *)
Definition parse_date_arg (a : option date_arg) : result (option datetime) :=
  match a with
  | None => Ok None
  | Some (DateTime d) => Ok (Some d)
  | Some (DateStr s) => d <- fromisoformat s ;; Ok (Some d)
  end.

(** The time filter whose body is guarded by
    [except (KeyError, ValueError): continue]. *)
Fixpoint filter_by_time_guarded (start_date end_date : option datetime)
    (logs : list json) : result (list json) :=
  match logs with
  | [] => Ok []
  | log :: r =>
      match in_time_range start_date end_date log with
      | Ok b =>
          rest <- filter_by_time_guarded start_date end_date r ;;
          Ok (if b then log :: rest else rest)
      | Raise KeyError | Raise ValueError =>
          filter_by_time_guarded start_date end_date r
      | Raise e => Raise e
      end
  end.

(** [try: logs.append(json.loads(line))] guarded by
    [except json.JSONDecodeError: continue], for each line. *)
Fixpoint load_logs_skipping (lines : list string) : result (list json) :=
  match lines with
  | [] => Ok []
  | line :: r =>
      match json_loads line with
      | Ok v => rest <- load_logs_skipping r ;; Ok (v :: rest)
      | Raise JSONDecodeError => load_logs_skipping r
      | Raise e => Raise e
      end
  end.

(** [isinstance(v, dict)] *)
Definition is_dict (v : json) : bool :=
  match v with JObj _ => true | _ => false end.

(** [d.update(other)] *)
Definition dict_update {V : Type} (d other : list (string * V))
  : list (string * V) :=
  fold_left (fun d kv => dict_set d (fst kv) (snd kv)) other d.

(** The row of features of a record, when it has a dictionary of
    features. *)
Definition feature_row (log : json) : result (option (list (string * json))) :=
  b <- py_contains log "features" ;;
  if negb b then Ok None
  else
    f <- py_getitem log "features" ;;
    match f with
    | JObj fs =>
        i <- py_get_default log "prediction_id" (JStr "") ;;
        Ok (Some (dict_update [("prediction_id", i)] fs))
    | _ => Ok None
    end.

(** The rows of [predictions_df] and of [features_df]. *)
Definition extract_predictions_for_monitoring (start_date end_date : option date_arg)
    (st : state)
  : result (list (list (string * json)) * list (list (string * json))) :=
  match prediction_logs st with
  | None => Ok ([], [])
  | Some lines =>
      start_date <- parse_date_arg start_date ;;
      end_date <- parse_date_arg end_date ;;
      logs <- load_logs_skipping lines ;;
      logs <-
        match start_date, end_date with
        | None, None => Ok logs
        | _, _ => filter_by_time_guarded start_date end_date logs
        end ;;
      match logs with
      | [] => Ok ([], [])
      | _ :: _ =>
          predictions_data <- mapM base_fields logs ;;
          features_data <- mapM feature_row logs ;;
          Ok (predictions_data, present features_data)
      end
  end.

(** ** The feedback path of [api.py] *)

(** [startup_event]: the monitor of the service, created only when
    monitoring is enabled in [config.MONITORING_CONFIG]. *)
Definition startup_event (cfg : Config) : option ModelMonitor :=
  if get_flag (cfg_enable_monitoring cfg)
  then Some (ModelMonitor_init cfg)
  else None.

(** The body of the read loop for one line: the entry, and whether it was
    updated. *)
Definition feedback_line (prediction_id : string) (actual_label : Z)
    (line : string) : result (json * bool) :=
  log_entry <- json_loads (strip line) ;;
  id <- py_get log_entry "prediction_id" ;;
  if eq_str id prediction_id
  then
    log_entry <- py_setitem log_entry "true_label" (JInt actual_label) ;;
    Ok (log_entry, true)
  else Ok (log_entry, false).

(** [process_feedback] returns nothing and catches every exception, so its
    only result is the new state. *)
Definition process_feedback (prediction_id : string) (actual_label : Z)
    (monitor : ModelMonitor) (now : datetime) (st : state) : state :=
  match prediction_logs st with
  | None => st
  | Some lines =>
      match mapM (feedback_line prediction_id actual_label) lines with
      | Raise _ => st
      | Ok logs =>
          let updated := existsb snd logs in
          if negb updated then st
          else
            let st :=
              set_prediction_logs st
                (map (fun e => json_dumps (fst e)) logs) in
            if get_flag (cfg_performance_tracking (config monitor))
            then snd (calculate_performance_metrics monitor now None None st)
            else st
      end
  end.

(** The body of a successful answer. *)
Inductive response : Type :=
| Success (message : string).

(** [prediction_feedback]: the answer to the caller, and the state once
    the background task has run. *)
Definition prediction_feedback (monitor : option ModelMonitor)
    (now : datetime) (prediction_id : string) (actual_label : Z)
    (st : state) : result response * state :=
  match monitor with
  | None => (Raise (HTTPException 503), st)
  | Some m =>
      match prediction_logs st with
      | None => (Raise (HTTPException 500), st)
      | Some _ =>
          (Ok (Success "Feedback submitted successfully"),
           process_feedback prediction_id actual_label m now st)
      end
  end.

(** ** The prediction path of [api.py] *)

(** [data.copy()]: a new object with the content of [df]; returns its
    address and the new state. *)
Definition new_frame (st : state) (df : DataFrame) : nat * state :=
  (List.length (frames st),
   {| prediction_logs := prediction_logs st;
      performance_metrics := performance_metrics st;
      drift_metrics := drift_metrics st;
      frames := (frames st ++ [df])%list;
      written := written st |}).

(** A column of a table without rows once the table takes an index of
    [k] rows: every cell is missing. *)
Definition extend_column (k : nat) (c : column) : column :=
  match c with
  | NumCol _ => NumCol (repeat None k)
  | ObjCol _ => ObjCol (repeat (JNonFinite NaN) k)
  end.

(** [df[name] = values] for an array of numbers.  A table without rows
    takes its index from a non-empty array; otherwise the array must have
    one value per row, or pandas raises [ValueError]. *)
Definition assign_values (df : DataFrame) (name : string) (values : list number)
  : result DataFrame :=
  let k := List.length values in
  if (nrows df =? 0)%nat && negb (k =? 0)%nat
  then Ok {| nrows := k;
             columns :=
               dict_set (map (fun kc => (fst kc, extend_column k (snd kc)))
                             (columns df))
                 name (NumCol (map Some values)) |}
  else if (k =? nrows df)%nat
  then Ok (set_column df name (NumCol (map Some values)))
  else Raise ValueError.

(** [log_predictions], the background task of [predict]: [data] is the
    address of the table of the request.  The function returns nothing and
    catches every exception, so its only result is the new state.  The
    argument [prediction_id] is used in a log message only. *)
Definition log_predictions (prediction_id : string) (data : nat)
    (predictions : list number) (probabilities : option (list number))
    (monitor : ModelMonitor) (now : nat -> datetime) (st : state) : state :=
  match nth_error (frames st) data with
  | None => st
  | Some df =>
      let '(data_with_predictions, st) := new_frame st df in
      match assign_values df "prediction" predictions with
      | Raise _ => st
      | Ok df1 =>
          let st := set_frame st data_with_predictions df1 in
          match (match probabilities with
                 | Some ps => assign_values df1 "probability" ps
                 | None => Ok df1
                 end) with
          | Raise _ => st
          | Ok df2 =>
              let st := set_frame st data_with_predictions df2 in
              snd (log_batch_predictions monitor now data_with_predictions
                     (dict_keys (columns df)) "prediction"
                     (match probabilities with
                      | Some _ => Some "probability"
                      | None => None
                      end)
                     None None st)
          end
      end
  end.

(** ** The monitoring endpoints of [api.py] *)

(** What a name is bound to on an instance of [ModelMonitor]: an
    attribute that [__init__] sets, or a method of the class. *)
Inductive monitor_attribute : Type :=
| attribute_config
| attribute_metrics_path
| attribute_enable_monitoring
| attribute_alert_threshold
| method_init
| method_log_prediction
| method_log_batch_predictions
| method_calculate_performance_metrics
| method_detect_data_drift
| method_get_recent_predictions
| method_plot_performance_trend
| method_check_metric_alerts.

(** The names of an instance of [ModelMonitor], from the body of the
    class; [extract_predictions_for_monitoring] is a function of the
    module, not a method.  The names every object has are left out. *)
Definition ModelMonitor_names : list (string * monitor_attribute) :=
  [("config", attribute_config);
   ("metrics_path", attribute_metrics_path);
   ("enable_monitoring", attribute_enable_monitoring);
   ("alert_threshold", attribute_alert_threshold);
   ("__init__", method_init);
   ("log_prediction", method_log_prediction);
   ("log_batch_predictions", method_log_batch_predictions);
   ("calculate_performance_metrics", method_calculate_performance_metrics);
   ("detect_data_drift", method_detect_data_drift);
   ("get_recent_predictions", method_get_recent_predictions);
   ("plot_performance_trend", method_plot_performance_trend);
   ("_check_metric_alerts", method_check_metric_alerts)].

(** [monitor.<name>] *)
Definition monitor_getattr (name : string) : result monitor_attribute :=
  match dict_get ModelMonitor_names name with
  | Some a => Ok a
  | None => Raise AttributeError
  end.

(** [a(path, start_date=since)]: the attributes that are data are not
    callable, and no method of the class takes the keyword
    [start_date]. *)
Definition call_with_start_date (a : monitor_attribute) (since : datetime)
  : result (DataFrame * DataFrame) :=
  match a with
  | attribute_config | attribute_metrics_path | attribute_enable_monitoring
  | attribute_alert_threshold => Raise TypeError
  | _ => Raise TypeError
  end.

(** What [check_drift] reads of the loaded model. *)
Record FraudModel : Type :=
  { feature_names : option (list string) }.

(** The answers of [check_drift], by their [status]. *)
Inductive drift_answer : Type :=
| no_data (message : string)
| drift_error (message : string)
| drift_success (drift_detected : bool) (drift_details : option drift_report).

Section Service.

(** [scipy.stats.ks_2samp] *)
Variable ks_2samp : list Q -> list Q -> Q * Q.

(** [check_drift].  The dependencies [get_monitor] and [get_model] answer
    503 when the monitor or the model is missing; [reference] is the
    reference table ([None]: the file does not exist; reading it may
    raise); [cutoff] stands for the time 24 hours before the call and
    [since] for the start date that is passed on. *)
Definition check_drift (monitor : option ModelMonitor) (model : option FraudModel)
    (reference : option (result DataFrame)) (cutoff since now : datetime)
    (st : state) : result drift_answer * state :=
  match monitor, model with
  | None, _ => (Raise (HTTPException 503), st)
  | Some _, None => (Raise (HTTPException 503), st)
  | Some monitor, Some model =>
      let body : result drift_answer * state :=
        match get_recent_predictions cutoff 1000 st with
        | Raise e => (Raise e, st)
        | Ok [] => (Ok (no_data "No recent predictions available"), st)
        | Ok (_ :: _) =>
            match feature_names model with
            | None | Some [] =>
                (Ok (drift_error "No feature names available in the model"), st)
            | Some names =>
                match reference with
                | None => (Ok (drift_error "No reference data available"), st)
                | Some (Raise e) => (Raise e, st)
                | Some (Ok reference_data) =>
                    match (method <-
                             monitor_getattr "extract_predictions_for_monitoring" ;;
                           call_with_start_date method since) with
                    | Raise e => (Raise e, st)
                    | Ok (_, features_df) =>
                        if (nrows features_df =? 0)%nat
                        then (Ok (no_data
                                    "No feature data available in recent predictions"),
                              st)
                        else
                          match detect_data_drift ks_2samp monitor now
                                  reference_data features_df names
                                  (5 # 100)%Q st with
                          | (Raise e, st) => (Raise e, st)
                          | (Ok drift_results, st) =>
                              (Ok (drift_success
                                     (match drift_results with
                                      | Some r => overall_drift r
                                      | None => false
                                      end)
                                     drift_results),
                               st)
                          end
                    end
                end
            end
        end in
      match body with
      | (Raise _, st) => (Raise (HTTPException 500), st)
      | (Ok answer, st) => (Ok answer, st)
      end
  end.

End Service.

(** [get_metrics]: the metrics that are answered, and the new state. *)
Definition get_metrics (monitor : option ModelMonitor) (now : datetime)
    (st : state) : result metrics * state :=
  match monitor with
  | None => (Raise (HTTPException 503), st)
  | Some monitor =>
      match calculate_performance_metrics monitor now None None st with
      | (Ok ms, st) => (Ok ms, st)
      | (Raise _, st) => (Raise (HTTPException 500), st)
      end
  end.

(** ** Well-formed values

    The values Python can hold: dictionaries have distinct keys, and a
    finite float carries the fraction digits [repr] prints. *)

(** Every character is a digit. *)
Fixpoint all_digits (s : string) : bool :=
  match s with
  | EmptyString => true
  | String c r => is_digit c && all_digits r
  end.

(** The fraction is made of digits and is in the form [repr] prints. *)
Definition wf_decimal (d : decimal) : bool :=
  all_digits (dfrac d) && String.eqb (canon_frac (dfrac d)) (dfrac d).

(** No key occurs twice. *)
Fixpoint distinct (l : list string) : bool :=
  match l with
  | [] => true
  | k :: r => negb (existsb (String.eqb k) r) && distinct r
  end.

(** The value is one Python can hold. *)
Fixpoint wf (v : json) : bool :=
  match v with
  | JFloat d => wf_decimal d
  | JArr l => forallb wf l
  | JObj l => distinct (map fst l) && forallb (fun kv => wf (snd kv)) l
  | _ => true
  end.

(** The number is one Python can hold. *)
Definition wf_number (n : number) : bool := wf (json_of_number n).

(** Calls of the parser that reading a value back takes. *)
Fixpoint size (v : json) : nat :=
  match v with
  | JArr l => S (fold_right (fun x n => S (size x + n)) 0 l)
  | JObj l => S (fold_right (fun kv n => S (size (snd kv) + n)) 0 l)
  | _ => 1
  end.

(** What may follow a value in a JSON text: the end, or a character that
    cannot continue a number. *)
Definition stops (rest : string) : bool :=
  match rest with
  | EmptyString => true
  | String c _ =>
      negb (is_digit c || Ascii.eqb c "." || Ascii.eqb c "e" || Ascii.eqb c "E")
  end.

(** ** Notions the properties are stated with *)

(** The lines of the prediction log; a log that does not exist has none. *)
Definition lines_of (st : state) : list string :=
  match prediction_logs st with
  | Some lines => lines
  | None => []
  end.

(** The record carries the identifier [prediction_id]. *)
Definition matches (prediction_id : string) (d : list (string * json)) : bool :=
  match dict_get d "prediction_id" with
  | Some v => eq_str v prediction_id
  | None => false
  end.

(** The line stores no record that carries [prediction_id]: it is read
    as a dictionary with another identifier or with none, as a value that
    is not a dictionary, or [json.loads] does not read it.  A line with an
    escape that the parser of this development leaves out is not
    judged. *)
Definition stores_no_match (prediction_id : string) (line : string) : bool :=
  match json_loads (strip line) with
  | Ok (JObj d) => negb (matches prediction_id d)
  | Ok _ => true
  | Raise Unmodelled => false
  | Raise _ => true
  end.

(** The record after feedback for [prediction_id]. *)
Definition with_feedback (prediction_id : string) (label : Z)
    (d : list (string * json)) : list (string * json) :=
  if matches prediction_id d then dict_set d "true_label" (JInt label) else d.

(** The record carries a true label that is not [None]. *)
Definition has_true_label (d : list (string * json)) : bool :=
  match dict_get d "true_label" with
  | Some v => negb (is_none v)
  | None => false
  end.

(** [datetime.fromisoformat(log["timestamp"])] *)
Definition timestamp_of (log : json) : result datetime :=
  ts <- py_getitem log "timestamp" ;;
  fromisoformat_value ts.

(** The window [start_time <= t <= end_time], a missing bound being no
    bound. *)
Definition closed_window (start_time end_time : option datetime)
    (t : datetime) : bool :=
  match start_time with Some s => dt_leb s t | None => true end &&
  match end_time with Some e => dt_leb t e | None => true end.

(** The window [start_time <= t < end_time]. *)
Definition half_open_window (start_time end_time t : datetime) : bool :=
  dt_leb start_time t && dt_ltb t end_time.

(** The timestamp of the record is read and lies in the closed window. *)
Definition in_closed_window (start_time end_time : option datetime)
    (log : json) : bool :=
  match timestamp_of log with
  | Ok t => closed_window start_time end_time t
  | Raise _ => false
  end.

(** What a logged record is: a dictionary with a timestamp that
    [fromisoformat] reads. *)
Definition timed_record (log : json) : bool :=
  is_dict log &&
  match timestamp_of log with Ok _ => true | Raise _ => false end.

(** A label of the binary classification. *)
Definition binary_label (v : json) : bool :=
  match label_value v with
  | Some z => (z =? 0)%Z || (z =? 1)%Z
  | None => false
  end.

(** The integer values of a list of binary labels. *)
Definition labels_of (l : list json) : list Z :=
  map (fun v => match label_value v with Some z => z | None => 0%Z end) l.

(** Both the prediction and the true label of a pair are binary. *)
Definition binary_pair (p : json * json) : bool :=
  binary_label (fst p) && binary_label (snd p).

(** The scenario of a model that never predicts fraud: every prediction
    is 0, eighty true labels are 0 and twenty are 1. *)
Definition never_predicts_fraud_80_20 (pairs : list (json * json)) : Prop :=
  Forall (fun p => label_value (fst p) = Some 0%Z) pairs /\
  count_occ Z.eq_dec (labels_of (map snd pairs)) 0%Z = 80 /\
  count_occ Z.eq_dec (labels_of (map snd pairs)) 1%Z = 20.

(** No alert threshold is set on the key [timestamp] of a snapshot, which
    is not a number. *)
Definition thresholds_on_numbers (m : ModelMonitor) : bool :=
  forallb (fun kv => negb (String.eqb (fst kv) "timestamp")) (alert_threshold m).

(** The pair a record contributes to the metrics, if it is labeled. *)
Definition record_pair (d : list (string * json)) : list (json * json) :=
  match dict_get d "prediction", dict_get d "true_label" with
  | Some p, Some t => if is_none t then [] else [(p, t)]
  | _, _ => []
  end.

(** A Prediction Record of the binary classification: its prediction is 0
    or 1, and so is its true label when it has one. *)
Definition binary_record (d : list (string * json)) : bool :=
  match dict_get d "prediction" with
  | Some p => binary_label p
  | None => false
  end &&
  match dict_get d "true_label" with
  | Some t => is_none t || binary_label t
  | None => true
  end.

(** *** States used as examples *)

(** No file exists and no table is allocated. *)
Definition empty_state : state :=
  {| prediction_logs := None;
     performance_metrics := None;
     drift_metrics := None;
     frames := [];
     written := [] |}.

(** The monitor of the service. *)
Definition service_monitor : ModelMonitor := ModelMonitor_init MONITORING_CONFIG.

(** Three times of the first of January 2024. *)
Definition noon : datetime := mk_datetime 2024 1 1 12 0 0 0.
Definition one_pm : datetime := mk_datetime 2024 1 1 13 0 0 0.
Definition two_pm : datetime := mk_datetime 2024 1 1 14 0 0 0.

(** A clock that is read at noon and advances by one second from a
    reading to the next. *)
Definition from_noon (k : nat) : datetime :=
  mk_datetime 2024 1 1 12 (N.of_nat (k / 60) mod 60) (N.of_nat k mod 60) 0.

(** Two records that share the identifier ["X"], neither labeled. *)
Definition two_records_X : state :=
  log_prediction service_monitor one_pm "X" [("amount", JInt 5)] (NInt 0)
    (Some {| dneg := false; dint := 0; dfrac := "25" |}) None None
    (log_prediction service_monitor noon "X" [("amount", JInt 3)] (NInt 1)
       None None None empty_state).

(** The log of [two_records_X] followed by the line [5], which is JSON
    and is not a record. *)
Definition log_with_number_line : state := append_lines two_records_X ["5"].

(** A log whose first line is not JSON, followed by a labeled record. *)
Definition log_with_malformed_line : state :=
  log_prediction service_monitor one_pm "A" [("amount", JInt 5)] (NInt 1)
    None (Some (NInt 1)) None
    (append_lines empty_state ["not json"]).

(** One labeled record, logged at one o'clock. *)
Definition labeled_at_one_pm : state :=
  log_prediction service_monitor one_pm "A" [("amount", JInt 5)] (NInt 1)
    None (Some (NInt 1)) None empty_state.

(** One hundred labeled records: eighty with true label 0 and twenty with
    true label 1, all predicted 0. *)
Definition eighty_twenty : state :=
  fold_right
    (fun i st =>
       log_prediction service_monitor noon ("r" ++ print_N (N.of_nat i)) []
         (NInt 0) None (Some (NInt (if (i <? 80)%nat then 0 else 1))) None st)
    empty_state (seq 0 100).

(** The pairs of prediction and true label of [eighty_twenty], in file
    order. *)
Definition eighty_twenty_pairs : list (json * json) :=
  map (fun i => (JInt 0, JInt (if (i <? 80)%nat then 0 else 1)))
      (List.rev (seq 0 100)).

(** A labeled record ["A"] predicted 1 and an unlabeled record ["B"]
    predicted 0. *)
Definition one_labeled_one_not : state :=
  log_prediction service_monitor one_pm "B" [("amount", JInt 5)] (NInt 0)
    None None None
    (log_prediction service_monitor noon "A" [("amount", JInt 3)] (NInt 1)
       None (Some (NInt 1)) None empty_state).

(** A monitor whose configuration disables monitoring. *)
Definition disabled_monitor : ModelMonitor :=
  ModelMonitor_init
    {| cfg_enable_monitoring := Some false;
       cfg_drift_detection := Some true;
       cfg_performance_tracking := Some true;
       cfg_alert_threshold := None |}.

(** A table of two rows with a feature and a prediction, and no column of
    identifiers. *)
Definition two_rows : DataFrame :=
  {| nrows := 2;
     columns := [("amount", NumCol [Some (NInt 10); Some (NInt 20)]);
                 ("prediction", NumCol [Some (NInt 0); Some (NInt 1)])] |}.

(** The caller's table is the object at address 0. *)
Definition caller_state : state :=
  {| prediction_logs := None;
     performance_metrics := None;
     drift_metrics := None;
     frames := [two_rows];
     written := [] |}.

(** What holds of the entries and of the verdict throughout the loop of
    [detect_data_drift]: every entry is the result of examining its
    column, and the verdict is true exactly when an entry reports drift. *)
Definition drift_invariant (ks_2samp : list Q -> list Q -> Q * Q)
    (reference_data current_data : DataFrame) (threshold : Q)
    (features : list (string * feature_drift)) (overall : bool) : Prop :=
  (forall column e, In (column, e) features ->
     examine ks_2samp reference_data current_data threshold column = Some e) /\
  (overall = true <->
   exists column e,
     In (column, e) features /\ is_true (drift_detected e) = true).

(** A test of two samples that reports the p-value 1/100 when the first
    values of the samples differ, and 1/2 otherwise. *)
Definition first_value_test (a b : list Q) : Q * Q :=
  match a, b with
  | x :: _, y :: _ => if Qeq_bool x y then (0, 1 # 2)%Q else (1, 1 # 100)%Q
  | _, _ => (0, 1)%Q
  end.

(** A reference table and a table of current values, with the columns
    [amount] and [hour]. *)
Definition reference_table : DataFrame :=
  {| nrows := 2;
     columns := [("amount", NumCol [Some (NInt 10); Some (NInt 20)]);
                 ("hour", NumCol [Some (NInt 9); None])] |}.

Definition current_table : DataFrame :=
  {| nrows := 2;
     columns := [("amount", NumCol [Some (NInt 500); Some (NInt 700)]);
                 ("hour", NumCol [Some (NInt 9); Some (NInt 9)])] |}.

(** ** Notions the facts about the parser are stated with *)

(** The text holds no newline character: written to the log, it is one
    line. *)
Fixpoint one_line (s : string) : bool :=
  match s with
  | EmptyString => true
  | String c r => negb (Ascii.eqb c newline) && one_line r
  end.

(** The text is empty or starts with a character that is not a digit. *)
Definition no_digit (rest : string) : bool :=
  match rest with
  | EmptyString => true
  | String c _ => negb (is_digit c)
  end.

(** A value starts with a character that is neither white space nor a
    closing bracket. *)
Definition head_ok (s : string) : Prop :=
  exists c r, s = String c r /\ is_ws c = false /\ Ascii.eqb c "]" = false.

(** Calls of the parser that reading back the elements of an array, and
    the members of an object, takes. *)
Definition elems_size (l : list json) : nat :=
  fold_right (fun x n => S (size x + n)) 0 l.

Definition members_size (l : list (string * json)) : nat :=
  fold_right (fun kv n => S (size (snd kv) + n)) 0 l.

(** The parser, given enough fuel, reads the text of [v] back as [v] and
    stops where the text ends. *)
Definition reads_back (v : json) : Prop :=
  wf v = true ->
  forall fuel rest, size v <= fuel -> stops rest = true ->
  parse_value fuel (dumps v ++ rest) = Some (v, rest).

(** ** Notions the further properties are stated with *)

(** The numeric value of a metric of a snapshot, when it has one. *)
Definition metric_value (ms : metrics) (metric : string) : option Q :=
  match dict_get ms metric with
  | Some (MFloat q) => Some q
  | Some (MInt n) => Some (inject_Z n)
  | _ => None
  end.

(** The line, once stripped, is malformed, or it is the text of a JSON
    value that is not an object: the read loop of [process_feedback]
    raises on it. *)
Definition not_a_record (line : string) : bool :=
  match json_loads (strip line) with
  | Ok v => negb (is_dict v)
  | Raise JSONDecodeError => true
  | Raise _ => false
  end.

(** No string of the list is smaller than a later one. *)
Fixpoint descending (l : list string) : bool :=
  match l with
  | [] => true
  | a :: r => forallb (fun b => negb (String.ltb a b)) r && descending r
  end.

(** The text in the column [timestamp] of a row. *)
Definition row_timestamp (row : list (string * json)) : string :=
  match dict_get row "timestamp" with
  | Some (JStr s) => s
  | _ => ""
  end.

(** The timestamp of the record is read and is not before
    [start_time]. *)
Definition recent (start_time : datetime) (log : json) : bool :=
  match timestamp_of log with
  | Ok t => dt_leb start_time t
  | Raise _ => false
  end.

(** The columns of the table of base fields. *)
Definition base_keys : list string :=
  ["prediction_id"; "timestamp"; "prediction"; "probability"; "true_label"].

(** The table has the column, of numeric dtype and with a value that is
    not missing. *)
Definition numeric_with_values (df : DataFrame) (column : string) : bool :=
  match dict_get (columns df) column with
  | Some (NumCol cells) => negb (all_null cells)
  | _ => false
  end.

(** Both tables have the column, of numeric dtype and with a value that
    is not missing: [detect_data_drift] examines it. *)
Definition examined (reference_data current_data : DataFrame)
    (column : string) : bool :=
  numeric_with_values reference_data column &&
  numeric_with_values current_data column.




(** *** Further states used as examples *)

(** The log of [two_records_X] followed by an empty line. *)
Definition log_with_blank_line : state := append_lines two_records_X [""].

(** A labeled record that carries no timestamp, and a log that holds
    it. *)
Definition record_without_timestamp : json :=
  JObj [("prediction_id", JStr "A"); ("prediction", JInt 1); ("true_label", JInt 1)].

Definition log_without_timestamp : state :=
  append_lines empty_state [json_dumps record_without_timestamp].

(** A snapshot whose precision is one half. *)
Definition half_precision : metrics :=
  [("precision", MFloat (1 # 2)); ("recall", MFloat (8 # 10));
   ("f1", MFloat (9 # 10)); ("timestamp", MStr "2024-01-01T12:00:00")]%Q.


(** A record one of whose features is named [prediction_id]. *)
Definition record_with_features : list (string * json) :=
  [("prediction_id", JStr "A");
   ("features", JObj [("amount", JInt 5); ("prediction_id", JStr "inner")])].

(** The cell is a value Python can hold. *)
Definition wf_scalar (x : scalar) : bool :=
  match x with
  | PyObj v => wf v
  | NpInt64 _ => true
  end.

(** The caller names a column of identifiers that the table has. *)
Definition provided (df : DataFrame) (id_col : option string) : bool :=
  match id_col with
  | Some c => row_mem df c
  | None => false
  end.

(** The table with the column of generated identifiers. *)
Definition with_generated_ids (now : nat -> datetime) (df : DataFrame)
  : DataFrame :=
  set_column df "prediction_id"
    (ObjCol (map JStr (generated_ids now (nrows df)))).

(** The table the entries of a batch are built from, the name of its
    column of identifiers, and the number of readings of the clock that
    precede the entries. *)
Definition batch_table (now : nat -> datetime) (df : DataFrame)
    (id_col : option string) : DataFrame :=
  if provided df id_col then df else with_generated_ids now df.

Definition batch_id_col (df : DataFrame) (id_col : option string) : string :=
  match id_col with
  | Some c => if row_mem df c then c else "prediction_id"
  | None => "prediction_id"
  end.

Definition first_reading (df : DataFrame) (id_col : option string) : nat :=
  if provided df id_col then 0 else nrows df.

(** The entries [log_batch_predictions] builds for the table [df], one
    per row, unless building one raises. *)
Definition batch_entries (now : nat -> datetime) (df : DataFrame)
    (features_cols : list string) (prediction_col : string)
    (probability_col true_label_col : option string) (id_col : option string)
  : result (list batch_record) :=
  mapM (fun i =>
          batch_entry (batch_table now df id_col)
            (now (first_reading df id_col + i)) features_cols prediction_col
            probability_col true_label_col (batch_id_col df id_col) i)
       (seq 0 (nrows df)).

(** The cells of the column are values Python can hold. *)
Definition wf_column (c : column) : bool :=
  match c with
  | NumCol cells =>
      forallb (fun x => match x with Some n => wf_number n | None => true end) cells
  | ObjCol cells => forallb wf cells
  end.

(** The cells of the table are values Python can hold. *)
Definition wf_frame (df : DataFrame) : bool :=
  forallb (fun kc => wf_column (snd kc)) (columns df).

(** A table of two scored transactions with the amounts 10.5 and 20.25,
    and a state that holds it and has no log. *)
Definition scored_table : DataFrame :=
  {| nrows := 2;
     columns := [("amount", NumCol [Some (NFloat {| dneg := false; dint := 10; dfrac := "5" |});
                                    Some (NFloat {| dneg := false; dint := 20; dfrac := "25" |})]);
                 ("prediction", NumCol [Some (NInt 0); Some (NInt 1)])] |}.

Definition scored_state : state :=
  {| prediction_logs := None;
     performance_metrics := None;
     drift_metrics := None;
     frames := [scored_table];
     written := [] |}.

(** A table of integer columns with a column of identifiers, and a state
    that holds it and has no log. *)
Definition integer_table : DataFrame :=
  {| nrows := 2;
     columns := [("id", NumCol [Some (NInt 1); Some (NInt 2)]);
                 ("amount", NumCol [Some (NInt 10); Some (NInt 20)]);
                 ("prediction", NumCol [Some (NInt 0); Some (NInt 1)])] |}.

Definition integer_table_state : state :=
  {| prediction_logs := None;
     performance_metrics := None;
     drift_metrics := None;
     frames := [integer_table];
     written := [] |}.

(** The same table with the amounts 10.5 and 20.25. *)
Definition numbered_table : DataFrame :=
  {| nrows := 2;
     columns := [("id", NumCol [Some (NInt 1); Some (NInt 2)]);
                 ("amount", NumCol [Some (NFloat {| dneg := false; dint := 10; dfrac := "5" |});
                                    Some (NFloat {| dneg := false; dint := 20; dfrac := "25" |})]);
                 ("prediction", NumCol [Some (NInt 0); Some (NInt 1)])] |}.

Definition numbered_state : state :=
  {| prediction_logs := None;
     performance_metrics := None;
     drift_metrics := None;
     frames := [numbered_table];
     written := [] |}.

(** A table whose column of predictions holds [None] in its second row,
    and a state with this table and a log of one line. *)
Definition missing_prediction : DataFrame :=
  {| nrows := 2;
     columns := [("amount", NumCol [Some (NInt 10); Some (NInt 20)]);
                 ("prediction", ObjCol [JInt 0; JNull])] |}.

Definition missing_prediction_state : state :=
  {| prediction_logs := Some ["{}"];
     performance_metrics := None;
     drift_metrics := None;
     frames := [missing_prediction];
     written := [] |}.




(** A model with the feature [amount]. *)
Definition amount_model : FraudModel := {| feature_names := Some ["amount"] |}.

(** The table has the column, of numeric dtype, with a cell for every
    row, and every cell is the label 0 or 1. *)
Definition binary_cells (df : DataFrame) (col : string) : bool :=
  match dict_get (columns df) col with
  | Some (NumCol cells) =>
      (nrows df <=? List.length cells)%nat &&
      forallb (fun c => match c with
                        | Some n => binary_label (json_of_number n)
                        | None => false
                        end) cells
  | _ => false
  end.

(** A table of two scored transactions with their true labels, and a
    state that holds it and has no log. *)
Definition labeled_table : DataFrame :=
  {| nrows := 2;
     columns := [("amount", NumCol [Some (NFloat {| dneg := false; dint := 10; dfrac := "5" |});
                                    Some (NFloat {| dneg := false; dint := 20; dfrac := "25" |})]);
                 ("prediction", NumCol [Some (NInt 0); Some (NInt 1)]);
                 ("is_fraud", NumCol [Some (NInt 1); Some (NInt 1)])] |}.

Definition labeled_table_state : state :=
  {| prediction_logs := None;
     performance_metrics := None;
     drift_metrics := None;
     frames := [labeled_table];
     written := [] |}.

(** The same table with the labels in a column whose name is the empty
    text, and a state that holds it and has no log. *)
Definition unnamed_labels_table : DataFrame :=
  {| nrows := 2;
     columns := [("amount", NumCol [Some (NFloat {| dneg := false; dint := 10; dfrac := "5" |});
                                    Some (NFloat {| dneg := false; dint := 20; dfrac := "25" |})]);
                 ("prediction", NumCol [Some (NInt 0); Some (NInt 1)]);
                 ("", NumCol [Some (NInt 1); Some (NInt 1)])] |}.

Definition unnamed_labels_state : state :=
  {| prediction_logs := None;
     performance_metrics := None;
     drift_metrics := None;
     frames := [unnamed_labels_table];
     written := [] |}.

(** * Facts about the JSON printer and parser *)

Module JsonFacts.

Lemma append_nil_r (s : string) : s ++ "" = s.
Proof. induction s as [|c s IH]; simpl; [reflexivity | now rewrite IH]. Qed.

Lemma append_assoc (a b c : string) : (a ++ b) ++ c = a ++ (b ++ c).
Proof. induction a as [|x a IH]; simpl; [reflexivity | now rewrite IH]. Qed.

Lemma length_append (a b : string) :
  String.length (a ++ b) = String.length a + String.length b.
Proof. induction a as [|x a IH]; simpl; [reflexivity | now rewrite IH]. Qed.

(** *** Strings *)

Lemma scan_escape_char (c : ascii) (tl : string) :
  scan_string (escape_char c ++ tl) =
  match scan_string tl with
  | Some (t, rest) => Some (String c t, rest)
  | None => None
  end.
Proof.
  destruct c as [[] [] [] [] [] [] [] []]; reflexivity.
Qed.

Lemma scan_escape (s rest : string) :
  scan_string (escape s ++ String dquote rest) = Some (s, rest).
Proof.
  induction s as [|c s IH]; simpl.
  - reflexivity.
  - rewrite append_assoc, scan_escape_char, IH. reflexivity.
Qed.

Lemma scan_quote (s rest : string) :
  quote s ++ rest = String dquote (escape s ++ String dquote rest)
  /\ scan_string (escape s ++ String dquote rest) = Some (s, rest).
Proof.
  split; [|apply scan_escape].
  unfold quote. simpl. now rewrite append_assoc.
Qed.

(** *** Numbers *)

Lemma stops_no_digit (rest : string) : stops rest = true -> no_digit rest = true.
Proof.
  destruct rest as [|c r]; simpl; [reflexivity|].
  destruct (is_digit c); simpl; [discriminate | reflexivity].
Qed.

Lemma scan_digits_stop (rest : string) :
  no_digit rest = true -> scan_digits rest = ("", rest).
Proof.
  destruct rest as [|c r]; simpl; [reflexivity|].
  destruct (is_digit c); [discriminate | reflexivity].
Qed.

Lemma scan_digits_append (ds rest : string) :
  all_digits ds = true -> no_digit rest = true ->
  scan_digits (ds ++ rest) = (ds, rest).
Proof.
  intros Hds Hrest. induction ds as [|c ds IH]; simpl.
  - now apply scan_digits_stop.
  - simpl in Hds. apply andb_prop in Hds as [Hc Hds].
    rewrite Hc, (IH Hds). reflexivity.
Qed.

Lemma all_digits_uint (u : uint) : all_digits (NilEmpty.string_of_uint u) = true.
Proof. induction u; simpl; auto. Qed.

Lemma all_digits_print_N (n : N) : all_digits (print_N n) = true.
Proof. apply all_digits_uint. Qed.

Lemma N_of_digits_print_N (n : N) : N_of_digits (print_N n) = n.
Proof.
  unfold N_of_digits, print_N. rewrite NilEmpty.usu.
  apply DecimalN.Unsigned.of_to.
Qed.

Lemma nzhead_not_D0 (u v : uint) : nzhead u <> D0 v.
Proof. induction u; simpl; try discriminate. exact IHu. Qed.

Lemma to_uint_unorm (n : N) : unorm (N.to_uint n) = N.to_uint n.
Proof.
  rewrite <- (DecimalN.Unsigned.of_to n) at 2.
  now rewrite DecimalN.Unsigned.to_of.
Qed.

Lemma int_digits_ok_print_N (n : N) : int_digits_ok (print_N n) = true.
Proof.
  unfold print_N. pose proof (to_uint_unorm n) as H.
  destruct (N.to_uint n) as [|u|u|u|u|u|u|u|u|u|u]; simpl;
    try (destruct (NilEmpty.string_of_uint u); reflexivity).
  - discriminate H.
  - rewrite unorm_D0 in H. unfold unorm in H.
    destruct (nzhead u) eqn:E;
      try (exfalso; eapply nzhead_not_D0;
           rewrite E; match goal with H : _ = D0 _ |- _ => exact H end).
    now injection H as <-.
Qed.

Lemma print_N_head (n : N) :
  exists c r, print_N n = String c r /\ is_digit c = true.
Proof.
  pose proof (int_digits_ok_print_N n) as Hok.
  pose proof (all_digits_print_N n) as Hall.
  destruct (print_N n) as [|c r]; [discriminate Hok|].
  simpl in Hall. apply andb_prop in Hall as [Hc _]. now exists c, r.
Qed.

Lemma scan_sign_digit (c : ascii) (r : string) :
  is_digit c = true -> scan_sign (String c r) = (false, String c r).
Proof.
  intros H. unfold scan_sign.
  destruct (Ascii.eqb_spec c "-") as [->|_]; [discriminate H | reflexivity].
Qed.

Lemma scan_frac_stop (rest : string) :
  stops rest = true -> scan_frac rest = (None, rest).
Proof.
  destruct rest as [|c r]; simpl; [reflexivity|].
  destruct (is_digit c), (Ascii.eqb c "."); simpl; try discriminate; reflexivity.
Qed.

Lemma stops_not_exp (c : ascii) (r : string) :
  stops (String c r) = true -> Ascii.eqb c "e" || Ascii.eqb c "E" = false.
Proof.
  simpl. destruct (is_digit c), (Ascii.eqb c "."), (Ascii.eqb c "e"),
    (Ascii.eqb c "E"); simpl; try discriminate; reflexivity.
Qed.

(** After the sign, the digits of a natural number are read back. *)
Lemma scan_unsigned (neg : bool) (n : N) (rest : string) :
  stops rest = true ->
  (let '(ip, s2) := scan_digits (print_N n ++ rest) in
   if negb (int_digits_ok ip) then None
   else
     let '(fr, s3) := scan_frac s2 in
     match fr with
     | Some EmptyString => None
     | _ =>
         match s3 with
         | String c r =>
             if Ascii.eqb c "e" || Ascii.eqb c "E" then
               let '(eneg, r1) := scan_exp_sign r in
               let '(ed, r2) := scan_digits r1 in
               match ed with
               | EmptyString => None
               | _ =>
                   let e := Z.of_N (N_of_digits ed) in
                   Some (number_value neg ip fr
                           (Some (if eneg then - e else e)%Z), r2)
               end
             else Some (number_value neg ip fr None, s3)
         | EmptyString => Some (number_value neg ip fr None, s3)
         end
     end)
  = Some (JInt (if neg then - Z.of_N n else Z.of_N n)%Z, rest).
Proof.
  intros Hrest.
  rewrite scan_digits_append
    by (auto using all_digits_print_N, stops_no_digit).
  rewrite int_digits_ok_print_N. simpl negb. cbv iota.
  rewrite (scan_frac_stop _ Hrest).
  destruct rest as [|c r].
  - unfold number_value. now rewrite N_of_digits_print_N.
  - rewrite (stops_not_exp _ _ Hrest).
    unfold number_value. now rewrite N_of_digits_print_N.
Qed.

Lemma scan_number_print_Z (z : Z) (rest : string) :
  stops rest = true ->
  scan_number (print_Z z ++ rest) = Some (JInt z, rest).
Proof.
  intros Hrest. unfold scan_number, print_Z.
  destruct (Z.ltb_spec z 0) as [Hneg|Hpos].
  - simpl append. simpl scan_sign. cbv iota.
    rewrite (scan_unsigned true _ _ Hrest).
    rewrite N2Z.inj_abs_N. do 3 f_equal. lia.
  - destruct (print_N_head (Z.to_N z)) as (c & r & E & Hc).
    rewrite E. simpl append. rewrite (scan_sign_digit _ _ Hc).
    cbv iota. change (String c (r ++ rest)) with (String c r ++ rest).
    rewrite <- E. rewrite (scan_unsigned false _ _ Hrest).
    rewrite Z2N.id by lia. reflexivity.
Qed.

Lemma canon_frac_nonempty (s : string) : canon_frac s <> "".
Proof. unfold canon_frac. destruct (strip_zeros s); discriminate. Qed.

Lemma scan_float (neg : bool) (d : decimal) (rest : string) :
  wf_decimal d = true -> stops rest = true ->
  (let '(ip, s2) := scan_digits (print_N (dint d) ++ "." ++ dfrac d ++ rest) in
   if negb (int_digits_ok ip) then None
   else
     let '(fr, s3) := scan_frac s2 in
     match fr with
     | Some EmptyString => None
     | _ =>
         match s3 with
         | String c r =>
             if Ascii.eqb c "e" || Ascii.eqb c "E" then
               let '(eneg, r1) := scan_exp_sign r in
               let '(ed, r2) := scan_digits r1 in
               match ed with
               | EmptyString => None
               | _ =>
                   let e := Z.of_N (N_of_digits ed) in
                   Some (number_value neg ip fr
                           (Some (if eneg then - e else e)%Z), r2)
               end
             else Some (number_value neg ip fr None, s3)
         | EmptyString => Some (number_value neg ip fr None, s3)
         end
     end)
  = Some (JFloat {| dneg := neg; dint := dint d; dfrac := dfrac d |}, rest).
Proof.
  intros Hwf Hrest. unfold wf_decimal in Hwf.
  apply andb_prop in Hwf as [Hdig Hcanon].
  apply String.eqb_eq in Hcanon.
  rewrite scan_digits_append by (auto using all_digits_print_N).
  rewrite int_digits_ok_print_N. simpl negb. cbv iota.
  simpl scan_frac.
  rewrite scan_digits_append by (auto using stops_no_digit).
  assert (Hne : dfrac d <> "")
    by (rewrite <- Hcanon; apply canon_frac_nonempty).
  destruct (dfrac d) as [|f fs] eqn:Ef; [congruence|].
  destruct rest as [|c r].
  - unfold number_value. now rewrite N_of_digits_print_N, Hcanon.
  - rewrite (stops_not_exp _ _ Hrest).
    unfold number_value. now rewrite N_of_digits_print_N, Hcanon.
Qed.

Lemma scan_number_print_decimal (d : decimal) (rest : string) :
  wf_decimal d = true -> stops rest = true ->
  scan_number (print_decimal d ++ rest) = Some (JFloat d, rest).
Proof.
  intros Hwf Hrest. unfold scan_number, print_decimal.
  destruct d as [neg n fr]. simpl dneg. simpl dint. simpl dfrac.
  rewrite !append_assoc.
  destruct neg.
  - simpl append at 1. simpl scan_sign. cbv iota.
    apply (scan_float true {| dneg := true; dint := n; dfrac := fr |});
      assumption.
  - simpl append at 1.
    destruct (print_N_head n) as (c & r & E & Hc).
    rewrite E. simpl append at 1. rewrite (scan_sign_digit _ _ Hc).
    cbv iota. change (String c (r ++ ?x)) with (String c r ++ x).
    rewrite <- E.
    apply (scan_float false {| dneg := false; dint := n; dfrac := fr |});
      assumption.
Qed.

(** *** One step of the parser *)

Lemma parse_value_digit (fuel : nat) (c : ascii) (r : string) :
  is_digit c = true ->
  parse_value (S fuel) (String c r) = scan_number (String c r).
Proof.
  intros H.
  destruct c as [[] [] [] [] [] [] [] []]; try discriminate H; reflexivity.
Qed.

Lemma parse_value_minus_digit (fuel : nat) (c : ascii) (r : string) :
  is_digit c = true ->
  parse_value (S fuel) (String "-" (String c r))
  = scan_number (String "-" (String c r)).
Proof.
  intros H.
  destruct c as [[] [] [] [] [] [] [] []]; try discriminate H; reflexivity.
Qed.

Lemma parse_value_string (fuel : nat) (r : string) :
  parse_value (S fuel) (String dquote r)
  = match scan_string r with
    | Some (t, rest) => Some (JStr t, rest)
    | None => None
    end.
Proof. reflexivity. Qed.

Lemma parse_value_array (fuel : nat) (r : string) :
  parse_value (S fuel) (String "[" r)
  = match skip_ws r with
    | String c1 r1 =>
        if Ascii.eqb c1 "]" then Some (JArr [], r1)
        else parse_elems fuel (String c1 r1) []
    | EmptyString => None
    end.
Proof. reflexivity. Qed.

Lemma parse_value_object (fuel : nat) (r : string) :
  parse_value (S fuel) (String "{" r)
  = match skip_ws r with
    | String c1 r1 =>
        if Ascii.eqb c1 "}" then Some (JObj [], r1)
        else if Ascii.eqb c1 dquote then parse_members fuel r1 []
        else None
    | EmptyString => None
    end.
Proof. reflexivity. Qed.

Lemma parse_elems_S (fuel : nat) (s : string) (acc : list json) :
  parse_elems (S fuel) s acc
  = match parse_value fuel s with
    | None => None
    | Some (v, r) =>
        match skip_ws r with
        | String c r1 =>
            if Ascii.eqb c "]" then Some (JArr (List.rev (v :: acc)), r1)
            else if Ascii.eqb c "," then parse_elems fuel (skip_ws r1) (v :: acc)
            else None
        | EmptyString => None
        end
    end.
Proof. reflexivity. Qed.

Lemma parse_members_S (fuel : nat) (s : string) (acc : list (string * json)) :
  parse_members (S fuel) s acc
  = match scan_string s with
    | None => None
    | Some (k, r) =>
        match skip_ws r with
        | String c r1 =>
            if Ascii.eqb c ":" then
              match parse_value fuel (skip_ws r1) with
              | None => None
              | Some (v, r2) =>
                  match skip_ws r2 with
                  | String c2 r3 =>
                      if Ascii.eqb c2 "}" then
                        Some (JObj (dict_of_pairs (List.rev ((k, v) :: acc))), r3)
                      else if Ascii.eqb c2 "," then
                        match skip_ws r3 with
                        | String c3 r4 =>
                            if Ascii.eqb c3 dquote then
                              parse_members fuel r4 ((k, v) :: acc)
                            else None
                        | EmptyString => None
                        end
                      else None
                  | EmptyString => None
                  end
              end
            else None
        | EmptyString => None
        end
    end.
Proof. reflexivity. Qed.

(** *** The text of a value *)

Lemma dumps_array (x : json) (r : list json) :
  dumps (JArr (x :: r)) = "[" ++ dumps x ++ dumps_elems r.
Proof.
  reflexivity.
Qed.

Lemma dumps_object (k : string) (x : json) (r : list (string * json)) :
  dumps (JObj ((k, x) :: r))
  = "{" ++ quote k ++ ": " ++ dumps x ++ dumps_members r.
Proof.
  reflexivity.
Qed.

Lemma digit_head_ok (c : ascii) :
  is_digit c = true -> is_ws c = false /\ Ascii.eqb c "]" = false.
Proof.
  destruct c as [[] [] [] [] [] [] [] []]; try discriminate; now split.
Qed.

Lemma print_N_head_ok (n : N) (t : string) : head_ok (print_N n ++ t).
Proof.
  destruct (print_N_head n) as (c & r & E & Hc).
  exists c, (r ++ t). rewrite E. split; [reflexivity|].
  now apply digit_head_ok.
Qed.

Lemma dumps_head (v : json) : head_ok (dumps v).
Proof.
  destruct v as [|[]|z|[[] n fr]|[]|s|[|x l]|[|[k x] l]];
    try (eexists _, _; split; [reflexivity | now split]).
  - simpl. unfold print_Z. destruct (z <? 0)%Z.
    + eexists _, _; split; [reflexivity | now split].
    + rewrite <- (append_nil_r (print_N _)). apply print_N_head_ok.
  - unfold dumps, print_decimal. simpl dneg. simpl dint. simpl dfrac.
    simpl append at 1. apply print_N_head_ok.
Qed.

Lemma skip_ws_head (s t : string) : head_ok s -> skip_ws (s ++ t) = s ++ t.
Proof.
  intros (c & r & -> & Hws & _). simpl. now rewrite Hws.
Qed.

Lemma skip_ws_dumps (v : json) (t : string) :
  skip_ws (dumps v ++ t) = dumps v ++ t.
Proof. apply skip_ws_head, dumps_head. Qed.

Lemma stops_elems (l : list json) (t : string) : stops (dumps_elems l ++ t) = true.
Proof. destruct l; reflexivity. Qed.

Lemma stops_members (l : list (string * json)) (t : string) :
  stops (dumps_members l ++ t) = true.
Proof. destruct l as [|[k x] l]; reflexivity. Qed.

(** *** Dictionaries *)

Lemma dict_set_fresh {V : Type} (d : list (string * V)) (k : string) (v : V) :
  existsb (String.eqb k) (map fst d) = false ->
  dict_set d k v = (d ++ [(k, v)])%list.
Proof.
  induction d as [|[k' v'] d IH]; simpl; [reflexivity|].
  intros H. apply orb_false_elim in H as [Hk Hd].
  rewrite String.eqb_sym, Hk. now rewrite IH.
Qed.

Lemma existsb_app_false (k : string) (a b : list string) :
  existsb (String.eqb k) (a ++ b)%list = false <->
  existsb (String.eqb k) a = false /\ existsb (String.eqb k) b = false.
Proof. rewrite existsb_app. apply orb_false_iff. Qed.

Lemma fold_dict_set_distinct {V : Type} (l d : list (string * V)) :
  distinct (map fst (d ++ l)%list) = true ->
  fold_left (fun d kv => dict_set d (fst kv) (snd kv)) l d = (d ++ l)%list.
Proof.
  revert d. induction l as [|[k v] l IH]; intros d H; simpl.
  - now rewrite List.app_nil_r.
  - assert (Hfresh : existsb (String.eqb k) (map fst d) = false).
    { clear IH. induction d as [|[k' v'] d IHd]; simpl in *; [reflexivity|].
      apply andb_prop in H as [Hk' Hd].
      rewrite map_app in Hk'. simpl in Hk'.
      apply negb_true_iff in Hk'.
      apply existsb_app_false in Hk' as [_ Hk'].
      simpl in Hk'. apply orb_false_elim in Hk' as [Hk' _].
      rewrite String.eqb_sym, Hk'. simpl. now apply IHd. }
    rewrite (dict_set_fresh _ _ _ Hfresh).
    rewrite IH; rewrite <- List.app_assoc; [reflexivity | exact H].
Qed.

Lemma dict_of_pairs_distinct {V : Type} (l : list (string * V)) :
  distinct (map fst l) = true -> dict_of_pairs l = l.
Proof. intros H. unfold dict_of_pairs. now rewrite fold_dict_set_distinct. Qed.

(** *** Reading back what was written *)

Lemma dumps_elems_cons (y : json) (l : list json) (rest : string) :
  dumps_elems (y :: l) ++ rest
  = String "," (String " " (dumps y ++ dumps_elems l ++ rest)).
Proof. simpl. now rewrite append_assoc. Qed.

Lemma dumps_members_cons (k : string) (y : json) (l : list (string * json))
    (rest : string) :
  dumps_members ((k, y) :: l) ++ rest
  = String "," (String " " (String dquote
      (escape k ++ String dquote (String ":" (String " "
         (dumps y ++ dumps_members l ++ rest)))))).
Proof.
  simpl. unfold quote. simpl. rewrite !append_assoc. simpl.
  now rewrite ?append_assoc.
Qed.

Lemma dumps_array_text (x : json) (l : list json) (rest : string) :
  dumps (JArr (x :: l)) ++ rest
  = String "[" (dumps x ++ dumps_elems l ++ rest).
Proof. rewrite dumps_array. simpl. now rewrite append_assoc. Qed.

Lemma dumps_object_text (k : string) (x : json) (l : list (string * json))
    (rest : string) :
  dumps (JObj ((k, x) :: l)) ++ rest
  = String "{" (String dquote
      (escape k ++ String dquote (String ":" (String " "
         (dumps x ++ dumps_members l ++ rest))))).
Proof.
  rewrite dumps_object. unfold quote. simpl. rewrite !append_assoc. simpl.
  now rewrite ?append_assoc.
Qed.

Lemma parse_elems_dumps (l : list json) :
  Forall reads_back l -> forallb wf l = true ->
  forall x, reads_back x -> wf x = true ->
  forall fuel acc rest,
    S (size x + elems_size l) <= fuel ->
    parse_elems fuel (dumps x ++ dumps_elems l ++ rest) acc
    = Some (JArr (List.rev acc ++ x :: l)%list, rest).
Proof.
  induction 1 as [|y l Hy Hl IH]; intros Hwf x Hx Hwfx fuel acc rest Hfuel;
    (destruct fuel as [|fuel]; [lia|]); rewrite parse_elems_S;
    rewrite (Hx Hwfx) by (simpl in Hfuel; try lia; apply stops_elems).
  - reflexivity.
  - simpl in Hwf. apply andb_prop in Hwf as [Hwfy Hwf].
    rewrite dumps_elems_cons.
    change (skip_ws (String "," ?t)) with (String "," t).
    change (Ascii.eqb "," "]") with false.
    change (Ascii.eqb "," ",") with true. cbv iota.
    change (skip_ws (String " " ?t)) with (skip_ws t).
    rewrite skip_ws_dumps.
    rewrite (IH Hwf y Hy Hwfy) by (simpl in Hfuel |- *; lia).
    simpl. now rewrite <- List.app_assoc.
Qed.

Lemma parse_members_dumps (l : list (string * json)) :
  Forall (fun kv => reads_back (snd kv)) l ->
  forallb (fun kv => wf (snd kv)) l = true ->
  forall k x, reads_back x -> wf x = true ->
  forall fuel acc rest,
    S (size x + members_size l) <= fuel ->
    parse_members fuel
      (escape k ++ String dquote (String ":" (String " "
         (dumps x ++ dumps_members l ++ rest)))) acc
    = Some (JObj (dict_of_pairs (List.rev acc ++ (k, x) :: l)%list), rest).
Proof.
  induction 1 as [|[k' y] l Hy Hl IH]; intros Hwf k x Hx Hwfx fuel acc rest Hfuel;
    (destruct fuel as [|fuel]; [lia|]); rewrite parse_members_S;
    rewrite scan_escape;
    change (skip_ws (String ":" ?t)) with (String ":" t);
    change (Ascii.eqb ":" ":") with true; cbv iota;
    change (skip_ws (String " " ?t)) with (skip_ws t);
    rewrite skip_ws_dumps;
    rewrite (Hx Hwfx) by (simpl in Hfuel; try lia; apply stops_members).
  - reflexivity.
  - simpl in Hwf. apply andb_prop in Hwf as [Hwfy Hwf].
    rewrite dumps_members_cons.
    change (skip_ws (String "," ?t)) with (String "," t).
    change (Ascii.eqb "," "}") with false.
    change (Ascii.eqb "," ",") with true. cbv iota.
    change (skip_ws (String " " ?t)) with (skip_ws t).
    change (skip_ws (String dquote ?t)) with (String dquote t).
    change (Ascii.eqb dquote dquote) with true. cbv iota.
    simpl snd in Hy.
    rewrite (IH Hwf k' y Hy Hwfy) by (simpl in Hfuel |- *; lia).
    simpl. now rewrite <- List.app_assoc.
Qed.

Lemma parse_value_dumps (v : json) : reads_back v.
Proof.
  induction v as [|b|z|d|k|s|l IH|l IH] using json_ind;
    intros Hwf fuel rest Hfuel Hrest;
    (destruct fuel as [|fuel]; [simpl in Hfuel; lia|]).
  - reflexivity.
  - destruct b; reflexivity.
  - simpl dumps. unfold print_Z at 1.
    destruct (z <? 0)%Z eqn:Hz.
    + destruct (print_N_head (Z.abs_N z)) as (c & r & E & Hc).
      simpl append. rewrite E. simpl append.
      rewrite (parse_value_minus_digit _ _ _ Hc).
      change (String "-" (String c (r ++ rest)))
        with (String "-" (String c r) ++ rest).
      rewrite <- E.
      replace (String "-" (print_N (Z.abs_N z))) with (print_Z z)
        by (unfold print_Z; now rewrite Hz).
      now apply scan_number_print_Z.
    + destruct (print_N_head (Z.to_N z)) as (c & r & E & Hc).
      rewrite E. simpl append.
      rewrite (parse_value_digit _ _ _ Hc).
      change (String c (r ++ rest)) with (String c r ++ rest).
      rewrite <- E.
      replace (print_N (Z.to_N z)) with (print_Z z)
        by (unfold print_Z; now rewrite Hz).
      now apply scan_number_print_Z.
  - simpl in Hwf. simpl dumps.
    pose proof (scan_number_print_decimal d rest Hwf Hrest) as Hscan.
    destruct d as [neg n fr]. unfold print_decimal in *.
    simpl dneg in *. simpl dint in *. simpl dfrac in *.
    destruct (print_N_head n) as (c & r & E & Hc).
    destruct neg.
    + simpl append in *. rewrite E in *. simpl append in *.
      now rewrite (parse_value_minus_digit _ _ _ Hc).
    + simpl append in *. rewrite E in *. simpl append in *.
      now rewrite (parse_value_digit _ _ _ Hc).
  - destruct k; reflexivity.
  - simpl dumps. destruct (scan_quote s rest) as [-> Hscan].
    now rewrite parse_value_string, Hscan.
  - destruct l as [|x l]; [reflexivity|].
    rewrite dumps_array_text, parse_value_array, skip_ws_dumps.
    simpl in Hwf. apply andb_prop in Hwf as [Hwfx Hwf].
    inversion IH as [|? ? Hx Hl]; subst.
    destruct (dumps_head x) as (c & r & E & _ & Hbr).
    rewrite E at 1. simpl append at 1. cbv iota. rewrite Hbr.
    change (String c (r ++ ?t)) with (String c r ++ t). rewrite <- E.
    rewrite (parse_elems_dumps l Hl Hwf x Hx Hwfx)
      by (simpl in Hfuel; unfold elems_size; lia).
    reflexivity.
  - destruct l as [|[k x] l]; [reflexivity|].
    rewrite dumps_object_text, parse_value_object.
    change (skip_ws (String dquote ?t)) with (String dquote t).
    change (Ascii.eqb dquote "}") with false.
    change (Ascii.eqb dquote dquote) with true. cbv iota.
    simpl in Hwf. apply andb_prop in Hwf as [Hkeys Hwf].
    apply andb_prop in Hwf as [Hwfx Hwf].
    inversion IH as [|? ? Hx Hl]; subst. simpl snd in Hx.
    rewrite (parse_members_dumps l Hl Hwf k x Hx Hwfx)
      by (simpl in Hfuel; unfold members_size; lia).
    simpl app. rewrite dict_of_pairs_distinct; [reflexivity|].
    simpl. exact Hkeys.
Qed.

(** The fuel [loads] gives the parser is enough for a printed value. *)

Lemma length_dumps_pos (v : json) : 1 <= String.length (dumps v).
Proof. destruct (dumps_head v) as (c & r & -> & _). simpl. lia. Qed.

Lemma size_elems (l : list json) :
  Forall (fun v => size v <= String.length (dumps v)) l ->
  S (elems_size l) <= String.length (dumps_elems l).
Proof.
  induction 1 as [|y l Hy Hl IH]; simpl; [lia|].
  rewrite length_append. lia.
Qed.

Lemma size_members (l : list (string * json)) :
  Forall (fun kv => size (snd kv) <= String.length (dumps (snd kv))) l ->
  S (members_size l) <= String.length (dumps_members l).
Proof.
  induction 1 as [|[k y] l Hy Hl IH]; simpl in *; [lia|].
  rewrite !length_append. simpl. rewrite length_append. lia.
Qed.

Lemma size_le_length (v : json) : size v <= String.length (dumps v).
Proof.
  induction v as [|b|z|d|k|s|l IH|l IH] using json_ind;
    try apply length_dumps_pos.
  - destruct l as [|x l]; [simpl; lia|].
    rewrite dumps_array. inversion IH as [|? ? Hx Hl]; subst.
    apply size_elems in Hl. simpl. rewrite length_append.
    fold (elems_size l). lia.
  - destruct l as [|[k x] l]; [simpl; lia|].
    rewrite dumps_object. inversion IH as [|? ? Hx Hl]; subst.
    apply size_members in Hl. simpl in *. rewrite !length_append. simpl.
    rewrite length_append. fold (members_size l). lia.
Qed.

(** [json.loads(json.dumps(v)) == v] *)
Lemma loads_dumps (v : json) : wf v = true -> loads (dumps v) = Some v.
Proof.
  intros Hwf. unfold loads.
  pose proof (skip_ws_dumps v "") as Hskip.
  rewrite append_nil_r in Hskip. rewrite Hskip.
  rewrite <- (append_nil_r (dumps v)) at 2.
  rewrite (parse_value_dumps v Hwf); [reflexivity | | reflexivity].
  pose proof (size_le_length v). lia.
Qed.

(** *** Dictionaries, continued *)

Lemma dict_get_set_same {V : Type} (d : list (string * V)) (k : string) (v : V) :
  dict_get (dict_set d k v) k = Some v.
Proof.
  induction d as [|[k' v'] d IH]; simpl.
  - now rewrite String.eqb_refl.
  - destruct (String.eqb k' k) eqn:E; simpl; rewrite E; [reflexivity | exact IH].
Qed.

Lemma dict_get_set_other {V : Type} (d : list (string * V)) (k k' : string) (v : V) :
  k <> k' -> dict_get (dict_set d k v) k' = dict_get d k'.
Proof.
  intros Hne. induction d as [|[k0 v0] d IH]; simpl.
  - destruct (String.eqb_spec k k'); [contradiction | reflexivity].
  - destruct (String.eqb_spec k0 k) as [->|Hk]; simpl.
    + destruct (String.eqb_spec k k'); [contradiction | reflexivity].
    + destruct (String.eqb k0 k'); [reflexivity | exact IH].
Qed.

Lemma keys_dict_set_mem {V : Type} (d : list (string * V)) (k : string) (v : V) :
  dict_mem d k = true -> map fst (dict_set d k v) = map fst d.
Proof.
  unfold dict_mem. induction d as [|[k' v'] d IH]; simpl; [discriminate|].
  destruct (String.eqb k' k); simpl; [reflexivity|].
  intros H. now rewrite IH.
Qed.

Lemma keys_dict_set_fresh {V : Type} (d : list (string * V)) (k : string) (v : V) :
  dict_mem d k = false -> map fst (dict_set d k v) = (map fst d ++ [k])%list.
Proof.
  unfold dict_mem. induction d as [|[k' v'] d IH]; simpl; [reflexivity|].
  destruct (String.eqb k' k); simpl; [discriminate|].
  intros H. now rewrite IH.
Qed.

Lemma dict_mem_existsb {V : Type} (d : list (string * V)) (k : string) :
  dict_mem d k = existsb (String.eqb k) (map fst d).
Proof.
  unfold dict_mem. induction d as [|[k' v'] d IH]; simpl; [reflexivity|].
  rewrite (String.eqb_sym k k').
  destruct (String.eqb k' k); simpl; [reflexivity | exact IH].
Qed.

Lemma distinct_snoc (l : list string) (k : string) :
  distinct l = true -> existsb (String.eqb k) l = false ->
  distinct (l ++ [k])%list = true.
Proof.
  induction l as [|x l IH]; simpl; [reflexivity|].
  intros H Hk. apply andb_prop in H as [Hx Hl].
  apply orb_false_elim in Hk as [Hkx Hkl].
  rewrite existsb_app. simpl. rewrite String.eqb_sym, Hkx.
  apply negb_true_iff in Hx. rewrite Hx. simpl. now apply IH.
Qed.

Lemma distinct_dict_set {V : Type} (d : list (string * V)) (k : string) (v : V) :
  distinct (map fst d) = true -> distinct (map fst (dict_set d k v)) = true.
Proof.
  intros H. destruct (dict_mem d k) eqn:E.
  - now rewrite keys_dict_set_mem.
  - rewrite keys_dict_set_fresh by exact E.
    apply distinct_snoc; [exact H|]. now rewrite <- dict_mem_existsb.
Qed.

Lemma forallb_dict_set {V : Type} (f : string * V -> bool)
    (d : list (string * V)) (k : string) (v : V) :
  (forall k', f (k', v) = true) ->
  forallb f d = true -> forallb f (dict_set d k v) = true.
Proof.
  intros Hv. induction d as [|[k' v'] d IH]; simpl.
  - intros _. now rewrite Hv.
  - intros H. apply andb_prop in H as [H1 H2].
    destruct (String.eqb k' k); simpl.
    + now rewrite Hv, H2.
    + now rewrite H1, IH.
Qed.

(** Setting a key to a well-formed value keeps a dictionary well formed. *)
Lemma wf_dict_set (d : list (string * json)) (k : string) (v : json) :
  wf (JObj d) = true -> wf v = true -> wf (JObj (dict_set d k v)) = true.
Proof.
  simpl. intros H Hv. apply andb_prop in H as [H1 H2].
  rewrite distinct_dict_set by exact H1. simpl.
  apply forallb_dict_set; [intros; exact Hv | exact H2].
Qed.

(** *** What the parser returns is well formed *)

Lemma all_digits_scan (s : string) : all_digits (fst (scan_digits s)) = true.
Proof.
  induction s as [|c s IH]; simpl; [reflexivity|].
  destruct (is_digit c) eqn:E; [|reflexivity].
  destruct (scan_digits s) as [ds rest]. simpl in *. now rewrite E.
Qed.

Lemma all_digits_append (a b : string) :
  all_digits (a ++ b) = all_digits a && all_digits b.
Proof.
  induction a as [|c a IH]; simpl; [reflexivity|].
  now rewrite IH, andb_assoc.
Qed.

Lemma all_digits_zeros (n : nat) : all_digits (zeros n) = true.
Proof. induction n; simpl; auto. Qed.

Lemma all_digits_substring (s : string) :
  all_digits s = true -> forall n m, all_digits (substring n m s) = true.
Proof.
  induction s as [|c s IH]; intros H n m.
  - destruct n, m; reflexivity.
  - simpl in H. apply andb_prop in H as [Hc Hs].
    destruct n as [|n]; simpl.
    + destruct m as [|m]; [reflexivity|]. simpl. now rewrite Hc, IH.
    + now apply IH.
Qed.

Lemma all_digits_strip (s : string) :
  all_digits s = true -> all_digits (strip_zeros s) = true.
Proof.
  induction s as [|c s IH]; simpl; [reflexivity|].
  intros H. apply andb_prop in H as [Hc Hs]. specialize (IH Hs).
  destruct (strip_zeros s); simpl in *.
  - destruct (Ascii.eqb c "0"); simpl; [reflexivity | now rewrite Hc].
  - now rewrite Hc.
Qed.

Lemma strip_zeros_idem (s : string) : strip_zeros (strip_zeros s) = strip_zeros s.
Proof.
  induction s as [|c s IH]; simpl; [reflexivity|].
  destruct (strip_zeros s) as [|c' s'] eqn:E.
  - destruct (Ascii.eqb c "0") eqn:Ec; simpl; [reflexivity | now rewrite Ec].
  - simpl in IH |- *.
    destruct (match strip_zeros s' with
              | "" => if Ascii.eqb c' "0" then "" else String c' ""
              | String a r => String c' (String a r)
              end) eqn:E'; [discriminate IH | now rewrite IH].
Qed.

Lemma wf_canon_frac (neg : bool) (n : N) (s : string) :
  all_digits s = true ->
  wf_decimal {| dneg := neg; dint := n; dfrac := canon_frac s |} = true.
Proof.
  intros H. unfold wf_decimal. simpl. apply andb_true_intro. split.
  - unfold canon_frac. pose proof (all_digits_strip s H).
    destruct (strip_zeros s); [reflexivity | assumption].
  - apply String.eqb_eq. unfold canon_frac.
    destruct (strip_zeros s) as [|c r] eqn:E; [reflexivity|].
    rewrite <- E, strip_zeros_idem, E. reflexivity.
Qed.

Lemma wf_shift_decimal (neg : bool) (ip fr : string) (e : Z) :
  all_digits ip = true -> all_digits fr = true ->
  wf_decimal (shift_decimal neg ip fr e) = true.
Proof.
  intros Hip Hfr. unfold shift_decimal.
  destruct (0 <=? e)%Z; apply wf_canon_frac.
  - apply all_digits_substring.
    now rewrite all_digits_append, Hfr, all_digits_zeros.
  - rewrite all_digits_append, Hfr, andb_true_r.
    apply all_digits_substring.
    now rewrite all_digits_append, Hip, all_digits_zeros.
Qed.

Lemma wf_number_value (neg : bool) (ip : string) (fr : option string)
    (e : option Z) :
  all_digits ip = true ->
  match fr with Some f => all_digits f = true | None => True end ->
  wf (number_value neg ip fr e) = true.
Proof.
  intros Hip Hfr. unfold number_value.
  destruct fr as [f|], e as [e|]; simpl;
    try reflexivity; try (now apply wf_shift_decimal);
    now apply wf_canon_frac.
Qed.

Ltac finish_number :=
  cbn [wf number_value];
  first [ reflexivity
        | now apply wf_canon_frac
        | now apply wf_shift_decimal ].

Lemma wf_scan_number (s : string) (v : json) (r : string) :
  scan_number s = Some (v, r) -> wf v = true.
Proof.
  unfold scan_number.
  destruct (scan_sign s) as [neg s1].
  pose proof (all_digits_scan s1) as Hip.
  destruct (scan_digits s1) as [ip s2]. simpl in Hip.
  destruct (negb (int_digits_ok ip)); [discriminate|].
  assert (Hfr : match fst (scan_frac s2) with
                | Some f => all_digits f = true
                | None => True
                end).
  { unfold scan_frac. destruct s2 as [|c s2]; [exact I|].
    destruct (Ascii.eqb c "."); [|exact I].
    pose proof (all_digits_scan s2) as H.
    now destruct (scan_digits s2). }
  destruct (scan_frac s2) as [fr s3]. simpl in Hfr.
  destruct fr as [[|f0 f]|]; [discriminate| |];
    (destruct s3 as [|c s3];
     [intros H; injection H as <- _; finish_number|]);
    (destruct (Ascii.eqb c "e" || Ascii.eqb c "E");
     [|intros H; injection H as <- _; finish_number]);
    destruct (scan_exp_sign s3) as [eneg r1];
    destruct (scan_digits r1) as [[|e0 ed] r2]; try discriminate;
    intros H; injection H as <- _; finish_number.
Qed.

Lemma distinct_fold_dict_set {V : Type} (l d : list (string * V)) :
  distinct (map fst d) = true ->
  distinct (map fst (fold_left (fun d kv => dict_set d (fst kv) (snd kv)) l d))
  = true.
Proof.
  revert d. induction l as [|[k v] l IH]; intros d H; simpl; [exact H|].
  apply IH. now apply distinct_dict_set.
Qed.

Lemma forallb_fold_dict_set {V : Type} (f : V -> bool) (l d : list (string * V)) :
  forallb (fun kv => f (snd kv)) l = true ->
  forallb (fun kv => f (snd kv)) d = true ->
  forallb (fun kv => f (snd kv))
    (fold_left (fun d kv => dict_set d (fst kv) (snd kv)) l d) = true.
Proof.
  revert d. induction l as [|[k v] l IH]; intros d Hl Hd; simpl; [exact Hd|].
  simpl in Hl. apply andb_prop in Hl as [Hv Hl].
  apply IH; [exact Hl|].
  apply forallb_dict_set; [intros; exact Hv | exact Hd].
Qed.

Lemma wf_dict_of_pairs (l : list (string * json)) :
  forallb (fun kv => wf (snd kv)) l = true ->
  wf (JObj (dict_of_pairs l)) = true.
Proof.
  intros H. simpl. unfold dict_of_pairs.
  rewrite distinct_fold_dict_set by reflexivity.
  now rewrite forallb_fold_dict_set.
Qed.

Lemma forallb_rev {A : Type} (f : A -> bool) (l : list A) :
  forallb f (List.rev l) = forallb f l.
Proof.
  induction l as [|x l IH]; simpl; [reflexivity|].
  rewrite forallb_app, IH. simpl. rewrite andb_true_r. apply andb_comm.
Qed.

Lemma wf_parse (fuel : nat) :
  (forall s v r, parse_value fuel s = Some (v, r) -> wf v = true) /\
  (forall s acc v r, forallb wf acc = true ->
     parse_elems fuel s acc = Some (v, r) -> wf v = true) /\
  (forall s acc v r, forallb (fun kv => wf (snd kv)) acc = true ->
     parse_members fuel s acc = Some (v, r) -> wf v = true).
Proof.
  induction fuel as [|fuel (IHv & IHe & IHm)];
    [repeat split; intros; discriminate|].
  repeat split.
  - intros s v r. destruct s as [|c s]; [discriminate|].
    cbn [parse_value].
    destruct (Ascii.eqb c dquote).
    { destruct (scan_string s) as [[t rest]|]; [|discriminate].
      now intros [= <- _]. }
    destruct (Ascii.eqb c "{").
    { destruct (skip_ws s) as [|c1 r1]; [discriminate|].
      destruct (Ascii.eqb c1 "}"); [now intros [= <- _]|].
      destruct (Ascii.eqb c1 dquote); [|discriminate].
      now apply IHm. }
    destruct (Ascii.eqb c "[").
    { destruct (skip_ws s) as [|c1 r1]; [discriminate|].
      destruct (Ascii.eqb c1 "]"); [now intros [= <- _]|].
      now apply IHe. }
    destruct (Ascii.eqb c "n").
    { destruct (strip_prefix "ull" s); [now intros [= <- _] | discriminate]. }
    destruct (Ascii.eqb c "t").
    { destruct (strip_prefix "rue" s); [now intros [= <- _] | discriminate]. }
    destruct (Ascii.eqb c "f").
    { destruct (strip_prefix "alse" s); [now intros [= <- _] | discriminate]. }
    destruct (Ascii.eqb c "N").
    { destruct (strip_prefix "aN" s); [now intros [= <- _] | discriminate]. }
    destruct (Ascii.eqb c "I").
    { destruct (strip_prefix "nfinity" s); [now intros [= <- _] | discriminate]. }
    destruct (Ascii.eqb c "-") eqn:Ec.
    { apply Ascii.eqb_eq in Ec. subst c.
      destruct (strip_prefix "Infinity" s); [now intros [= <- _]|].
      apply wf_scan_number. }
    destruct (is_digit c); [apply wf_scan_number | discriminate].
  - intros s acc v r Hacc. rewrite parse_elems_S.
    destruct (parse_value fuel s) as [[x r0]|] eqn:E; [|discriminate].
    apply IHv in E.
    destruct (skip_ws r0) as [|c r1]; [discriminate|].
    destruct (Ascii.eqb c "]").
    { intros H. injection H as <- _.
      change (forallb wf (List.rev (x :: acc)) = true).
      rewrite forallb_rev. simpl. now rewrite E. }
    destruct (Ascii.eqb c ","); [|discriminate].
    apply IHe. simpl. now rewrite E.
  - intros s acc v r Hacc. rewrite parse_members_S.
    destruct (scan_string s) as [[k r0]|]; [|discriminate].
    destruct (skip_ws r0) as [|c r1]; [discriminate|].
    destruct (Ascii.eqb c ":"); [|discriminate].
    destruct (parse_value fuel (skip_ws r1)) as [[x r2]|] eqn:E; [|discriminate].
    apply IHv in E.
    destruct (skip_ws r2) as [|c2 r3]; [discriminate|].
    destruct (Ascii.eqb c2 "}").
    { intros H. injection H as <- _.
      apply (wf_dict_of_pairs (List.rev ((k, x) :: acc))).
      rewrite forallb_rev. simpl. now rewrite E. }
    destruct (Ascii.eqb c2 ","); [|discriminate].
    destruct (skip_ws r3) as [|c3 r4]; [discriminate|].
    destruct (Ascii.eqb c3 dquote); [|discriminate].
    apply IHm. simpl. now rewrite E.
Qed.

(** Every value [json.loads] returns is one Python can hold. *)
Lemma loads_wf (s : string) (v : json) : loads s = Some v -> wf v = true.
Proof.
  unfold loads.
  destruct (parse_value (S (String.length s)) (skip_ws s)) as [[x r]|] eqn:E;
    [|discriminate].
  destruct (skip_ws r); [|discriminate].
  intros [= <-]. now apply (proj1 (wf_parse _)) in E.
Qed.

(** *** The text of a record *)

(** The text [json.dumps] writes for a small record, and its reading. *)
Example dumps_small_record :
  dumps (JObj [("id", JStr "X"); ("p", JFloat {| dneg := false; dint := 0;
                                                   dfrac := "25" |});
               ("y", JNull)])
  = "{" ++ String dquote ("id" ++ String dquote (": " ++ String dquote
      ("X" ++ String dquote (", " ++ String dquote ("p" ++ String dquote
      (": 0.25, " ++ String dquote ("y" ++ String dquote ": null}"))))))).
Proof. reflexivity. Qed.

Example loads_small_record :
  loads ("{" ++ String dquote ("id" ++ String dquote (" : " ++ String dquote
      ("X" ++ String dquote (",  " ++ String dquote ("p" ++ String dquote
      (": 2.50e-1}")))))))
  = Some (JObj [("id", JStr "X");
                ("p", JFloat {| dneg := false; dint := 0; dfrac := "25" |})]).
Proof. reflexivity. Qed.

Example loads_malformed : loads "not json" = None /\ loads "" = None.
Proof. split; reflexivity. Qed.

(** *** A record is one line of the log *)

Lemma one_line_append (a b : string) :
  one_line (a ++ b) = one_line a && one_line b.
Proof.
  induction a as [|c a IH]; simpl; [reflexivity|].
  now rewrite IH, andb_assoc.
Qed.

Lemma one_line_digits (s : string) : all_digits s = true -> one_line s = true.
Proof.
  induction s as [|c s IH]; simpl; [reflexivity|].
  intros H. apply andb_prop in H as [Hc Hs]. rewrite (IH Hs), andb_true_r.
  destruct c as [[] [] [] [] [] [] [] []]; try discriminate Hc; reflexivity.
Qed.

Lemma one_line_escape_char (c : ascii) : one_line (escape_char c) = true.
Proof. destruct c as [[] [] [] [] [] [] [] []]; reflexivity. Qed.

Lemma one_line_escape (s : string) : one_line (escape s) = true.
Proof.
  induction s as [|c s IH]; simpl; [reflexivity|].
  now rewrite one_line_append, one_line_escape_char, IH.
Qed.

Lemma one_line_quote (s : string) : one_line (quote s) = true.
Proof.
  unfold quote. cbn [one_line]. rewrite one_line_append, one_line_escape.
  reflexivity.
Qed.

Lemma one_line_print_N (n : N) : one_line (print_N n) = true.
Proof. apply one_line_digits, all_digits_print_N. Qed.

Lemma one_line_elems (l : list json) :
  Forall (fun v => one_line (dumps v) = true) l ->
  one_line (dumps_elems l) = true.
Proof.
  induction 1 as [|y l Hy _ IH]; [reflexivity|].
  cbn [dumps_elems]. rewrite !one_line_append, Hy, IH. reflexivity.
Qed.

Lemma one_line_members (l : list (string * json)) :
  Forall (fun kv => one_line (dumps (snd kv)) = true) l ->
  one_line (dumps_members l) = true.
Proof.
  induction 1 as [|[k y] l Hy _ IH]; [reflexivity|].
  cbn [dumps_members]. simpl snd in Hy.
  rewrite !one_line_append, one_line_quote, Hy, IH. reflexivity.
Qed.

Lemma Forall_wf_impl {A : Type} (f : A -> bool) (P : A -> Prop) (l : list A) :
  Forall (fun x => f x = true -> P x) l -> forallb f l = true -> Forall P l.
Proof.
  induction 1 as [|x l Hx _ IH]; simpl; intros H; constructor;
    apply andb_prop in H as [H1 H2]; auto.
Qed.

(** [json.dumps] never writes a newline: a record takes one line. *)
Lemma dumps_one_line (v : json) : wf v = true -> one_line (dumps v) = true.
Proof.
  induction v as [|b|z|d|k|s|l IH|l IH] using json_ind; intros Hwf.
  - reflexivity.
  - destruct b; reflexivity.
  - simpl. unfold print_Z. destruct (z <? 0)%Z; cbn [one_line];
      now rewrite one_line_print_N.
  - simpl in *. unfold wf_decimal in Hwf. apply andb_prop in Hwf as [Hd _].
    unfold print_decimal. rewrite !one_line_append, one_line_print_N.
    rewrite (one_line_digits _ Hd). now destruct (dneg d).
  - destruct k; reflexivity.
  - apply one_line_quote.
  - destruct l as [|x l]; [reflexivity|].
    rewrite dumps_array.
    apply (Forall_wf_impl wf) in IH; [|exact Hwf].
    inversion IH as [|? ? Hx Hl]; subst.
    rewrite !one_line_append, Hx, (one_line_elems l Hl). reflexivity.
  - destruct l as [|[k x] l]; [reflexivity|].
    rewrite dumps_object. simpl in Hwf. apply andb_prop in Hwf as [_ Hwf].
    apply (Forall_wf_impl (fun kv => wf (snd kv))) in IH; [|exact Hwf].
    inversion IH as [|? ? Hx Hl]; subst. simpl snd in Hx.
    rewrite !one_line_append, one_line_quote, Hx, (one_line_members l Hl).
    reflexivity.
Qed.

End JsonFacts.

Import JsonFacts.

(** * Facts about the monitoring operations *)

Lemma mapM_app {A B : Type} (f : A -> result B) (a b : list A) :
  mapM f (a ++ b)%list =
  match mapM f a with
  | Raise e => Raise e
  | Ok xs =>
      match mapM f b with
      | Raise e => Raise e
      | Ok ys => Ok (xs ++ ys)%list
      end
  end.
Proof.
  induction a as [|x a IH]; simpl.
  - now destruct (mapM f b).
  - destruct (f x); [|reflexivity]. rewrite IH.
    destruct (mapM f a); [|reflexivity]. now destruct (mapM f b).
Qed.

Lemma json_loads_dumps (v : json) :
  wf v = true -> json_loads (json_dumps v) = Ok v.
Proof.
  intros H. unfold json_loads, json_dumps. now rewrite loads_dumps.
Qed.

Lemma json_loads_wf (line : string) (v : json) :
  json_loads line = Ok v -> wf v = true.
Proof.
  unfold json_loads. destruct (loads line) eqn:E;
    [|destruct (wide_escape line); discriminate].
  intros [= <-]. now apply loads_wf in E.
Qed.


Lemma json_loads_Ok (line : string) (v : json) :
  json_loads line = Ok v <-> loads line = Some v.
Proof.
  unfold json_loads. destruct (loads line);
    [|destruct (wide_escape line)]; split; congruence.
Qed.

Lemma lines_of_append (st : state) (lines : list string) :
  lines_of (append_lines st lines) = (lines_of st ++ lines)%list.
Proof. unfold lines_of, append_lines. simpl. now destruct (prediction_logs st). Qed.

Lemma wf_prediction_entry (now : datetime) (prediction_id : string)
    (features : list (string * json)) (prediction : number)
    (probability : option decimal) (true_label : option number)
    (metadata : option (list (string * json))) :
  wf (JObj features) = true ->
  wf_number prediction = true ->
  wf (json_of_option JFloat probability) = true ->
  wf (json_of_option json_of_number true_label) = true ->
  wf (json_of_option JObj metadata) = true ->
  wf (JObj (prediction_entry now prediction_id features prediction
              probability true_label metadata)) = true.
Proof.
  intros Hf Hp Hq Ht Hm. unfold prediction_entry.
  assert (Hentry :
    wf (JObj [("prediction_id", JStr prediction_id);
              ("timestamp", JStr (isoformat now));
              ("prediction", json_of_number prediction);
              ("probability", json_of_option JFloat probability);
              ("true_label", json_of_option json_of_number true_label);
              ("features", JObj features)]) = true).
  { unfold wf_number in Hp. cbn [wf map fst snd forallb distinct].
    change (wf (JObj features)) with
      (distinct (map fst features) && forallb (fun kv => wf (snd kv)) features)
      in Hf.
    rewrite Hp, Hq, Ht, Hf. reflexivity. }
  destruct (truthy_dict metadata); [|exact Hentry].
  apply wf_dict_set; [exact Hentry|].
  destruct metadata as [md|]; [exact Hm | reflexivity].
Qed.

(** C7. A record appended by [log_prediction] takes one line at the end of
    the log; it is read back from the log after the records that were
    there, and its fields [prediction_id], [timestamp], [prediction],
    [probability], [true_label] and [features] are the values that were
    supplied. *)
Theorem log_prediction_read_back (m : ModelMonitor) (now : datetime)
    (prediction_id : string) (features : list (string * json))
    (prediction : number) (probability : option decimal)
    (true_label : option number) (metadata : option (list (string * json)))
    (st : state) (logs : list json) :
  enable_monitoring m = true ->
  wf (JObj features) = true ->
  wf_number prediction = true ->
  wf (json_of_option JFloat probability) = true ->
  wf (json_of_option json_of_number true_label) = true ->
  wf (json_of_option JObj metadata) = true ->
  load_logs (lines_of st) = Ok logs ->
  exists record,
    lines_of (log_prediction m now prediction_id features prediction
                probability true_label metadata st)
    = (lines_of st ++ [json_dumps record])%list /\
    one_line (json_dumps record) = true /\
    load_logs (lines_of (log_prediction m now prediction_id features
                           prediction probability true_label metadata st))
    = Ok (logs ++ [record])%list /\
    py_getitem record "prediction_id" = Ok (JStr prediction_id) /\
    py_getitem record "timestamp" = Ok (JStr (isoformat now)) /\
    py_getitem record "prediction" = Ok (json_of_number prediction) /\
    py_getitem record "probability" = Ok (json_of_option JFloat probability) /\
    py_getitem record "true_label"
    = Ok (json_of_option json_of_number true_label) /\
    py_getitem record "features" = Ok (JObj features).
Proof.
  intros Hen Hf Hp Hq Ht Hm Hlogs.
  exists (JObj (prediction_entry now prediction_id features prediction
                  probability true_label metadata)).
  assert (Hlines :
    lines_of (log_prediction m now prediction_id features prediction
                probability true_label metadata st)
    = (lines_of st ++
       [json_dumps (JObj (prediction_entry now prediction_id features
                            prediction probability true_label metadata))])%list).
  { unfold log_prediction. rewrite Hen. simpl negb. cbv iota.
    apply lines_of_append. }
  split; [exact Hlines|]. split; [|split].
  - apply dumps_one_line. now apply wf_prediction_entry.
  - rewrite Hlines. unfold load_logs in *.
    rewrite mapM_app, Hlogs. cbn [mapM].
    rewrite json_loads_dumps by now apply wf_prediction_entry.
    reflexivity.
  - unfold prediction_entry, py_getitem.
    destruct (truthy_dict metadata);
      rewrite ?dict_get_set_other by discriminate;
      repeat split; reflexivity.
Qed.

Lemma log_prediction_read_back_witness :
  exists record,
    lines_of (log_prediction service_monitor two_pm "Y"
                [("amount", JInt 7)] (NInt 1)
                (Some {| dneg := false; dint := 0; dfrac := "75" |})
                None None two_records_X)
    = (lines_of two_records_X ++ [json_dumps record])%list /\
    one_line (json_dumps record) = true /\
    load_logs (lines_of (log_prediction service_monitor two_pm "Y"
                           [("amount", JInt 7)] (NInt 1)
                           (Some {| dneg := false; dint := 0; dfrac := "75" |})
                           None None two_records_X))
    = Ok ([JObj (prediction_entry noon "X" [("amount", JInt 3)] (NInt 1)
                   None None None);
           JObj (prediction_entry one_pm "X" [("amount", JInt 5)] (NInt 0)
                   (Some {| dneg := false; dint := 0; dfrac := "25" |})
                   None None)] ++ [record])%list /\
    py_getitem record "prediction_id" = Ok (JStr "Y") /\
    py_getitem record "timestamp" = Ok (JStr (isoformat two_pm)) /\
    py_getitem record "prediction" = Ok (JInt 1) /\
    py_getitem record "probability"
    = Ok (JFloat {| dneg := false; dint := 0; dfrac := "75" |}) /\
    py_getitem record "true_label" = Ok JNull /\
    py_getitem record "features" = Ok (JObj [("amount", JInt 7)]).
Proof.
  apply (log_prediction_read_back service_monitor two_pm "Y"
           [("amount", JInt 7)] (NInt 1)
           (Some {| dneg := false; dint := 0; dfrac := "75" |}) None None
           two_records_X); reflexivity.
Defined.

(** ** Feedback *)

Lemma feedback_line_record (prediction_id : string) (label : Z)
    (line : string) (d : list (string * json)) :
  json_loads (strip line) = Ok (JObj d) ->
  feedback_line prediction_id label line
  = Ok (JObj (with_feedback prediction_id label d), matches prediction_id d).
Proof.
  intros H. unfold feedback_line, with_feedback, matches. rewrite H.
  simpl. destruct (dict_get d "prediction_id") as [v|]; simpl.
  - now destruct (eq_str v prediction_id).
  - reflexivity.
Qed.

Lemma mapM_Ok_inv {A B : Type} (f : A -> result B) (l : list A) (ys : list B) :
  mapM f l = Ok ys -> Forall2 (fun x y => f x = Ok y) l ys.
Proof.
  revert ys. induction l as [|x l IH]; simpl; intros ys H.
  - injection H as <-. constructor.
  - destruct (f x) as [y|] eqn:E; [|discriminate].
    destruct (mapM f l) as [ys'|]; [|discriminate].
    injection H as <-. constructor; auto.
Qed.

Lemma mapM_Ok_intro {A B : Type} (f : A -> result B) (l : list A) (ys : list B) :
  Forall2 (fun x y => f x = Ok y) l ys -> mapM f l = Ok ys.
Proof.
  induction 1 as [|x y l ys Hxy Hl IH]; simpl; [reflexivity|].
  now rewrite Hxy, IH.
Qed.

Lemma Forall2_map_r {A B C : Type} (P : A -> C -> Prop) (g : B -> C)
    (l : list A) (l' : list B) :
  Forall2 P l (map g l') <-> Forall2 (fun x y => P x (g y)) l l'.
Proof.
  split.
  - revert l. induction l' as [|y l' IH]; intros l H; inversion H; subst;
      constructor; auto.
  - induction 1; simpl; constructor; auto.
Qed.

Lemma mapM_feedback_lines (prediction_id : string) (label : Z)
    (lines : list string) (entries : list (list (string * json))) :
  mapM (fun line => json_loads (strip line)) lines = Ok (map JObj entries) ->
  mapM (feedback_line prediction_id label) lines
  = Ok (map (fun d => (JObj (with_feedback prediction_id label d),
                       matches prediction_id d)) entries).
Proof.
  intros H. apply mapM_Ok_inv in H. apply Forall2_map_r in H.
  apply mapM_Ok_intro. apply Forall2_map_r.
  induction H as [|line d lines entries Hd Hl IH]; constructor; auto.
  now apply feedback_line_record.
Qed.

Lemma existsb_snd_map {A B : Type} (f : A -> B) (g : A -> bool) (l : list A) :
  existsb snd (map (fun x => (f x, g x)) l) = existsb g l.
Proof. induction l as [|x l IH]; simpl; [reflexivity | now rewrite IH]. Qed.

Lemma calculate_keeps_prediction_logs (m : ModelMonitor) (now : datetime)
    (start_time end_time : option datetime) (st : state) :
  prediction_logs (snd (calculate_performance_metrics m now start_time
                          end_time st))
  = prediction_logs st.
Proof.
  unfold calculate_performance_metrics.
  destruct (negb (enable_monitoring m)); [reflexivity|].
  destruct (prediction_logs st) as [lines|] eqn:E; [|exact E].
  unfold save_metrics.
  destruct (compute_metrics lines start_time end_time) as [[ms|]|];
    try exact E.
  destruct (_check_metric_alerts _ _); simpl; exact E.
Qed.

Lemma wf_with_feedback (prediction_id : string) (label : Z)
    (d : list (string * json)) :
  wf (JObj d) = true -> wf (JObj (with_feedback prediction_id label d)) = true.
Proof.
  intros H. unfold with_feedback.
  destruct (matches prediction_id d); [|exact H].
  now apply wf_dict_set.
Qed.

(** C1, as amended. On a log whose every line is read as a record (a
    JSON object) and in which a record matches, feedback for
    [prediction_id] sets [true_label] on every record whose
    [prediction_id] matches, in file order, and leaves the other records
    as they are: the log is rewritten with one line per record, and
    reading it back gives these records.  With two records that share the
    identifier, both are labeled. *)
Theorem process_feedback_labels_every_match (prediction_id : string)
    (label : Z) (m : ModelMonitor) (now : datetime) (st : state)
    (lines : list string) (entries : list (list (string * json))) :
  prediction_logs st = Some lines ->
  mapM (fun line => json_loads (strip line)) lines = Ok (map JObj entries) ->
  existsb (matches prediction_id) entries = true ->
  prediction_logs (process_feedback prediction_id label m now st)
  = Some (map (fun d => json_dumps (JObj (with_feedback prediction_id label d)))
            entries) /\
  load_logs (lines_of (process_feedback prediction_id label m now st))
  = Ok (map (fun d => JObj (with_feedback prediction_id label d)) entries) /\
  Forall (fun d =>
            if matches prediction_id d
            then dict_get (with_feedback prediction_id label d) "true_label"
                 = Some (JInt label)
            else with_feedback prediction_id label d = d) entries.
Proof.
  intros Hlog Hparse Hmatch.
  assert (Hwritten :
    prediction_logs (process_feedback prediction_id label m now st)
    = Some (map (fun d => json_dumps (JObj (with_feedback prediction_id label d)))
              entries)).
  { unfold process_feedback. rewrite Hlog.
    rewrite (mapM_feedback_lines _ _ _ _ Hparse).
    rewrite existsb_snd_map, Hmatch. simpl negb. cbv iota.
    rewrite map_map. cbn [fst].
    destruct (get_flag _);
      [rewrite calculate_keeps_prediction_logs|]; reflexivity. }
  repeat split.
  - exact Hwritten.
  - unfold lines_of. rewrite Hwritten. unfold load_logs.
    apply mapM_Ok_intro. apply Forall2_map_r.
    apply mapM_Ok_inv in Hparse. apply Forall2_map_r in Hparse.
    clear -Hparse. induction Hparse as [|line d lines entries Hd Hl IH];
      cbn [map]; constructor; auto.
    apply json_loads_dumps, wf_with_feedback.
    now apply json_loads_wf in Hd.
  - apply Forall_forall. intros d _. unfold with_feedback.
    destruct (matches prediction_id d); [|reflexivity].
    apply dict_get_set_same.
Qed.

Lemma process_feedback_labels_every_match_witness :
  prediction_logs (process_feedback "X" 1 service_monitor two_pm two_records_X)
  = Some (map (fun d => json_dumps (JObj (with_feedback "X" 1 d)))
            [prediction_entry noon "X" [("amount", JInt 3)] (NInt 1)
               None None None;
             prediction_entry one_pm "X" [("amount", JInt 5)] (NInt 0)
               (Some {| dneg := false; dint := 0; dfrac := "25" |})
               None None]) /\
  load_logs (lines_of (process_feedback "X" 1 service_monitor two_pm
                         two_records_X))
  = Ok (map (fun d => JObj (with_feedback "X" 1 d))
          [prediction_entry noon "X" [("amount", JInt 3)] (NInt 1)
             None None None;
           prediction_entry one_pm "X" [("amount", JInt 5)] (NInt 0)
             (Some {| dneg := false; dint := 0; dfrac := "25" |})
             None None]) /\
  Forall (fun d =>
            if matches "X" d
            then dict_get (with_feedback "X" 1 d) "true_label" = Some (JInt 1)
            else with_feedback "X" 1 d = d)
    [prediction_entry noon "X" [("amount", JInt 3)] (NInt 1) None None None;
     prediction_entry one_pm "X" [("amount", JInt 5)] (NInt 0)
       (Some {| dneg := false; dint := 0; dfrac := "25" |}) None None].
Proof.
  apply (process_feedback_labels_every_match "X" 1 service_monitor two_pm
           two_records_X (lines_of two_records_X)); reflexivity.
Defined.

(** C1, as stated, fails: after feedback for ["X"] on a log of two records
    that share this identifier, the second record is labeled too. *)
Lemma feedback_first_match_only_counterexample :
  ~ (exists first second,
       load_logs (lines_of (process_feedback "X" 1 service_monitor two_pm
                              two_records_X))
       = Ok [first; second] /\
       py_get second "true_label" = Ok JNull).
Proof.
  intros (first & second & Hread & Hsecond).
  vm_compute in Hread. injection Hread as <- <-.
  vm_compute in Hsecond. discriminate Hsecond.
Qed.

Lemma feedback_lines_no_match (prediction_id : string) (label : Z)
    (lines : list string) (logs : list (json * bool)) :
  (forall line d, In line lines -> json_loads (strip line) = Ok (JObj d) ->
                  matches prediction_id d = false) ->
  mapM (feedback_line prediction_id label) lines = Ok logs ->
  existsb snd logs = false.
Proof.
  revert logs. induction lines as [|line lines IH]; simpl; intros logs Hno H.
  - now injection H as <-.
  - destruct (feedback_line prediction_id label line) as [[e b]|] eqn:E;
      [|discriminate].
    destruct (mapM (feedback_line prediction_id label) lines) as [rest|];
      [|discriminate].
    injection H as <-. simpl.
    assert (Hrest : existsb snd rest = false).
    { apply IH; [|reflexivity]. intros l d Hin. apply Hno. now right. }
    rewrite Hrest, orb_false_r.
    assert (Hv : exists d, json_loads (strip line) = Ok (JObj d)).
    { unfold feedback_line in E.
      destruct (json_loads (strip line)) as [v|]; [|discriminate].
      destruct v; try discriminate. eauto. }
    destruct Hv as [d Hd].
    rewrite (feedback_line_record _ _ _ _ Hd) in E.
    injection E as _ <-. apply (Hno line d); [now left | exact Hd].
Qed.

(** C3, as amended. Feedback for an identifier that matches no stored
    record never signals that the record was not found, and nothing is
    written: the state is left as it was.  With a monitor and a log file
    the caller is answered with success; without a log file the answer is
    the HTTP error 500, into which the handler turns its own 404, and
    without a monitor it is the HTTP error 503.  The stored records are
    the lines that [json.loads] reads as dictionaries
    ([stores_no_match]). *)
Theorem feedback_unknown_id_changes_nothing (monitor : option ModelMonitor)
    (now : datetime) (prediction_id : string) (label : Z) (st : state) :
  forallb (stores_no_match prediction_id) (lines_of st) = true ->
  prediction_feedback monitor now prediction_id label st
  = (match monitor, prediction_logs st with
     | None, _ => Raise (HTTPException 503)
     | Some _, None => Raise (HTTPException 500)
     | Some _, Some _ => Ok (Success "Feedback submitted successfully")
     end, st).
Proof.
  intros Hno. unfold prediction_feedback.
  destruct monitor as [m|]; [|reflexivity].
  destruct (prediction_logs st) as [lines|] eqn:Hlog; [|reflexivity].
  f_equal. unfold process_feedback. rewrite Hlog.
  unfold lines_of in Hno. rewrite Hlog in Hno.
  destruct (mapM (feedback_line prediction_id label) lines) as [logs|] eqn:E;
    [|reflexivity].
  assert (Hnone : forall line d, In line lines ->
                    json_loads (strip line) = Ok (JObj d) ->
                    matches prediction_id d = false).
  { intros line d Hin Hd. rewrite forallb_forall in Hno.
    specialize (Hno line Hin). unfold stores_no_match in Hno.
    rewrite Hd in Hno. now apply negb_true_iff in Hno. }
  now rewrite (feedback_lines_no_match _ _ _ _ Hnone E).
Qed.

Lemma feedback_unknown_id_changes_nothing_witness :
  prediction_feedback (Some service_monitor) two_pm "unknown" 1 two_records_X
  = (Ok (Success "Feedback submitted successfully"), two_records_X).
Proof.
  apply (feedback_unknown_id_changes_nothing (Some service_monitor) two_pm
           "unknown" 1 two_records_X).
  reflexivity.
Defined.

(** C3, as stated, fails: feedback for an identifier that no record
    carries is not answered with an error. *)
Lemma feedback_not_found_counterexample :
  ~ (exists e,
       fst (prediction_feedback (startup_event MONITORING_CONFIG) two_pm
              "unknown" 1 two_records_X) = Raise e).
Proof. intros [e H]. vm_compute in H. discriminate H. Qed.

(** ** Malformed lines *)

Lemma load_logs_malformed (lines : list string) :
  (exists line, In line lines /\ loads line = None) ->
  exists e, load_logs lines = Raise e.
Proof.
  intros (line & Hin & Hbad). unfold load_logs.
  induction lines as [|l lines IH]; [contradiction|].
  simpl. unfold json_loads at 1.
  destruct (loads l) eqn:E.
  - destruct Hin as [->|Hin]; [congruence|].
    destruct (IH Hin) as [e ->]. now exists e.
  - destruct (wide_escape l); eexists; reflexivity.
Qed.

(** The scans of [calculate_performance_metrics] and of
    [get_recent_predictions] stop at a line that is not JSON. *)
Lemma bulk_reads_fail_on_malformed_line (m : ModelMonitor) (now : datetime)
    (start_time end_time : option datetime) (cutoff : datetime) (limit : nat)
    (st : state) (lines : list string) :
  enable_monitoring m = true ->
  prediction_logs st = Some lines ->
  (exists line, In line lines /\ loads line = None) ->
  exists e,
    calculate_performance_metrics m now start_time end_time st
    = (Raise e, st) /\
    get_recent_predictions cutoff limit st = Raise e.
Proof.
  intros Hen Hlog Hbad. apply load_logs_malformed in Hbad.
  destruct Hbad as [e Hbad]. exists e.
  unfold calculate_performance_metrics, get_recent_predictions,
    compute_metrics, labeled_pairs.
  now rewrite Hen, Hlog, Hbad.
Qed.

(** The scan of [extract_predictions_for_monitoring] keeps the lines that
    are JSON. *)
Lemma filter_ok_json_loads (lines : list string) :
  filter_ok json_loads lines
  = present (map loads lines).
Proof.
  induction lines as [|l lines IH]; simpl; [reflexivity|].
  unfold json_loads at 1.
  destruct (loads l); [|destruct (wide_escape l)]; simpl; now rewrite IH.
Qed.

(** C4 fails on the code. On a log whose first line is not JSON and whose
    second line is a labeled record, [calculate_performance_metrics] and
    [get_recent_predictions] raise [JSONDecodeError] instead of skipping
    the line, while [extract_predictions_for_monitoring] skips it and
    returns the record. *)
Theorem malformed_line_aborts_bulk_reads :
  calculate_performance_metrics service_monitor two_pm None None
    log_with_malformed_line
  = (Raise JSONDecodeError, log_with_malformed_line) /\
  get_recent_predictions noon 1000 log_with_malformed_line
  = Raise JSONDecodeError /\
  extract_predictions_for_monitoring None None log_with_malformed_line
  = Ok ([[("prediction_id", JStr "A");
          ("timestamp", JStr "2024-01-01T13:00:00");
          ("prediction", JInt 1);
          ("probability", JNull);
          ("true_label", JInt 1)]],
        [[("prediction_id", JStr "A"); ("amount", JInt 5)]]).
Proof. repeat split; vm_compute; reflexivity. Qed.

(** ** The time window of the metrics *)

Lemma dt_ltb_leb (a b : datetime) : dt_ltb a b = negb (dt_leb b a).
Proof. unfold dt_ltb, dt_leb. apply Z.ltb_antisym. Qed.

Lemma in_time_range_closed (start_time end_time : option datetime)
    (log : json) (t : datetime) :
  timestamp_of log = Ok t ->
  in_time_range start_time end_time log
  = Ok (closed_window start_time end_time t).
Proof.
  unfold timestamp_of, in_time_range, closed_window.
  destruct (py_getitem log "timestamp") as [ts|]; [|discriminate].
  simpl. intros ->. simpl.
  destruct start_time as [s|], end_time as [e|];
    rewrite ?dt_ltb_leb;
    repeat match goal with
           | |- context [dt_leb ?a ?b] => destruct (dt_leb a b)
           end; reflexivity.
Qed.

Lemma timed_record_timestamp (log : json) :
  timed_record log = true -> exists t, timestamp_of log = Ok t.
Proof.
  unfold timed_record. intros H. apply andb_prop in H as [_ H].
  destruct (timestamp_of log) as [t|]; [eauto | discriminate].
Qed.

Lemma in_time_range_timed (start_time end_time : option datetime) (log : json) :
  timed_record log = true ->
  in_time_range start_time end_time log
  = Ok (in_closed_window start_time end_time log).
Proof.
  intros H. destruct (timed_record_timestamp log H) as [t Ht].
  unfold in_closed_window. rewrite Ht. now apply in_time_range_closed.
Qed.

Lemma filterM_total {A : Type} (f : A -> result bool) (g : A -> bool)
    (l : list A) :
  (forall x, In x l -> f x = Ok (g x)) ->
  filterM f l = Ok (filter g l).
Proof.
  induction l as [|x l IH]; simpl; intros H; [reflexivity|].
  rewrite (H x) by now left. simpl.
  rewrite IH by (intros; apply H; now right). reflexivity.
Qed.

Lemma filter_by_time_closed (start_time end_time : option datetime)
    (logs : list json) :
  forallb timed_record logs = true ->
  filter_by_time start_time end_time logs
  = Ok (filter (in_closed_window start_time end_time) logs).
Proof.
  intros H. rewrite forallb_forall in H.
  assert (Hf : filterM (in_time_range start_time end_time) logs
               = Ok (filter (in_closed_window start_time end_time) logs)).
  { apply filterM_total. intros log Hin. apply in_time_range_timed. auto. }
  unfold filter_by_time. destruct start_time, end_time; try exact Hf.
  f_equal. clear Hf. induction logs as [|log logs IH]; [reflexivity|].
  simpl. unfold in_closed_window at 1.
  destruct (timed_record_timestamp log) as [t ->]; [apply H; now left|].
  simpl. f_equal. apply IH. intros x Hx. apply H. now right.
Qed.

Lemma dt_leb_refl (t : datetime) : dt_leb t t = true.
Proof. unfold dt_leb. apply Z.leb_refl. Qed.

(** C5, as amended. With the window [start_time], [end_time] (each of
    them optional), [calculate_performance_metrics] computes the metrics
    from exactly the records of the log whose timestamp [t] satisfies
    [start_time <= t <= end_time]: the window is closed at both ends, so a
    record stamped [end_time] is used, like one stamped [start_time]. *)
Theorem metrics_window_is_closed (m : ModelMonitor) (now : datetime)
    (start_time end_time : option datetime) (st : state)
    (lines : list string) (logs : list json) :
  enable_monitoring m = true ->
  prediction_logs st = Some lines ->
  load_logs lines = Ok logs ->
  forallb timed_record logs = true ->
  calculate_performance_metrics m now start_time end_time st
  = save_metrics m now st
      (metrics_over (filter (in_closed_window start_time end_time) logs)) /\
  (forall s e log,
     start_time = Some s -> end_time = Some e -> dt_leb s e = true ->
     (timestamp_of log = Ok e ->
      in_closed_window start_time end_time log = true) /\
     (timestamp_of log = Ok s ->
      in_closed_window start_time end_time log = true)).
Proof.
  intros Hen Hlog Hload Htimed. split.
  - unfold calculate_performance_metrics. rewrite Hen, Hlog. simpl negb.
    cbv iota. f_equal.
    unfold compute_metrics, labeled_pairs, metrics_over.
    rewrite Hload. simpl bind.
    now rewrite filter_by_time_closed.
  - intros s e log -> -> Hse. unfold in_closed_window, closed_window.
    split; intros ->; now rewrite ?dt_leb_refl, Hse.
Qed.

Lemma metrics_window_is_closed_witness :
  calculate_performance_metrics service_monitor two_pm (Some noon)
    (Some one_pm) labeled_at_one_pm
  = save_metrics service_monitor two_pm labeled_at_one_pm
      (metrics_over
         (filter (in_closed_window (Some noon) (Some one_pm))
            [JObj (prediction_entry one_pm "A" [("amount", JInt 5)] (NInt 1)
                     None (Some (NInt 1)) None)])) /\
  (forall s e log,
     Some noon = Some s -> Some one_pm = Some e -> dt_leb s e = true ->
     (timestamp_of log = Ok e ->
      in_closed_window (Some noon) (Some one_pm) log = true) /\
     (timestamp_of log = Ok s ->
      in_closed_window (Some noon) (Some one_pm) log = true)).
Proof.
  apply (metrics_window_is_closed service_monitor two_pm (Some noon)
           (Some one_pm) labeled_at_one_pm (lines_of labeled_at_one_pm));
    reflexivity.
Defined.

(** C5, as stated, fails: with the window from noon to one o'clock, the
    labeled record stamped one o'clock, the end of the window, is outside
    the half-open window and yet it is the record the metrics are computed
    from. *)
Lemma half_open_window_counterexample :
  exists record,
    load_logs (lines_of labeled_at_one_pm) = Ok [record] /\
    timestamp_of record = Ok one_pm /\
    half_open_window noon one_pm one_pm = false /\
    in_time_range (Some noon) (Some one_pm) record = Ok true /\
    exists ms,
      fst (calculate_performance_metrics service_monitor two_pm (Some noon)
             (Some one_pm) labeled_at_one_pm) = Ok ms /\
      dict_get ms "count" = Some (MInt 1).
Proof.
  eexists. split; [vm_compute; reflexivity|].
  repeat split; try (vm_compute; reflexivity).
  eexists. split; vm_compute; reflexivity.
Qed.

(** ** No labeled record *)

Lemma extract_labeled_none (logs : list json) :
  (forall log, In log logs ->
     exists d, log = JObj d /\ has_true_label d = false) ->
  extract_labeled logs = Ok [].
Proof.
  induction logs as [|log logs IH]; intros H; [reflexivity|].
  destruct (H log) as (d & -> & Hd); [now left|].
  cbn [extract_labeled].
  assert (Hl : is_labeled (JObj d) = Ok false).
  { unfold is_labeled, has_true_label in *. simpl.
    destruct (dict_mem d "prediction"); simpl; [|reflexivity].
    unfold dict_mem. destruct (dict_get d "true_label") as [v|]; simpl;
      [now rewrite Hd | reflexivity]. }
  rewrite Hl. simpl. apply IH. intros x Hx. apply H. now right.
Qed.

(** C8, as amended. When every line of the log is read by [json.loads],
    the time filter reads the timestamp of every record, what is left in
    the requested range are dictionaries, and none of them carries a true
    label that is not [None], [calculate_performance_metrics] returns the
    empty dictionary without raising, and the state is as before: no
    Metrics Snapshot is appended to the history. *)
Theorem no_labeled_record_gives_empty_result (m : ModelMonitor)
    (now : datetime) (start_time end_time : option datetime) (st : state)
    (logs in_range : list json) :
  load_logs (lines_of st) = Ok logs ->
  filter_by_time start_time end_time logs = Ok in_range ->
  (forall log, In log in_range ->
     exists d, log = JObj d /\ has_true_label d = false) ->
  calculate_performance_metrics m now start_time end_time st = (Ok [], st).
Proof.
  intros Hload Hrange Hnone. unfold calculate_performance_metrics.
  destruct (negb (enable_monitoring m)); [reflexivity|].
  unfold lines_of in Hload.
  destruct (prediction_logs st) as [lines|]; [|reflexivity].
  unfold compute_metrics, labeled_pairs.
  rewrite Hload. simpl bind. rewrite Hrange. simpl bind.
  now rewrite (extract_labeled_none _ Hnone).
Qed.

Lemma no_labeled_record_gives_empty_result_witness :
  calculate_performance_metrics service_monitor two_pm (Some noon)
    (Some one_pm) two_records_X
  = (Ok [], two_records_X).
Proof.
  apply (no_labeled_record_gives_empty_result service_monitor two_pm
           (Some noon) (Some one_pm) two_records_X
           [JObj (prediction_entry noon "X" [("amount", JInt 3)] (NInt 1)
                    None None None);
            JObj (prediction_entry one_pm "X" [("amount", JInt 5)] (NInt 0)
                    (Some {| dneg := false; dint := 0; dfrac := "25" |})
                    None None)]
           [JObj (prediction_entry noon "X" [("amount", JInt 3)] (NInt 1)
                    None None None);
            JObj (prediction_entry one_pm "X" [("amount", JInt 5)] (NInt 0)
                    (Some {| dneg := false; dint := 0; dfrac := "25" |})
                    None None)]).
  - reflexivity.
  - reflexivity.
  - intros log [<-|[<-|[]]]; eexists; split; reflexivity.
Defined.

(** C8, as stated, fails: on a log of two records without a label and the
    line [5], no record carries a true label, and
    [calculate_performance_metrics] raises [TypeError] at
    ["prediction" in log]. *)
Lemma no_labeled_record_counterexample :
  (forall line d,
     In line (lines_of log_with_number_line) ->
     json_loads line = Ok (JObj d) -> has_true_label d = false) /\
  calculate_performance_metrics service_monitor two_pm None None
    log_with_number_line
  = (Raise TypeError, log_with_number_line).
Proof.
  split; [|reflexivity].
  intros line d [<-|[<-|[<-|[]]]] H; vm_compute in H;
    try discriminate H; injection H as <-; reflexivity.
Qed.

(** ** The metrics of binary labels *)

Lemma targets_binary (l : list json) :
  forallb binary_label l = true ->
  targets l = Ok (labels_of l) /\
  Forall (fun z => z = 0%Z \/ z = 1%Z) (labels_of l).
Proof.
  unfold targets, labels_of. induction l as [|v l IH]; simpl; intros H.
  - split; [reflexivity | constructor].
  - apply andb_prop in H as [Hv Hl]. destruct (IH Hl) as [IH1 IH2].
    unfold binary_label in Hv.
    destruct (label_value v) as [z|]; [|discriminate].
    rewrite IH1. split; [reflexivity|]. constructor; [|exact IH2].
    apply orb_prop in Hv as [Hz|Hz]; apply Z.eqb_eq in Hz; auto.
Qed.

Lemma binary_label_modelled (v : json) :
  binary_label v = true -> modelled_target v = true.
Proof.
  unfold binary_label, modelled_target, label_value, in_int64.
  destruct v as [|b|z|d|k|s|l|l]; try discriminate; try reflexivity.
  - intros H. apply orb_prop in H as [H|H]; apply Z.eqb_eq in H; subst z;
      reflexivity.
  - destruct (String.eqb (dfrac d) "0"); [|discriminate].
    intros H. apply Z.ltb_lt.
    assert (H63 : (2 < 2 ^ 63)%Z) by reflexivity.
    apply orb_prop in H as [H|H]; apply Z.eqb_eq in H;
      destruct (dneg d); lia.
Qed.

Lemma check_targets_binary (y_true y_pred : list json) :
  forallb binary_label y_true = true ->
  forallb binary_label y_pred = true ->
  check_targets y_true y_pred = Ok (labels_of y_true, labels_of y_pred).
Proof.
  intros Ht Hp. unfold check_targets.
  assert (Hm : forallb modelled_target (y_true ++ y_pred)%list = true).
  { rewrite forallb_app. apply andb_true_intro.
    split; apply forallb_forall; intros v Hv; apply binary_label_modelled;
      [rewrite forallb_forall in Ht; now apply Ht
      |rewrite forallb_forall in Hp; now apply Hp]. }
  rewrite Hm. cbn [negb].
  destruct (targets_binary _ Ht) as [-> _].
  now destruct (targets_binary _ Hp) as [-> _].
Qed.

Lemma binary_targets_ok (y_true y_pred : list Z) :
  Forall (fun z => z = 0%Z \/ z = 1%Z) y_true ->
  Forall (fun z => z = 0%Z \/ z = 1%Z) y_pred ->
  binary_targets y_true y_pred = Ok tt.
Proof.
  intros Ht Hp. unfold binary_targets.
  set (classes := nodup Z.eq_dec (y_true ++ y_pred)%list).
  assert (Hnd : NoDup classes) by apply NoDup_nodup.
  assert (Hin : forall z, In z classes -> z = 0%Z \/ z = 1%Z).
  { intros z Hz. apply nodup_In in Hz. apply in_app_or in Hz.
    rewrite Forall_forall in Ht, Hp. destruct Hz; auto. }
  assert (Hlen : List.length classes <= 2).
  { apply (NoDup_incl_length (l' := [0%Z; 1%Z]) Hnd).
    intros z Hz. destruct (Hin z Hz) as [->| ->]; simpl; auto. }
  destruct (2 <? List.length classes)%nat eqn:E1;
    [apply Nat.ltb_lt in E1; lia|].
  destruct (existsb is_pos classes) eqn:E2; [reflexivity|].
  assert (Hlen1 : List.length classes <= 1).
  { apply (NoDup_incl_length (l' := [0%Z]) Hnd).
    intros z Hz. destruct (Hin z Hz) as [->| ->]; [now left|].
    exfalso. assert (H : existsb is_pos classes = true)
      by (apply existsb_exists; exists 1%Z; split; [exact Hz | reflexivity]).
    congruence. }
  assert (E3 : (2 <=? List.length classes)%nat = false)
    by (apply Nat.leb_gt; lia).
  now rewrite E3.
Qed.

(** The metrics of a non-empty list of binary pairs are computed without
    an exception. *)
Lemma metrics_of_binary (pairs : list (json * json)) :
  pairs <> [] ->
  forallb binary_pair pairs = true ->
  let yt := labels_of (map snd pairs) in
  let yp := labels_of (map fst pairs) in
  metrics_of pairs
  = Ok (Some [("count", MInt (Z.of_nat (List.length pairs)));
              ("accuracy",
               MFloat (ratio (count_pairs Z.eqb yt yp) (List.length yt)));
              ("precision",
               MFloat (ratio (tp_count yt yp) (tp_count yt yp + fp_count yt yp)));
              ("recall",
               MFloat (ratio (tp_count yt yp) (tp_count yt yp + fn_count yt yp)));
              ("f1",
               MFloat (ratio (2 * tp_count yt yp)
                         (2 * tp_count yt yp + fp_count yt yp + fn_count yt yp)))]).
Proof.
  intros Hne Hbin yt yp.
  assert (Hp : forallb binary_label (map fst pairs) = true).
  { rewrite forallb_forall in Hbin. apply forallb_forall.
    intros v Hv. apply in_map_iff in Hv as (p & <- & Hin).
    specialize (Hbin p Hin). unfold binary_pair in Hbin.
    now apply andb_prop in Hbin as [? _]. }
  assert (Ht : forallb binary_label (map snd pairs) = true).
  { rewrite forallb_forall in Hbin. apply forallb_forall.
    intros v Hv. apply in_map_iff in Hv as (p & <- & Hin).
    specialize (Hbin p Hin). unfold binary_pair in Hbin.
    now apply andb_prop in Hbin as [_ ?]. }
  destruct (targets_binary _ Hp) as [Hyp Hpb].
  destruct (targets_binary _ Ht) as [Hyt Htb].
  unfold metrics_of.
  destruct pairs as [|p pairs]; [congruence|].
  change (map snd (p :: pairs)) with (snd p :: map snd pairs) at 1.
  cbv iota.
  unfold accuracy_score, precision_score, recall_score, f1_score.
  rewrite (check_targets_binary _ _ Ht Hp). cbn [bind].
  rewrite (binary_targets_ok _ _ Htb Hpb). cbn [bind].
  rewrite length_map. reflexivity.
Qed.

Lemma check_metric_alerts_ok (thresholds : list (string * Q)) (ms : metrics) :
  (forall k q s, In (k, q) thresholds -> dict_get ms k <> Some (MStr s)) ->
  exists alerts, _check_metric_alerts thresholds ms = Ok alerts.
Proof.
  induction thresholds as [|[k q] thresholds IH]; intros H; simpl.
  - eauto.
  - destruct IH as [alerts Ha]; [intros; eapply H; right; eassumption|].
    rewrite Ha.
    destruct (dict_get ms k) as [[n|x|s]|] eqn:E; simpl; eauto.
    exfalso. apply (H k q s); [now left | exact E].
Qed.

Lemma count_pairs_all_zero (f : Z -> Z -> bool) (yt yp : list Z) :
  Forall (fun z => z = 0%Z) yp -> List.length yt = List.length yp ->
  count_pairs f yt yp = List.length (filter (fun t => f t 0%Z) yt).
Proof.
  unfold count_pairs. revert yp.
  induction yt as [|t yt IH]; intros [|p yp] Hp Hlen; try discriminate;
    [reflexivity|].
  inversion Hp as [|? ? -> Hp']; subst. simpl.
  injection Hlen as Hlen. destruct (f t 0%Z); simpl; now rewrite IH.
Qed.

Lemma length_filter_count_occ (l : list Z) (z : Z) :
  List.length (filter (fun t => Z.eqb t z) l) = count_occ Z.eq_dec l z.
Proof.
  induction l as [|x l IH]; simpl; [reflexivity|].
  destruct (Z.eq_dec x z) as [Heq|Hneq], (Z.eqb_spec x z) as [Heq'|Hne];
    simpl; try congruence; now rewrite IH.
Qed.

Lemma length_binary (l : list Z) :
  Forall (fun z => z = 0%Z \/ z = 1%Z) l ->
  List.length l = count_occ Z.eq_dec l 0%Z + count_occ Z.eq_dec l 1%Z.
Proof.
  induction 1 as [|x l [->| ->] Hl IH]; simpl; lia.
Qed.

Lemma filter_false {A : Type} (f : A -> bool) (l : list A) :
  (forall x, f x = false) -> filter f l = [].
Proof.
  intros H. induction l as [|x l IH]; simpl; [reflexivity|]. now rewrite H.
Qed.

Lemma snapshot_with_timestamp (n : Z) (a p r f : Q) (ts : string) :
  dict_set [("count", MInt n); ("accuracy", MFloat a); ("precision", MFloat p);
            ("recall", MFloat r); ("f1", MFloat f)] "timestamp" (MStr ts)
  = [("count", MInt n); ("accuracy", MFloat a); ("precision", MFloat p);
     ("recall", MFloat r); ("f1", MFloat f); ("timestamp", MStr ts)].
Proof. reflexivity. Qed.

Lemma snapshot_alerts_ok (m : ModelMonitor) (n : Z) (a p r f : Q) (ts : string) :
  thresholds_on_numbers m = true ->
  exists alerts,
    _check_metric_alerts (alert_threshold m)
      [("count", MInt n); ("accuracy", MFloat a); ("precision", MFloat p);
       ("recall", MFloat r); ("f1", MFloat f); ("timestamp", MStr ts)]
    = Ok alerts.
Proof.
  intros H. apply check_metric_alerts_ok. intros k q s Hin Hget.
  unfold thresholds_on_numbers in H. rewrite forallb_forall in H.
  specialize (H (k, q) Hin). simpl in H.
  cbn [dict_get] in Hget.
  repeat match type of Hget with
         | context [String.eqb ?x k] =>
             destruct (String.eqb_spec x k); [subst k|]
         end; try discriminate.
Qed.

Lemma labels_all_zero (l : list json) :
  Forall (fun v => label_value v = Some 0%Z) l ->
  Forall (fun z => z = 0%Z) (labels_of l).
Proof.
  unfold labels_of. induction 1 as [|v l Hv Hl IH]; simpl; constructor;
    [now rewrite Hv | exact IH].
Qed.

(** C2, as amended. For every non-empty set of labeled records in range
    with binary labels, the Metrics Snapshot that
    [calculate_performance_metrics] returns holds [count], [accuracy],
    [precision], [recall], [f1] and [timestamp] and nothing else: it has
    no confusion-matrix counts [tp], [tn], [fp], [fn].  For one hundred
    labeled records, eighty with true label 0 and twenty with true label
    1, all predicted 0, it holds [count = 100], [accuracy = 4/5] and
    [precision = recall = f1 = 0]. *)
Theorem metrics_snapshot_fields (m : ModelMonitor) (now : datetime)
    (start_time end_time : option datetime) (st : state)
    (lines : list string) (pairs : list (json * json)) :
  enable_monitoring m = true ->
  thresholds_on_numbers m = true ->
  prediction_logs st = Some lines ->
  labeled_pairs lines start_time end_time = Ok pairs ->
  pairs <> [] ->
  forallb binary_pair pairs = true ->
  exists accuracy precision recall f1,
    fst (calculate_performance_metrics m now start_time end_time st)
    = Ok [("count", MInt (Z.of_nat (List.length pairs)));
          ("accuracy", MFloat accuracy);
          ("precision", MFloat precision);
          ("recall", MFloat recall);
          ("f1", MFloat f1);
          ("timestamp", MStr (isoformat now))] /\
    (never_predicts_fraud_80_20 pairs ->
     List.length pairs = 100 /\
     accuracy = (4 # 5)%Q /\ precision = 0%Q /\ recall = 0%Q /\ f1 = 0%Q).
Proof.
  intros Hen Hth Hlog Hpairs Hne Hbin.
  do 4 eexists. split.
  - unfold calculate_performance_metrics, compute_metrics.
    rewrite Hen, Hlog, Hpairs. cbn [negb bind].
    rewrite (metrics_of_binary pairs Hne Hbin).
    unfold save_metrics. rewrite snapshot_with_timestamp.
    match goal with
    | |- context [_check_metric_alerts _
                    [("count", MInt ?n); ("accuracy", MFloat ?a);
                     ("precision", MFloat ?p); ("recall", MFloat ?r);
                     ("f1", MFloat ?f); ("timestamp", MStr ?ts)]] =>
        destruct (snapshot_alerts_ok m n a p r f ts Hth) as [alerts ->]
    end.
    reflexivity.
  - intros (Hzero & H0 & H1).
    set (yt := labels_of (map snd pairs)) in *.
    set (yp := labels_of (map fst pairs)).
    assert (Hyp : Forall (fun z => z = 0%Z) yp).
    { apply labels_all_zero. apply Forall_forall. intros v Hv.
      apply in_map_iff in Hv as (p & <- & Hin).
      rewrite Forall_forall in Hzero. auto. }
    assert (Hlen : List.length yt = List.length yp)
      by (unfold yt, yp, labels_of; now rewrite !length_map).
    assert (Hyt : Forall (fun z => z = 0%Z \/ z = 1%Z) yt).
    { apply targets_binary. rewrite forallb_forall in Hbin.
      apply forallb_forall. intros v Hv.
      apply in_map_iff in Hv as (p & <- & Hin).
      specialize (Hbin p Hin). unfold binary_pair in Hbin.
      now apply andb_prop in Hbin as [_ ?]. }
    assert (Hn : List.length yt = 100)
      by (rewrite (length_binary yt Hyt), H0, H1; reflexivity).
    assert (Hacc : count_pairs Z.eqb yt yp = 80).
    { rewrite (count_pairs_all_zero _ _ _ Hyp Hlen).
      now rewrite length_filter_count_occ. }
    assert (Htp : tp_count yt yp = 0).
    { unfold tp_count. rewrite (count_pairs_all_zero _ _ _ Hyp Hlen).
      rewrite filter_false; [reflexivity|].
      intros x. apply andb_false_r. }
    assert (Hfp : fp_count yt yp = 0).
    { unfold fp_count. rewrite (count_pairs_all_zero _ _ _ Hyp Hlen).
      rewrite filter_false; [reflexivity|].
      intros x. apply andb_false_r. }
    assert (Hfn : fn_count yt yp = 20).
    { unfold fn_count. rewrite (count_pairs_all_zero _ _ _ Hyp Hlen).
      rewrite <- H1, <- length_filter_count_occ. f_equal.
      apply filter_ext. intros x. unfold is_pos. simpl. apply andb_true_r. }
    rewrite Hacc, Htp, Hfp, Hfn, Hn.
    split; [|repeat split; reflexivity].
    unfold yt, labels_of in Hn. now rewrite !length_map in Hn.
Qed.

Lemma metrics_snapshot_fields_witness :
  exists accuracy precision recall f1,
    fst (calculate_performance_metrics service_monitor two_pm None None
           eighty_twenty)
    = Ok [("count", MInt (Z.of_nat (List.length eighty_twenty_pairs)));
          ("accuracy", MFloat accuracy);
          ("precision", MFloat precision);
          ("recall", MFloat recall);
          ("f1", MFloat f1);
          ("timestamp", MStr (isoformat two_pm))] /\
    (never_predicts_fraud_80_20 eighty_twenty_pairs ->
     List.length eighty_twenty_pairs = 100 /\
     accuracy = (4 # 5)%Q /\ precision = 0%Q /\ recall = 0%Q /\ f1 = 0%Q).
Proof.
  apply (metrics_snapshot_fields service_monitor two_pm None None
           eighty_twenty (lines_of eighty_twenty) eighty_twenty_pairs).
  - reflexivity.
  - reflexivity.
  - reflexivity.
  - vm_compute. reflexivity.
  - discriminate.
  - vm_compute. reflexivity.
Defined.

(** C2, as stated, fails: the snapshot computed from eighty records with
    true label 0 and twenty with true label 1, all predicted 0, has no
    entry [tp]. *)
Lemma snapshot_confusion_counts_counterexample :
  ~ (exists ms tp,
       fst (calculate_performance_metrics service_monitor two_pm None None
              eighty_twenty) = Ok ms /\
       dict_get ms "tp" = Some tp).
Proof.
  intros (ms & tp & H & Htp). vm_compute in H. injection H as <-.
  vm_compute in Htp. discriminate Htp.
Qed.

Lemma eighty_twenty_scenario : never_predicts_fraud_80_20 eighty_twenty_pairs.
Proof.
  repeat split; try (vm_compute; reflexivity).
  apply Forall_forall. intros p Hin. unfold eighty_twenty_pairs in Hin.
  apply in_map_iff in Hin as (i & <- & _). reflexivity.
Qed.

(** ** Feedback and the metrics history *)

Lemma load_rewritten_log (prediction_id : string) (label : Z)
    (lines : list string) (entries : list (list (string * json))) :
  mapM (fun line => json_loads (strip line)) lines = Ok (map JObj entries) ->
  load_logs (map (fun d => json_dumps (JObj (with_feedback prediction_id label d)))
               entries)
  = Ok (map JObj (map (with_feedback prediction_id label) entries)).
Proof.
  intros Hparse. unfold load_logs.
  apply mapM_Ok_intro. rewrite map_map. apply Forall2_map_r.
  apply mapM_Ok_inv in Hparse. apply Forall2_map_r in Hparse.
  induction Hparse as [|line d lines entries Hd Hl IH];
    cbn [map]; constructor; auto.
  apply json_loads_dumps, wf_with_feedback.
  now apply json_loads_wf in Hd.
Qed.

Lemma extract_labeled_records (ds : list (list (string * json))) :
  extract_labeled (map JObj ds) = Ok (flat_map record_pair ds).
Proof.
  induction ds as [|d ds IH]; [reflexivity|].
  cbn [map extract_labeled flat_map]. unfold is_labeled, record_pair.
  cbn [py_contains py_getitem bind]. unfold dict_mem.
  destruct (dict_get d "prediction") as [p|]; cbn [negb bind]; [|exact IH].
  destruct (dict_get d "true_label") as [t|]; cbn [negb bind]; [|exact IH].
  destruct (is_none t); cbn [negb bind]; [exact IH|].
  now rewrite IH.
Qed.

Lemma binary_label_int (label : Z) :
  label = 0%Z \/ label = 1%Z -> binary_label (JInt label) = true.
Proof. intros [->| ->]; reflexivity. Qed.

Lemma record_pair_with_feedback (prediction_id : string) (label : Z)
    (d : list (string * json)) :
  label = 0%Z \/ label = 1%Z ->
  binary_record d = true ->
  forallb binary_pair (record_pair (with_feedback prediction_id label d)) = true /\
  (matches prediction_id d = true ->
   record_pair (with_feedback prediction_id label d) <> []).
Proof.
  intros Hlabel Hd. unfold binary_record in Hd.
  apply andb_prop in Hd as [Hp Ht].
  unfold with_feedback. destruct (matches prediction_id d).
  - unfold record_pair.
    rewrite dict_get_set_other by discriminate.
    rewrite dict_get_set_same.
    destruct (dict_get d "prediction") as [p|]; [|discriminate].
    simpl. unfold binary_pair. simpl.
    rewrite Hp, (binary_label_int _ Hlabel). split; [reflexivity | discriminate].
  - split; [|discriminate]. unfold record_pair.
    destruct (dict_get d "prediction") as [p|]; [|reflexivity].
    destruct (dict_get d "true_label") as [t|]; [|reflexivity].
    destruct (is_none t); [reflexivity|].
    simpl in *. unfold binary_pair. simpl. now rewrite Hp, Ht.
Qed.

Lemma forallb_flat_map {A B : Type} (f : A -> list B) (g : B -> bool)
    (l : list A) :
  forallb g (flat_map f l) = forallb (fun x => forallb g (f x)) l.
Proof.
  induction l as [|x l IH]; simpl; [reflexivity|].
  now rewrite forallb_app, IH.
Qed.

Lemma forallb_map_comp {A B : Type} (f : A -> B) (g : B -> bool) (l : list A) :
  forallb g (map f l) = forallb (fun x => g (f x)) l.
Proof. induction l as [|x l IH]; simpl; [reflexivity | now rewrite IH]. Qed.

Lemma startup_monitor (cfg : Config) (m : ModelMonitor) :
  startup_event cfg = Some m ->
  enable_monitoring m = true /\ config m = cfg.
Proof.
  unfold startup_event.
  destruct (get_flag (cfg_enable_monitoring cfg)) eqn:E; [|discriminate].
  intros [= <-]. split; [exact E | reflexivity].
Qed.

(** C10, as amended. When performance tracking is enabled and the records
    of the log are Prediction Records of the binary classification, every
    feedback submission with a label 0 or 1 for which a matching record
    exists makes the service compute the metrics over the whole rewritten
    log and append the resulting Metrics Snapshot to the metrics history:
    feedback writes the prediction log and the metrics history. *)
Theorem feedback_appends_metrics_snapshot (cfg : Config) (m : ModelMonitor)
    (now : datetime) (prediction_id : string) (label : Z) (st : state)
    (lines : list string) (entries : list (list (string * json))) :
  startup_event cfg = Some m ->
  get_flag (cfg_performance_tracking cfg) = true ->
  prediction_logs st = Some lines ->
  mapM (fun line => json_loads (strip line)) lines = Ok (map JObj entries) ->
  existsb (matches prediction_id) entries = true ->
  label = 0%Z \/ label = 1%Z ->
  forallb binary_record entries = true ->
  exists snapshot,
    compute_metrics
      (lines_of (snd (prediction_feedback (Some m) now prediction_id label st)))
      None None = Ok (Some snapshot) /\
    performance_metrics
      (snd (prediction_feedback (Some m) now prediction_id label st))
    = Some (HList (existing_entries (performance_metrics st) ++
                   [dict_set snapshot "timestamp" (MStr (isoformat now))])%list) /\
    written (snd (prediction_feedback (Some m) now prediction_id label st))
    = (written st ++ [prediction_logs_jsonl; performance_metrics_json])%list.
Proof.
  intros Hstart Htrack Hlog Hparse Hmatch Hlabel Hbin.
  destruct (startup_monitor cfg m Hstart) as [Hen Hcfg].
  set (pairs := flat_map record_pair
                  (map (with_feedback prediction_id label) entries)).
  assert (Hpairs_bin : forallb binary_pair pairs = true).
  { unfold pairs. rewrite forallb_flat_map, forallb_map_comp.
    rewrite forallb_forall in Hbin. apply forallb_forall. intros d Hd.
    now apply record_pair_with_feedback; auto. }
  assert (Hpairs_ne : pairs <> []).
  { unfold pairs. apply existsb_exists in Hmatch as (d & Hin & Hd).
    rewrite forallb_forall in Hbin.
    destruct (record_pair_with_feedback prediction_id label d Hlabel
                (Hbin d Hin)) as [_ Hne].
    specialize (Hne Hd). apply in_split in Hin as (l1 & l2 & ->).
    rewrite map_app, flat_map_app. cbn [map flat_map].
    destruct (record_pair (with_feedback prediction_id label d));
      [congruence|].
    intros H. apply app_eq_nil in H as [_ H]. discriminate H. }
  pose proof (metrics_of_binary pairs Hpairs_ne Hpairs_bin) as Hms.
  cbv zeta in Hms.
  match type of Hms with _ = Ok (Some ?ms) => exists ms end.
  unfold prediction_feedback. rewrite Hlog. cbn [snd].
  unfold process_feedback. rewrite Hlog.
  rewrite (mapM_feedback_lines _ _ _ _ Hparse).
  rewrite existsb_snd_map, Hmatch. cbn [negb]. cbv iota.
  rewrite map_map. cbn [fst]. rewrite Hcfg, Htrack.
  unfold calculate_performance_metrics. rewrite Hen. cbn [negb]. cbv iota.
  cbn [prediction_logs set_prediction_logs].
  assert (Hcompute :
    compute_metrics
      (map (fun d => json_dumps (JObj (with_feedback prediction_id label d)))
         entries) None None
    = Ok (Some [("count", MInt (Z.of_nat (List.length pairs)));
                ("accuracy",
                 MFloat (ratio (count_pairs Z.eqb (labels_of (map snd pairs))
                                  (labels_of (map fst pairs)))
                           (List.length (labels_of (map snd pairs)))));
                ("precision",
                 MFloat (ratio (tp_count (labels_of (map snd pairs))
                                  (labels_of (map fst pairs)))
                           (tp_count (labels_of (map snd pairs))
                              (labels_of (map fst pairs)) +
                            fp_count (labels_of (map snd pairs))
                              (labels_of (map fst pairs)))));
                ("recall",
                 MFloat (ratio (tp_count (labels_of (map snd pairs))
                                  (labels_of (map fst pairs)))
                           (tp_count (labels_of (map snd pairs))
                              (labels_of (map fst pairs)) +
                            fn_count (labels_of (map snd pairs))
                              (labels_of (map fst pairs)))));
                ("f1",
                 MFloat (ratio (2 * tp_count (labels_of (map snd pairs))
                                      (labels_of (map fst pairs)))
                           (2 * tp_count (labels_of (map snd pairs))
                                  (labels_of (map fst pairs)) +
                            fp_count (labels_of (map snd pairs))
                              (labels_of (map fst pairs)) +
                            fn_count (labels_of (map snd pairs))
                              (labels_of (map fst pairs)))))])).
  { unfold compute_metrics, labeled_pairs.
    rewrite (load_rewritten_log _ _ _ _ Hparse). cbn [bind filter_by_time].
    rewrite extract_labeled_records. cbn [bind]. exact Hms. }
  rewrite Hcompute. unfold save_metrics.
  destruct (_check_metric_alerts _ _);
    cbn [snd performance_metrics set_performance_metrics set_prediction_logs
         lines_of prediction_logs written];
    rewrite Hcompute, <- List.app_assoc; repeat split; reflexivity.
Qed.

Lemma feedback_appends_metrics_snapshot_witness :
  exists snapshot,
    compute_metrics
      (lines_of (snd (prediction_feedback (Some service_monitor) two_pm "B" 1
                        one_labeled_one_not)))
      None None = Ok (Some snapshot) /\
    performance_metrics
      (snd (prediction_feedback (Some service_monitor) two_pm "B" 1
              one_labeled_one_not))
    = Some (HList (existing_entries (performance_metrics one_labeled_one_not) ++
                   [dict_set snapshot "timestamp" (MStr (isoformat two_pm))])%list) /\
    written (snd (prediction_feedback (Some service_monitor) two_pm "B" 1
                    one_labeled_one_not))
    = (written one_labeled_one_not ++
       [prediction_logs_jsonl; performance_metrics_json])%list.
Proof.
  apply (feedback_appends_metrics_snapshot MONITORING_CONFIG service_monitor
           two_pm "B" 1 one_labeled_one_not (lines_of one_labeled_one_not)
           [prediction_entry noon "A" [("amount", JInt 3)] (NInt 1)
              None (Some (NInt 1)) None;
            prediction_entry one_pm "B" [("amount", JInt 5)] (NInt 0)
              None None None]).
  - reflexivity.
  - reflexivity.
  - reflexivity.
  - reflexivity.
  - reflexivity.
  - right. reflexivity.
  - reflexivity.
Defined.

(** C10, as stated, fails: feedback with the label 2 for the record ["B"]
    is applied to the log (the record carries the label afterwards), but
    the targets then have three classes, the computation of the metrics
    raises, and no snapshot is appended to the history. *)
Lemma feedback_without_snapshot_counterexample :
  (exists first second,
     load_logs (lines_of (snd (prediction_feedback
                                 (startup_event MONITORING_CONFIG) two_pm
                                 "B" 2 one_labeled_one_not)))
     = Ok [first; second] /\
     py_get second "true_label" = Ok (JInt 2)) /\
  ~ (exists snapshot,
       performance_metrics
         (snd (prediction_feedback (startup_event MONITORING_CONFIG) two_pm
                 "B" 2 one_labeled_one_not))
       = Some (HList (existing_entries
                        (performance_metrics one_labeled_one_not) ++
                      [snapshot])%list)).
Proof.
  split.
  - do 2 eexists. split; vm_compute; reflexivity.
  - intros [snapshot H]. vm_compute in H. discriminate H.
Qed.

(** ** Batch logging *)

Lemma nth_error_set_nth_same {A : Type} (l : list A) (i : nat) (x y : A) :
  nth_error l i = Some y -> nth_error (set_nth l i x) i = Some x.
Proof.
  revert i. induction l as [|z l IH]; intros [|i] H; try discriminate;
    simpl in *; auto.
Qed.

Lemma nth_error_set_nth_other {A : Type} (l : list A) (i j : nat) (x : A) :
  i <> j -> nth_error (set_nth l i x) j = nth_error l j.
Proof.
  revert i j. induction l as [|z l IH]; intros [|i] [|j] H; simpl;
    try reflexivity; try congruence.
  apply IH. congruence.
Qed.

Lemma row_mem_set_column (df : DataFrame) (name : string) (c : column) :
  row_mem (set_column df name c) name = true.
Proof.
  unfold row_mem, set_column, dict_mem. simpl.
  now rewrite dict_get_set_same.
Qed.

(** C9, as amended. When monitoring is enabled and [log_batch_predictions]
    is called without an identifier column ([id_col] is [None] or is not a
    column of the table), the caller's table itself is changed: after the
    call the object at the caller's address has a column [prediction_id]
    holding the generated identifiers, whether or not the call then
    raises; the other tables are untouched.  When monitoring is disabled
    the call returns before it touches anything. *)
Theorem log_batch_predictions_adds_id_column (m : ModelMonitor)
    (now : nat -> datetime) (predictions_df : nat) (features_cols : list string)
    (prediction_col : string) (probability_col true_label_col : option string)
    (id_col : option string) (st : state) (df : DataFrame) :
  nth_error (frames st) predictions_df = Some df ->
  match id_col with Some c => row_mem df c | None => false end = false ->
  if enable_monitoring m
  then
    nth_error
      (frames (snd (log_batch_predictions m now predictions_df features_cols
                      prediction_col probability_col true_label_col id_col st)))
      predictions_df
    = Some (set_column df "prediction_id"
              (ObjCol (map JStr (generated_ids now (nrows df))))) /\
    row_mem (set_column df "prediction_id"
               (ObjCol (map JStr (generated_ids now (nrows df)))))
      "prediction_id" = true /\
    forall other, other <> predictions_df ->
      nth_error
        (frames (snd (log_batch_predictions m now predictions_df features_cols
                        prediction_col probability_col true_label_col id_col
                        st)))
        other
      = nth_error (frames st) other
  else
    log_batch_predictions m now predictions_df features_cols prediction_col
      probability_col true_label_col id_col st
    = (Ok tt, st).
Proof.
  intros Hdf Hid. unfold log_batch_predictions.
  destruct (enable_monitoring m) eqn:Hen; [|reflexivity].
  rewrite Hdf. cbn [negb]. cbv iota.
  assert (Hprovided :
    match id_col with
    | Some c => if row_mem df c then Some c else None
    | None => None
    end = None).
  { destruct id_col as [c|]; [now rewrite Hid | reflexivity]. }
  rewrite Hprovided. cbv iota beta zeta.
  destruct (mapM _ _) as [log_entries|];
    [destruct (write_entries log_entries) as [lines outcome]|];
    cbn [snd frames append_lines set_prediction_logs set_frame];
    (split; [eapply nth_error_set_nth_same; exact Hdf|]);
    (split; [apply row_mem_set_column|]);
    intros other Hother; apply nth_error_set_nth_other; congruence.
Qed.

Lemma log_batch_predictions_adds_id_column_witness :
  nth_error
    (frames (snd (log_batch_predictions service_monitor from_noon 0 ["amount"]
                    "prediction" None None None caller_state)))
    0
  = Some (set_column two_rows "prediction_id"
            (ObjCol (map JStr (generated_ids from_noon (nrows two_rows))))) /\
  row_mem (set_column two_rows "prediction_id"
             (ObjCol (map JStr (generated_ids from_noon (nrows two_rows)))))
    "prediction_id" = true /\
  forall other, other <> 0 ->
    nth_error
      (frames (snd (log_batch_predictions service_monitor from_noon 0 ["amount"]
                      "prediction" None None None caller_state)))
      other
    = nth_error (frames caller_state) other.
Proof.
  apply (log_batch_predictions_adds_id_column service_monitor from_noon 0
           ["amount"] "prediction" None None None caller_state two_rows);
    reflexivity.
Defined.

(** C9, as stated, fails: with a monitor whose monitoring is disabled, a
    call without an identifier column leaves the caller's table without a
    column [prediction_id]. *)
Lemma log_batch_disabled_counterexample :
  ~ (exists df,
       nth_error
         (frames (snd (log_batch_predictions disabled_monitor from_noon 0
                         ["amount"] "prediction" None None None
                         caller_state)))
         0 = Some df /\
       row_mem df "prediction_id" = true).
Proof.
  intros (df & H & Hmem). vm_compute in H. injection H as <-.
  vm_compute in Hmem. discriminate Hmem.
Qed.

(** ** Drift *)

Lemma Qltb_lt (a b : Q) : Qltb a b = true <-> (a < b)%Q.
Proof.
  unfold Qltb. rewrite negb_true_iff. split.
  - intros H. apply Qnot_le_lt. intros Hle.
    apply Qle_bool_iff in Hle. congruence.
  - intros H. destruct (Qle_bool b a) eqn:E; [|reflexivity].
    apply Qle_bool_iff in E. exfalso. now apply (Qlt_not_le a b).
Qed.

(** A value that is looked up is the value of an entry. *)
Lemma dict_get_In {V : Type} (d : list (string * V)) (k : string) (v : V) :
  dict_get d k = Some v -> exists k', In (k', v) d.
Proof.
  induction d as [|[k' v'] d IH]; simpl; [discriminate|].
  destruct (String.eqb k' k).
  - intros [= ->]. exists k'. now left.
  - intros H. destruct (IH H) as [k'' Hin]. exists k''. now right.
Qed.

Lemma In_dict_set {V : Type} (d : list (string * V)) (k k' : string) (v v' : V) :
  In (k', v') (dict_set d k v) -> (k' = k /\ v' = v) \/ In (k', v') d.
Proof.
  induction d as [|[k0 v0] d IH]; simpl.
  - intros [[= <- <-]|[]]. now left.
  - destruct (String.eqb_spec k0 k) as [->|Hne]; simpl.
    + intros [[= <- <-]|H]; [now left | now right; right].
    + intros [H|H]; [now right; left|].
      destruct (IH H) as [?|?]; [now left | now right; right].
Qed.

Lemma In_dict_set_same {V : Type} (d : list (string * V)) (k : string) (v : V) :
  In (k, v) (dict_set d k v).
Proof.
  induction d as [|[k0 v0] d IH]; simpl; [now left|].
  destruct (String.eqb_spec k0 k) as [->|Hne]; simpl; [now left | now right].
Qed.

Lemma In_dict_set_other {V : Type} (d : list (string * V)) (k k' : string)
    (v v' : V) :
  In (k', v') d -> k' <> k -> In (k', v') (dict_set d k v).
Proof.
  induction d as [|[k0 v0] d IH]; simpl; [contradiction|].
  intros [[= -> ->]|H] Hne.
  - destruct (String.eqb_spec k' k); [contradiction | now left].
  - destruct (String.eqb k0 k); right; auto.
Qed.

Lemma examine_drift_detected (ks_2samp : list Q -> list Q -> Q * Q)
    (reference_data current_data : DataFrame) (threshold : Q)
    (column : string) (e : feature_drift) :
  examine ks_2samp reference_data current_data threshold column = Some e ->
  drift_detected e = NpBool (Qltb (p_value e) threshold).
Proof.
  unfold examine.
  destruct (dict_get (columns reference_data) column) as [[rc|?]|];
    try discriminate.
  destruct (dict_get (columns current_data) column) as [[cc|?]|];
    try discriminate.
  destruct (all_null rc || all_null cc); [discriminate|].
  destruct (ks_2samp _ _) as [ks p]. now intros [= <-].
Qed.

Lemma drift_loop_invariant (ks_2samp : list Q -> list Q -> Q * Q)
    (reference_data current_data : DataFrame) (threshold : Q)
    (feature_columns : list string) :
  forall features overall,
    drift_invariant ks_2samp reference_data current_data threshold
      features overall ->
    drift_invariant ks_2samp reference_data current_data threshold
      (fst (drift_loop ks_2samp reference_data current_data threshold
              feature_columns features overall))
      (snd (drift_loop ks_2samp reference_data current_data threshold
              feature_columns features overall)).
Proof.
  induction feature_columns as [|column cols IH]; intros features overall Hinv;
    [exact Hinv|].
  cbn [drift_loop].
  destruct (examine ks_2samp reference_data current_data threshold column)
    as [e|] eqn:Ex; [|now apply IH].
  apply IH. destruct Hinv as [Hentries Hoverall]. split.
  - intros c e' Hin. apply In_dict_set in Hin as [[-> ->]|Hin]; auto.
  - destruct (is_true (drift_detected e)) eqn:Ed.
    + split; [|reflexivity]. intros _. exists column, e.
      split; [apply In_dict_set_same | exact Ed].
    + rewrite Hoverall. split.
      * intros (c & e' & Hin & He').
        exists c, e'. split; [|exact He'].
        apply In_dict_set_other; [exact Hin|].
        intros ->. rewrite (Hentries _ _ Hin) in Ex.
        injection Ex as ->. congruence.
      * intros (c & e' & Hin & He').
        apply In_dict_set in Hin as [[-> ->]|Hin]; [congruence|].
        now exists c, e'.
Qed.

(** The verdicts of the report that [detect_data_drift] builds: the entry
    of a feature is the result of examining it, with [drift_detected]
    true exactly when [p_value < threshold], and the overall verdict is
    true exactly when an entry reports drift. *)
Lemma drift_loop_verdicts (ks_2samp : list Q -> list Q -> Q * Q)
    (reference_data current_data : DataFrame) (threshold : Q)
    (feature_columns : list string)
    (features : list (string * feature_drift)) (overall : bool) :
  drift_loop ks_2samp reference_data current_data threshold feature_columns
    [] false = (features, overall) ->
  (forall column e, In (column, e) features ->
     examine ks_2samp reference_data current_data threshold column = Some e /\
     (is_true (drift_detected e) = true <-> (p_value e < threshold)%Q)) /\
  (overall = true <->
   exists column e,
     In (column, e) features /\ is_true (drift_detected e) = true).
Proof.
  intros Hloop.
  pose proof (drift_loop_invariant ks_2samp reference_data current_data
                threshold feature_columns [] false) as Hinv.
  rewrite Hloop in Hinv. cbn [fst snd] in Hinv.
  destruct Hinv as [Hentries Hoverall].
  { split; [intros ? ? []|].
    split; [discriminate | intros (? & ? & [] & _)]. }
  split; [|exact Hoverall].
  intros column e Hin. split; [now apply Hentries|].
  rewrite (examine_drift_detected _ _ _ _ _ _ (Hentries _ _ Hin)).
  cbn [is_true]. apply Qltb_lt.
Qed.


(** * Further properties of the monitor and of the service *)

(** ** Loops whose body may raise *)

(** A loop whose body raises for one element raises. *)
Lemma mapM_raise_in {A B : Type} (f : A -> result B) (l : list A) (x : A) (e : exn) :
  In x l -> f x = Raise e -> exists e', mapM f l = Raise e'.
Proof.
  induction l as [|y l IH]; simpl; [tauto|].
  intros [->|Hin] Hx.
  - rewrite Hx. now exists e.
  - destruct (f y); [|now eexists].
    destruct (IH Hin Hx) as [e' ->]. now exists e'.
Qed.

(** A filtering loop whose test raises for one element raises. *)
Lemma filterM_raise_in {A : Type} (f : A -> result bool) (l : list A) (x : A) (e : exn) :
  In x l -> f x = Raise e -> exists e', filterM f l = Raise e'.
Proof.
  induction l as [|y l IH]; simpl; [tauto|].
  intros [->|Hin] Hx.
  - rewrite Hx. now exists e.
  - destruct (f y); simpl; [|now eexists].
    destruct (IH Hin Hx) as [e' ->]. now exists e'.
Qed.

(** A loop that ends gives one result per element. *)
Lemma mapM_length {A B : Type} (f : A -> result B) (l : list A) (ys : list B) :
  mapM f l = Ok ys -> List.length ys = List.length l.
Proof.
  intros H. apply mapM_Ok_inv in H. symmetry. eapply Forall2_length, H.
Qed.

(** ** [process_feedback] *)

(** [calculate_performance_metrics] touches neither the drift history nor
    the tables. *)
Lemma calculate_keeps_other_files (m : ModelMonitor) (now : datetime)
    (start_time end_time : option datetime) (st : state) :
  let st' := snd (calculate_performance_metrics m now start_time end_time st) in
  drift_metrics st' = drift_metrics st /\ frames st' = frames st.
Proof.
  unfold calculate_performance_metrics.
  destruct (negb (enable_monitoring m)); [now split|].
  destruct (prediction_logs st); [|now split].
  unfold save_metrics.
  destruct (compute_metrics _ _ _) as [[ms|]|e]; simpl; try now split.
  destruct (_check_metric_alerts _ _); now split.
Qed.

(** X1: [process_feedback] never adds or removes a record: whatever the
    log holds and whether or not the feedback is applied, the log has as
    many lines afterwards as before, and the drift history and the tables
    of the process are left as they were. *)
Theorem process_feedback_keeps_line_count (prediction_id : string) (label : Z)
    (m : ModelMonitor) (now : datetime) (st : state) :
  let st' := process_feedback prediction_id label m now st in
  List.length (lines_of st') = List.length (lines_of st) /\
  drift_metrics st' = drift_metrics st /\
  frames st' = frames st.
Proof.
  unfold process_feedback.
  destruct (prediction_logs st) as [lines|] eqn:El; [|now repeat split].
  destruct (mapM _ lines) as [logs|e] eqn:E; [|now repeat split].
  destruct (negb (existsb snd logs)); [now repeat split|].
  apply mapM_length in E.
  destruct (get_flag _).
  - split.
    + unfold lines_of at 1. rewrite calculate_keeps_prediction_logs. simpl.
      unfold lines_of. rewrite El. now rewrite length_map.
    + match goal with |- context [calculate_performance_metrics ?a ?b ?c ?d ?s] =>
        destruct (calculate_keeps_other_files a b c d s) as [H1 H2] end.
      rewrite H1, H2. now split.
  - simpl. unfold lines_of. simpl. rewrite El. rewrite length_map. now repeat split.
Qed.

(** The body of the read loop raises on a line that is malformed or is
    the text of another value than an object: [json.loads] raises
    [JSONDecodeError] on the first, and the value of the second has no
    method [get]. *)
Lemma feedback_line_unreadable (prediction_id : string) (label : Z) (line : string) :
  not_a_record line = true ->
  feedback_line prediction_id label line = Raise JSONDecodeError \/
  feedback_line prediction_id label line = Raise AttributeError.
Proof.
  unfold not_a_record, feedback_line.
  destruct (json_loads (strip line)) as [v|[]]; try discriminate;
    [|now left].
  destruct v; simpl; intros H; try discriminate H; now right.
Qed.

(** X2: one line of the log that is malformed (an empty line, for
    instance) or that is the text of a JSON value other than an object is
    enough for [process_feedback] to change nothing at all, whichever
    record the feedback is for: the exception the line raises in the read
    loop is caught after the loop, before anything is written. *)
Theorem unreadable_line_blocks_feedback (prediction_id : string) (label : Z)
    (m : ModelMonitor) (now : datetime) (st : state) (lines : list string)
    (line : string) :
  prediction_logs st = Some lines ->
  In line lines ->
  not_a_record line = true ->
  process_feedback prediction_id label m now st = st.
Proof.
  intros El Hin Hbad. unfold process_feedback. rewrite El.
  destruct (feedback_line_unreadable prediction_id label line Hbad) as [He|He];
    destruct (mapM_raise_in _ lines line _ Hin He) as [e' ->]; reflexivity.
Qed.

(** The log of [two_records_X] followed by an empty line: feedback for
    ["X"] changes nothing. *)
Lemma unreadable_line_blocks_feedback_witness :
  process_feedback "X" 1 service_monitor two_pm log_with_blank_line
  = log_with_blank_line.
Proof.
  apply (unreadable_line_blocks_feedback "X" 1 service_monitor two_pm
           log_with_blank_line (lines_of two_records_X ++ [""]) "").
  - reflexivity.
  - apply in_or_app. right. now left.
  - reflexivity.
Defined.

(** [rstrip] keeps a text that ends with a character that is not white
    space. *)
Lemma rstrip_end (t : string) (c : ascii) :
  is_space c = false -> rstrip (t ++ String c "") = t ++ String c "".
Proof.
  intros Hc. induction t as [|a t IH]; simpl.
  - now rewrite Hc.
  - rewrite IH. destruct t; reflexivity.
Qed.

(** The text of the members of an object ends with the closing brace. *)
Lemma dumps_members_end (r : list (string * json)) :
  exists t, dumps_members r = t ++ "}".
Proof.
  induction r as [|[k y] r [t IH]].
  - now exists "".
  - cbn [dumps_members]. rewrite IH.
    exists (", " ++ quote k ++ ": " ++ dumps y ++ t).
    now rewrite !append_assoc.
Qed.

(** The text of an object starts and ends with a brace. *)
Lemma dumps_object_shape (d : list (string * json)) :
  exists u, dumps (JObj d) = String "{" (u ++ "}").
Proof.
  destruct d as [|[k x] r].
  - now exists "".
  - rewrite dumps_object. destruct (dumps_members_end r) as [t ->].
    exists (quote k ++ ": " ++ dumps x ++ t).
    change ("{" ++ quote k ++ ": " ++ dumps x ++ t ++ "}")
      with (String "{" (quote k ++ ": " ++ dumps x ++ t ++ "}")).
    f_equal. now rewrite <- !append_assoc.
Qed.

(** [strip] leaves the text of an object as it is. *)
Lemma strip_dumps_object (d : list (string * json)) :
  strip (dumps (JObj d)) = dumps (JObj d).
Proof.
  destruct (dumps_object_shape d) as [u ->].
  unfold strip. cbn [lstrip]. change (is_space "{") with false. cbv iota.
  change (String "{" (u ++ "}")) with (String "{" u ++ "}").
  now apply rstrip_end.
Qed.

(** When the read loop of [process_feedback] ends, every line is the text
    of a dictionary. *)
Lemma feedback_lines_entries (prediction_id : string) (label : Z)
    (lines : list string) :
  forall logs,
    mapM (feedback_line prediction_id label) lines = Ok logs ->
    exists entries,
      mapM (fun line => json_loads (strip line)) lines = Ok (map JObj entries).
Proof.
  induction lines as [|line lines IH]; intros logs H.
  - now exists [].
  - cbn [mapM] in H |- *.
    destruct (feedback_line prediction_id label line) as [y|] eqn:E; [|discriminate H].
    destruct (mapM (feedback_line prediction_id label) lines) as [ys|] eqn:E';
      [|discriminate H].
    destruct (IH ys eq_refl) as [entries ->].
    unfold feedback_line in E.
    destruct (json_loads (strip line)) as [v|]; [|discriminate E].
    destruct v; try discriminate E.
    now exists (l :: entries).
Qed.

(** Feedback does not change the identifier of a record. *)
Lemma matches_with_feedback (prediction_id : string) (label : Z)
    (d : list (string * json)) :
  matches prediction_id (with_feedback prediction_id label d)
  = matches prediction_id d.
Proof.
  unfold with_feedback. destruct (matches prediction_id d) eqn:E; [|exact E].
  unfold matches in *. rewrite dict_get_set_other; [exact E|discriminate].
Qed.

(** Of two assignments to a key, the second one stays. *)
Lemma dict_set_twice {V : Type} (d : list (string * V)) (k : string) (v w : V) :
  dict_set (dict_set d k v) k w = dict_set d k w.
Proof.
  induction d as [|[k' x] d IH]; simpl.
  - now rewrite String.eqb_refl.
  - destruct (String.eqb k' k) eqn:E; simpl; rewrite E; [reflexivity|].
    now rewrite IH.
Qed.

(** Of two feedbacks for an identifier, the second one stays. *)
Lemma with_feedback_twice (prediction_id : string) (l1 l2 : Z)
    (d : list (string * json)) :
  with_feedback prediction_id l2 (with_feedback prediction_id l1 d)
  = with_feedback prediction_id l2 d.
Proof.
  unfold with_feedback at 1. rewrite matches_with_feedback.
  unfold with_feedback. destruct (matches prediction_id d); [|reflexivity].
  apply dict_set_twice.
Qed.

(** The lines [process_feedback] writes are read back, stripped or not, as
    the records with their feedback. *)
Lemma loads_rewritten_lines (prediction_id : string) (label : Z)
    (lines : list string) (entries : list (list (string * json))) :
  mapM (fun line => json_loads (strip line)) lines = Ok (map JObj entries) ->
  mapM (fun line => json_loads (strip line))
    (map (fun d => json_dumps (JObj (with_feedback prediction_id label d))) entries)
  = Ok (map JObj (map (with_feedback prediction_id label) entries)).
Proof.
  intros Hparse.
  apply mapM_Ok_intro. rewrite map_map. apply Forall2_map_r.
  apply mapM_Ok_inv in Hparse. apply Forall2_map_r in Hparse.
  induction Hparse as [|line d lines entries Hd Hl IH];
    cbn [map]; constructor; auto.
  unfold json_dumps. rewrite strip_dumps_object.
  apply json_loads_dumps, wf_with_feedback.
  now apply json_loads_wf in Hd.
Qed.

(** The log after [process_feedback]: rewritten when the read loop ends and
    a record matches, and untouched otherwise. *)
Lemma process_feedback_log (prediction_id : string) (label : Z)
    (m : ModelMonitor) (now : datetime) (st : state) :
  prediction_logs (process_feedback prediction_id label m now st)
  = match prediction_logs st with
    | None => None
    | Some lines =>
        match mapM (feedback_line prediction_id label) lines with
        | Raise _ => Some lines
        | Ok logs =>
            if existsb snd logs
            then Some (map (fun e => json_dumps (fst e)) logs)
            else Some lines
        end
    end.
Proof.
  unfold process_feedback.
  destruct (prediction_logs st) as [lines|] eqn:El; [|exact El].
  destruct (mapM _ lines) as [logs|e]; [|exact El].
  destruct (existsb snd logs); [|exact El]. cbn [negb].
  destruct (get_flag _); [|reflexivity].
  now rewrite calculate_keeps_prediction_logs.
Qed.

(** Feedback does not change which records match. *)
Lemma existsb_matches_with_feedback (prediction_id : string) (label : Z)
    (entries : list (list (string * json))) :
  existsb (matches prediction_id) (map (with_feedback prediction_id label) entries)
  = existsb (matches prediction_id) entries.
Proof.
  induction entries as [|d entries IH]; [reflexivity|].
  cbn [map existsb]. now rewrite matches_with_feedback, IH.
Qed.

(** X3: of two feedbacks for the same prediction_id the later one wins:
    the log after both is the log after the second alone.  In
    particular, submitting the same feedback twice changes the log no
    more than submitting it once. *)
Theorem later_feedback_overrides (prediction_id : string) (first second : Z)
    (m : ModelMonitor) (now now' : datetime) (st : state) :
  prediction_logs
    (process_feedback prediction_id second m now'
       (process_feedback prediction_id first m now st))
  = prediction_logs (process_feedback prediction_id second m now' st).
Proof.
  rewrite (process_feedback_log prediction_id second m now' (process_feedback _ _ _ _ _)).
  rewrite (process_feedback_log prediction_id first).
  rewrite (process_feedback_log prediction_id second m now' st).
  destruct (prediction_logs st) as [lines|]; [|reflexivity].
  destruct (mapM (feedback_line prediction_id first) lines) as [logs|e] eqn:E.
  - destruct (feedback_lines_entries _ _ _ _ E) as [entries Hentries].
    rewrite (mapM_feedback_lines _ _ _ _ Hentries) in E.
    injection E as <-.
    rewrite (mapM_feedback_lines prediction_id second _ _ Hentries).
    rewrite !existsb_snd_map.
    destruct (existsb (matches prediction_id) entries) eqn:Eup.
    + rewrite map_map. cbn [fst].
      rewrite (mapM_feedback_lines prediction_id second _ _
                 (loads_rewritten_lines prediction_id first _ _ Hentries)).
      rewrite existsb_snd_map, existsb_matches_with_feedback, Eup.
      rewrite !map_map. cbn [fst]. f_equal.
      apply map_ext. intros d. now rewrite with_feedback_twice.
    + rewrite (mapM_feedback_lines prediction_id second _ _ Hentries).
      now rewrite existsb_snd_map, Eup.
  - reflexivity.
Qed.

(** ** [calculate_performance_metrics] *)

(** X4: [calculate_performance_metrics] never touches the prediction log,
    the drift history or a table.  Either it leaves the state as it is,
    or it rewrites the metrics history as the earlier entries followed by
    one new snapshot that carries the timestamp of the call; the snapshot
    is then the result, unless the alert check raises [TypeError] after
    the history was saved.  An empty result means that nothing was
    written. *)
Theorem metrics_history_is_append_only (m : ModelMonitor) (now : datetime)
    (start_time end_time : option datetime) (st : state) :
  let r := fst (calculate_performance_metrics m now start_time end_time st) in
  let st' := snd (calculate_performance_metrics m now start_time end_time st) in
  prediction_logs st' = prediction_logs st /\
  drift_metrics st' = drift_metrics st /\
  frames st' = frames st /\
  (st' = st \/
   exists snapshot,
     dict_get snapshot "timestamp" = Some (MStr (isoformat now)) /\
     performance_metrics st'
     = Some (HList (existing_entries (performance_metrics st) ++ [snapshot])%list) /\
     written st' = (written st ++ [performance_metrics_json])%list /\
     (r = Ok snapshot \/ r = Raise TypeError)) /\
  (r = Ok [] -> st' = st).
Proof.
  cbv zeta. unfold calculate_performance_metrics.
  destruct (negb (enable_monitoring m)); [now repeat split; auto|].
  destruct (prediction_logs st) as [lines|] eqn:El; [|now repeat split; auto].
  unfold save_metrics.
  destruct (compute_metrics lines start_time end_time) as [[ms|]|e];
    try (now repeat split; auto).
  assert (Hts : dict_get (dict_set ms "timestamp" (MStr (isoformat now))) "timestamp"
                = Some (MStr (isoformat now))) by apply dict_get_set_same.
  destruct (_check_metric_alerts _ _) as [alerts|e] eqn:Ea; cbn [fst snd].
  - repeat split; auto.
    + right. eexists. repeat split; eauto.
    + intros H. injection H as H. rewrite H in Hts. discriminate Hts.
  - assert (e = TypeError) as ->.
    { clear -Ea. revert e Ea. generalize (dict_set ms "timestamp" (MStr (isoformat now))).
      intros ms'. induction (alert_threshold m) as [|[k q] th IH]; intros e; simpl.
      - discriminate.
      - destruct (dict_get ms' k) as [[n|x|s]|]; simpl.
        + destruct (_check_metric_alerts th ms'); simpl; [discriminate|].
          intros H. injection H as <-. now apply IH.
        + destruct (_check_metric_alerts th ms'); simpl; [discriminate|].
          intros H. injection H as <-. now apply IH.
        + intros H. now injection H as <-.
        + destruct (_check_metric_alerts th ms'); simpl; [discriminate|].
          intros H. injection H as <-. now apply IH. }
    repeat split; auto.
    + right. eexists. repeat split; eauto.
    + discriminate.
Qed.

(** The time filter raises what reading the timestamp raises. *)
Lemma in_time_range_raises (start_time end_time : option datetime) (log : json)
    (e : exn) :
  timestamp_of log = Raise e -> in_time_range start_time end_time log = Raise e.
Proof.
  unfold timestamp_of, in_time_range. intros H.
  destruct (py_getitem log "timestamp") as [ts|]; cbn [bind] in *;
    [|now injection H as ->].
  destruct (fromisoformat_value ts); cbn [bind] in *;
    [discriminate H|now injection H as ->].
Qed.

(** X5: [calculate_performance_metrics] reads the timestamps only when a
    bound is given.  On a log with a record on whose timestamp
    [datetime.fromisoformat(log["timestamp"])] raises (the record has no
    timestamp, or one that is not a text, or a text that does not start
    with the four digits of a year, or a text in the layout of
    [isoformat] with a field out of range), the call without bounds
    computes the metrics over all records, and every call with a start
    or an end time raises and writes nothing. *)
Theorem window_needs_readable_timestamps (m : ModelMonitor) (now : datetime)
    (start_time end_time : option datetime) (st : state)
    (lines : list string) (logs : list json) (log : json) (e : exn) :
  enable_monitoring m = true ->
  prediction_logs st = Some lines ->
  load_logs lines = Ok logs ->
  In log logs ->
  timestamp_of log = Raise e ->
  e <> Unmodelled ->
  calculate_performance_metrics m now None None st
  = save_metrics m now st (metrics_over logs) /\
  ((start_time <> None \/ end_time <> None) ->
   exists e',
     calculate_performance_metrics m now start_time end_time st = (Raise e', st)).
Proof.
  intros Hen El Hlogs Hin Hts _.
  unfold calculate_performance_metrics. rewrite Hen, El. cbn [negb].
  unfold compute_metrics, labeled_pairs. rewrite Hlogs. cbn [bind].
  split; [reflexivity|].
  intros Hwin.
  destruct (filterM_raise_in (in_time_range start_time end_time) logs log e Hin
              (in_time_range_raises _ _ _ _ Hts)) as [e' He'].
  exists e'. unfold filter_by_time.
  destruct start_time, end_time; try (rewrite He'; reflexivity).
  destruct Hwin as [H|H]; now elim H.
Qed.

(** A log with one labeled record that has no timestamp. *)
Lemma window_needs_readable_timestamps_witness :
  calculate_performance_metrics service_monitor two_pm None None
    log_without_timestamp
  = save_metrics service_monitor two_pm log_without_timestamp
      (metrics_over [record_without_timestamp]) /\
  ((Some noon <> None \/ @None datetime <> None) ->
   exists e',
     calculate_performance_metrics service_monitor two_pm (Some noon) None
       log_without_timestamp
     = (Raise e', log_without_timestamp)).
Proof.
  apply (window_needs_readable_timestamps service_monitor two_pm (Some noon) None
           log_without_timestamp (lines_of log_without_timestamp)
           [record_without_timestamp] record_without_timestamp KeyError).
  - reflexivity.
  - reflexivity.
  - vm_compute. reflexivity.
  - now left.
  - reflexivity.
  - discriminate.
Defined.

(** ** [_check_metric_alerts] *)

(** The alerts are the metrics with a threshold and a numeric value below
    it. *)
Lemma check_metric_alerts_spec (thresholds : list (string * Q)) (ms : metrics) :
  forall alerts,
    _check_metric_alerts thresholds ms = Ok alerts ->
    forall metric,
      In metric alerts <->
      exists threshold value,
        In (metric, threshold) thresholds /\
        metric_value ms metric = Some value /\
        (value < threshold)%Q.
Proof.
  induction thresholds as [|[k t] th IH]; intros alerts H metric.
  - injection H as <-. split; [intros []|intros (? & ? & [] & _)].
  - cbn [_check_metric_alerts] in H.
    assert (Hbelow : exists below,
               match dict_get ms k with
               | None => Ok false
               | Some (MFloat q) => Ok (Qltb q t)
               | Some (MInt n) => Ok (Qltb (inject_Z n) t)
               | Some (MStr _) => Raise TypeError
               end = Ok below /\
               (below = true <-> exists value, metric_value ms k = Some value /\ (value < t)%Q)).
    { unfold metric_value. destruct (dict_get ms k) as [[n|q|s]|].
      - eexists; split; [reflexivity|]. rewrite Qltb_lt. split.
        + intros Hlt. eexists; split; [reflexivity|exact Hlt].
        + intros (v & Hv & Hlt). now injection Hv as <-.
      - eexists; split; [reflexivity|]. rewrite Qltb_lt. split.
        + intros Hlt. eexists; split; [reflexivity|exact Hlt].
        + intros (v & Hv & Hlt). now injection Hv as <-.
      - discriminate H.
      - eexists; split; [reflexivity|]. split; [discriminate|].
        intros (v & Hv & _). discriminate Hv. }
    destruct Hbelow as (below & Eb & Hb). rewrite Eb in H. cbn [bind] in H.
    destruct (_check_metric_alerts th ms) as [rest|] eqn:Er; [|discriminate H].
    cbn [bind] in H. injection H as <-.
    specialize (IH rest eq_refl metric).
    split.
    + intros Hin.
      assert (Hcases : (metric = k /\ below = true) \/ In metric rest).
      { destruct below; [destruct Hin as [<-|Hin]; auto|auto]. }
      destruct Hcases as [[-> Hbt]|Hrest].
      * apply Hb in Hbt. destruct Hbt as (v & Hv & Hlt).
        exists t, v. repeat split; auto. now left.
      * apply IH in Hrest. destruct Hrest as (t' & v & Hin' & Hv & Hlt).
        exists t', v. repeat split; auto. now right.
    + intros (t' & v & [Heq|Hin'] & Hv & Hlt).
      * injection Heq as <- <-.
        assert (below = true) as -> by (apply Hb; eauto). now left.
      * assert (In metric rest) by (apply IH; eauto).
        destruct below; [now right|assumption].
Qed.

(** X6: [_check_metric_alerts] reports exactly the metrics that have an
    alert threshold and a numeric value strictly below it: a metric equal
    to its threshold, a metric without threshold and a threshold on a
    metric the snapshot lacks raise no alert. *)
Theorem alerts_are_metrics_below_threshold (m : ModelMonitor) (ms : metrics)
    (alerts : list string) (metric : string) :
  _check_metric_alerts (alert_threshold m) ms = Ok alerts ->
  (In metric alerts <->
   exists threshold value,
     In (metric, threshold) (alert_threshold m) /\
     metric_value ms metric = Some value /\
     (value < threshold)%Q).
Proof.
  intros H. revert metric. now apply check_metric_alerts_spec.
Qed.

(** The thresholds of the service and a snapshot with precision one half,
    recall at its threshold and F1 above it: precision alone is
    reported. *)
Lemma alerts_are_metrics_below_threshold_witness :
  (In "precision" ["precision"] <->
   exists threshold value,
     In ("precision", threshold) (alert_threshold service_monitor) /\
     metric_value half_precision "precision" = Some value /\
     (value < threshold)%Q) /\
  (In "recall" ["precision"] <->
   exists threshold value,
     In ("recall", threshold) (alert_threshold service_monitor) /\
     metric_value half_precision "recall" = Some value /\
     (value < threshold)%Q).
Proof.
  split;
    apply (alerts_are_metrics_below_threshold service_monitor half_precision
             ["precision"]);
    vm_compute; reflexivity.
Defined.

(** ** [get_recent_predictions] *)

(** A character compares equal to itself. *)
Lemma ascii_compare_refl (c : ascii) : Ascii.compare c c = Eq.
Proof. unfold Ascii.compare. apply N.compare_refl. Qed.

(** The order of characters is transitive. *)
Lemma ascii_compare_gt_trans (x y z : ascii) :
  Ascii.compare x y = Gt -> Ascii.compare y z = Gt -> Ascii.compare x z = Gt.
Proof.
  unfold Ascii.compare. rewrite !N.compare_gt_iff. intros. eapply N.lt_trans; eauto.
Qed.

(** [a >= b] and [b >= c] give [a >= c] on strings. *)
Lemma ltb_false_trans (a b c : string) :
  String.ltb a b = false -> String.ltb b c = false -> String.ltb a c = false.
Proof.
  unfold String.ltb. revert b c.
  induction a as [|x a IH]; intros [|y b] [|z c]; simpl; auto; try discriminate.
  destruct (Ascii.compare x y) eqn:Exy; try discriminate;
    destruct (Ascii.compare y z) eqn:Eyz; try discriminate; intros H1 H2.
  - apply Ascii.compare_eq_iff in Exy, Eyz. subst.
    rewrite ascii_compare_refl. now apply IH with (b := b).
  - apply Ascii.compare_eq_iff in Exy. subst. now rewrite Eyz.
  - apply Ascii.compare_eq_iff in Eyz. subst. now rewrite Exy.
  - now rewrite (ascii_compare_gt_trans x y z).
Qed.

(** [a < b] excludes [b < a] on strings. *)
Lemma ltb_asym (a b : string) : String.ltb a b = true -> String.ltb b a = false.
Proof.
  unfold String.ltb. rewrite (String.compare_antisym a b).
  destruct (String.compare b a); simpl; auto; discriminate.
Qed.

Section SortDesc.

Variable key : json -> string.

(** What holds of every element after an insertion. *)
Lemma forallb_insert_desc (p : json -> bool) (x : json) (l : list json) :
  forallb p (insert_desc key x l) = p x && forallb p l.
Proof.
  induction l as [|y l IH]; simpl.
  - reflexivity.
  - destruct (String.ltb (key x) (key y)); simpl; [|reflexivity].
    rewrite IH. now destruct (p x), (p y).
Qed.

(** An insertion adds one element. *)
Lemma length_insert_desc (x : json) (l : list json) :
  List.length (insert_desc key x l) = S (List.length l).
Proof.
  induction l as [|y l IH]; simpl; [reflexivity|].
  destruct (String.ltb (key x) (key y)); simpl; [now rewrite IH|reflexivity].
Qed.

(** An insertion keeps a descending list descending. *)
Lemma descending_insert_desc (x : json) (l : list json) :
  descending (map key l) = true ->
  descending (map key (insert_desc key x l)) = true.
Proof.
  induction l as [|y l IH]; simpl; [reflexivity|].
  intros H. apply andb_true_iff in H. destruct H as [Hy Hl].
  destruct (String.ltb (key x) (key y)) eqn:E; simpl.
  - rewrite IH by exact Hl. rewrite andb_true_r.
    rewrite forallb_map_comp in *.
    rewrite forallb_insert_desc, Hy, andb_true_r.
    now rewrite (ltb_asym _ _ E).
  - rewrite E, Hy, Hl. simpl. rewrite andb_true_r.
    rewrite forallb_map_comp in *.
    rewrite forallb_forall in *. intros z Hz.
    apply negb_true_iff. apply ltb_false_trans with (b := key y); [exact E|].
    apply negb_true_iff. now apply Hy.
Qed.

(** [sort_desc] returns a descending list. *)
Lemma descending_sort_desc (l : list json) :
  descending (map key (sort_desc key l)) = true.
Proof.
  induction l as [|x l IH]; [reflexivity|].
  now apply descending_insert_desc.
Qed.

(** Sorting keeps what holds of every element. *)
Lemma forallb_sort_desc (p : json -> bool) (l : list json) :
  forallb p (sort_desc key l) = forallb p l.
Proof.
  induction l as [|x l IH]; [reflexivity|].
  unfold sort_desc in *. simpl. now rewrite forallb_insert_desc, IH.
Qed.

(** Sorting keeps the length. *)
Lemma length_sort_desc (l : list json) :
  List.length (sort_desc key l) = List.length l.
Proof.
  induction l as [|x l IH]; [reflexivity|].
  unfold sort_desc in *. simpl. now rewrite length_insert_desc, IH.
Qed.

End SortDesc.

(** What holds of every element holds of the first [n]. *)
Lemma forallb_firstn {A : Type} (p : A -> bool) (n : nat) (l : list A) :
  forallb p l = true -> forallb p (firstn n l) = true.
Proof.
  revert l. induction n as [|n IH]; intros [|x l]; simpl; auto.
  intros H. apply andb_true_iff in H. destruct H as [-> H]. now apply IH.
Qed.

(** The first [n] elements of a descending list are descending. *)
Lemma descending_firstn (n : nat) (l : list string) :
  descending l = true -> descending (firstn n l) = true.
Proof.
  revert l. induction n as [|n IH]; intros [|x l]; simpl; auto.
  intros H. apply andb_true_iff in H. destruct H as [Hx H].
  rewrite (forallb_firstn _ _ _ Hx). now apply IH.
Qed.

(** A filtering loop that ends has tested every element without an
    exception, and returns the elements that passed. *)
Lemma filterM_Ok_inv {A : Type} (f : A -> result bool) (l : list A) :
  forall l', filterM f l = Ok l' ->
  l' = filter (fun x => match f x with Ok b => b | Raise _ => false end) l /\
  Forall (fun x => exists b, f x = Ok b) l.
Proof.
  induction l as [|x l IH]; intros l' H.
  - injection H as <-. now split.
  - cbn [filterM] in H. destruct (f x) as [b|] eqn:E; [|discriminate H].
    cbn [bind] in H. destruct (filterM f l) as [ys|]; [|discriminate H].
    cbn [bind] in H. injection H as <-.
    destruct (IH ys eq_refl) as [-> Hall]. split.
    + cbn [filter]. now rewrite E.
    + constructor; [now exists b|exact Hall].
Qed.

(** The test of the time filter of [get_recent_predictions]. *)
Lemma recent_filter (start_time : datetime) (log : json) (b : bool) :
  (ts <- py_getitem log "timestamp" ;;
   log_time <- fromisoformat_value ts ;;
   Ok (dt_leb start_time log_time)) = Ok b ->
  b = recent start_time log.
Proof.
  unfold recent, timestamp_of.
  destruct (py_getitem log "timestamp") as [ts|]; cbn [bind]; [|discriminate].
  destruct (fromisoformat_value ts); cbn [bind]; [|discriminate].
  now intros [= <-].
Qed.

(** The row of base fields of a recent record: its columns, and its
    timestamp, which is the sort key of the record. *)
Lemma base_fields_recent (start_time : datetime) (log : json)
    (row : list (string * json)) :
  recent start_time log = true ->
  base_fields log = Ok row ->
  dict_keys row = base_keys /\
  row_timestamp row = timestamp_key log /\
  exists s t, dict_get row "timestamp" = Some (JStr s) /\
              fromisoformat s = Ok t /\ dt_leb start_time t = true.
Proof.
  unfold recent, timestamp_of, timestamp_key, base_fields, row_timestamp.
  destruct log as [| | | | | | |d]; try discriminate.
  cbn [py_getitem py_get_default bind].
  destruct (dict_get d "timestamp") as [ts|] eqn:Ets; cbn [bind]; [|discriminate].
  destruct ts as [| | | | |s| |]; try discriminate. cbn [fromisoformat_value].
  destruct (fromisoformat s) as [t|] eqn:Et; [|discriminate].
  intros Hle.
  destruct (dict_get d "prediction_id"), (dict_get d "prediction"),
    (dict_get d "probability"), (dict_get d "true_label");
    cbn [bind]; intros [= <-]; (split; [reflexivity|]);
    (split; [reflexivity|]); exists s, t; repeat split; auto.
Qed.

(** X7: when [get_recent_predictions] returns, its rows are ordered by
    the timestamp text of their records, newest first; every row has the five base columns
    and a timestamp that is read as a time not before the cutoff; and the
    number of rows is the number of records of the log that are not
    before the cutoff, capped by [limit]. *)
Theorem recent_predictions_newest_first (start_time : datetime) (limit : nat)
    (st : state) (rows : list (list (string * json))) :
  get_recent_predictions start_time limit st = Ok rows ->
  descending (map row_timestamp rows) = true /\
  Forall (fun row =>
            dict_keys row = base_keys /\
            exists s t, dict_get row "timestamp" = Some (JStr s) /\
                        fromisoformat s = Ok t /\ dt_leb start_time t = true) rows /\
  exists logs,
    load_logs (lines_of st) = Ok logs /\
    List.length rows
    = Nat.min limit (List.length (filter (recent start_time) logs)).
Proof.
  unfold get_recent_predictions, lines_of.
  destruct (prediction_logs st) as [lines|].
  2:{ intros [= <-]. split; [reflexivity|]. split; [constructor|].
      exists []. split; [reflexivity|]. simpl. now rewrite Nat.min_0_r. }
  destruct (load_logs lines) as [logs|]; cbn [bind]; [|discriminate].
  destruct (filterM _ logs) as [kept|] eqn:Ef; cbn [bind]; [|discriminate].
  intros Hrows.
  apply filterM_Ok_inv in Ef. destruct Ef as [Hkept Hall].
  assert (Hk : kept = filter (recent start_time) logs).
  { rewrite Hkept. apply filter_ext_in. intros log Hin.
    rewrite Forall_forall in Hall. destruct (Hall log Hin) as [b Hb].
    rewrite Hb. now apply recent_filter in Hb. }
  clear Hkept Hall.
  assert (Hrecent : forallb (recent start_time) kept = true).
  { rewrite Hk. apply forallb_forall. intros x Hx. now apply filter_In in Hx. }
  set (chosen := firstn limit (sort_desc timestamp_key kept)) in *.
  assert (Hchosen : forallb (recent start_time) chosen = true).
  { apply forallb_firstn. now rewrite forallb_sort_desc. }
  assert (Hdesc : descending (map timestamp_key chosen) = true).
  { unfold chosen. rewrite <- firstn_map. apply descending_firstn.
    apply descending_sort_desc. }
  assert (Hlen : List.length chosen = Nat.min limit (List.length kept)).
  { unfold chosen. now rewrite length_firstn, length_sort_desc. }
  apply mapM_Ok_inv in Hrows.
  assert (Hrel : Forall2 (fun log row =>
                   dict_keys row = base_keys /\
                   row_timestamp row = timestamp_key log /\
                   exists s t, dict_get row "timestamp" = Some (JStr s) /\
                               fromisoformat s = Ok t /\
                               dt_leb start_time t = true) chosen rows).
  { clear Hdesc Hlen. induction Hrows as [|log row logs' rows' H Hr IH].
    - constructor.
    - cbn [forallb] in Hchosen. apply andb_true_iff in Hchosen.
      destruct Hchosen as [Hlog Hrest].
      constructor; [now apply (base_fields_recent start_time)|now apply IH]. }
  split; [|split].
  - replace (map row_timestamp rows) with (map timestamp_key chosen); [exact Hdesc|].
    clear -Hrel. induction Hrel as [|log row logs' rows' H Hr IH]; [reflexivity|].
    cbn [map]. destruct H as (_ & -> & _). now rewrite IH.
  - clear -Hrel. induction Hrel as [|log row logs' rows' H Hr IH]; constructor; auto.
    destruct H as (Hk & _ & Hts). now split.
  - exists logs. split; [reflexivity|].
    rewrite <- (Forall2_length Hrel), Hlen. now rewrite Hk.
Qed.

(** The log of [two_records_X], the cutoff at noon and a limit of one row:
    the record of one o'clock is returned. *)
Lemma recent_predictions_newest_first_witness :
  let rows :=
    [[("prediction_id", JStr "X");
      ("timestamp", JStr "2024-01-01T13:00:00");
      ("prediction", JInt 0);
      ("probability", JFloat {| dneg := false; dint := 0; dfrac := "25" |});
      ("true_label", JNull)]] in
  descending (map row_timestamp rows) = true /\
  Forall (fun row =>
            dict_keys row = base_keys /\
            exists s t, dict_get row "timestamp" = Some (JStr s) /\
                        fromisoformat s = Ok t /\ dt_leb noon t = true) rows /\
  exists logs,
    load_logs (lines_of two_records_X) = Ok logs /\
    List.length rows = Nat.min 1 (List.length (filter (recent noon) logs)).
Proof.
  apply (recent_predictions_newest_first noon 1 two_records_X).
  vm_compute. reflexivity.
Defined.

(** ** [detect_data_drift] *)

Section DriftFacts.

Variable ks_2samp : list Q -> list Q -> Q * Q.

(** A column is examined when both tables have it with a numeric dtype and
    a value that is not missing. *)
Lemma examine_numeric (reference_data current_data : DataFrame) (threshold : Q)
    (column : string) :
  examine ks_2samp reference_data current_data threshold column <> None <->
  numeric_with_values reference_data column = true /\
  numeric_with_values current_data column = true.
Proof.
  unfold examine, numeric_with_values.
  destruct (dict_get (columns reference_data) column) as [[rc|rc]|];
    destruct (dict_get (columns current_data) column) as [[cc|cc]|];
    try (split; [intros H; now elim H|intros [H1 H2]; discriminate]).
  destruct (all_null rc), (all_null cc); simpl;
    try (split; [intros H; now elim H|intros [H1 H2]; discriminate]).
  destruct (ks_2samp _ _). split; [now split|discriminate].
Qed.

(** The entry of a column after the loop of [detect_data_drift]. *)
Lemma drift_loop_lookup (reference_data current_data : DataFrame)
    (threshold : Q) (column : string) (feature_columns : list string) :
  forall features overall,
    dict_get (fst (drift_loop ks_2samp reference_data current_data threshold
                     feature_columns features overall)) column
    = match (if existsb (String.eqb column) feature_columns
             then examine ks_2samp reference_data current_data threshold column
             else None) with
      | Some e => Some e
      | None => dict_get features column
      end.
Proof.
  induction feature_columns as [|c cols IH]; intros features overall.
  - reflexivity.
  - cbn [drift_loop existsb].
    destruct (String.eqb_spec column c) as [->|Hne]; cbn [orb].
    + destruct (examine ks_2samp reference_data current_data threshold c) as [e|] eqn:E;
        rewrite IH, ?E; destruct (existsb _ cols); try reflexivity.
      apply dict_get_set_same.
    + destruct (examine ks_2samp reference_data current_data threshold c) as [e|] eqn:E.
      * rewrite IH. rewrite dict_get_set_other by congruence. reflexivity.
      * now rewrite IH.
Qed.

(** The loop adds nothing when no listed column is examined. *)
Lemma drift_loop_nothing_examined (reference_data current_data : DataFrame)
    (threshold : Q) (feature_columns : list string) :
  existsb (examined reference_data current_data) feature_columns = false ->
  forall features overall,
    drift_loop ks_2samp reference_data current_data threshold feature_columns
      features overall = (features, overall).
Proof.
  induction feature_columns as [|c cols IH]; intros H features overall;
    [reflexivity|].
  cbn [existsb] in H. apply orb_false_elim in H as [Hc Hcols].
  cbn [drift_loop].
  destruct (examine ks_2samp reference_data current_data threshold c)
    as [e|] eqn:E; [|now apply IH].
  exfalso.
  assert (Hex : examine ks_2samp reference_data current_data threshold c <> None)
    by congruence.
  apply examine_numeric in Hex as [H1 H2].
  unfold examined in Hc. now rewrite H1, H2 in Hc.
Qed.

(** A report with an entry that was computed in this call is refused by
    [json.dump]. *)
Lemma examined_report_not_serializable (reference_data current_data : DataFrame)
    (threshold : Q) (feature_columns : list string) (now : datetime) :
  existsb (examined reference_data current_data) feature_columns = true ->
  forall overall,
    serializable
      {| dr_timestamp := isoformat now;
         n_reference := nrows reference_data;
         n_current := nrows current_data;
         dr_features :=
           fst (drift_loop ks_2samp reference_data current_data threshold
                  feature_columns [] false);
         overall_drift := overall |} = false.
Proof.
  intros H overall. apply existsb_exists in H as (c & Hin & Hc).
  unfold examined in Hc. apply andb_prop in Hc.
  apply (examine_numeric reference_data current_data threshold c) in Hc.
  destruct (examine ks_2samp reference_data current_data threshold c)
    as [e|] eqn:E; [clear Hc|now elim Hc].
  pose proof (drift_loop_lookup reference_data current_data threshold c
                feature_columns [] false) as Hget.
  assert (Hc : existsb (String.eqb c) feature_columns = true).
  { apply existsb_exists. exists c. split; [exact Hin|apply String.eqb_refl]. }
  rewrite Hc, E in Hget.
  unfold serializable. cbn [dr_features].
  apply not_true_is_false. intros Hall.
  rewrite forallb_forall in Hall.
  apply dict_get_In in Hget as [k' Hget]. specialize (Hall _ Hget).
  cbn [snd] in Hall.
  now rewrite (examine_drift_detected _ _ _ _ _ _ E) in Hall.
Qed.

(** X8: [detect_data_drift] returns a report only when it examines no
    column.  With drift detection enabled and a history that is read, a
    call in which a listed column is examined (both tables have it with a
    numeric dtype and a value that is not missing) raises [TypeError]
    while the history is written and leaves the file cut; a call in which
    no listed column is examined returns a report without entries, with
    the timestamp of the call and the numbers of rows of the two tables,
    and appends it to the history after the earlier reports. *)
Theorem drift_report_only_without_examined_column (m : ModelMonitor)
    (now : datetime) (reference_data current_data : DataFrame)
    (feature_columns : list string) (threshold : Q) (st : state)
    (existing : list drift_report) :
  get_flag (cfg_drift_detection (config m)) = true ->
  load_drift_metrics st = Ok existing ->
  forallb serializable existing = true ->
  detect_data_drift ks_2samp m now reference_data current_data
    feature_columns threshold st
  = if existsb (examined reference_data current_data) feature_columns
    then (Raise TypeError, cut_drift_metrics st)
    else
      let report :=
        {| dr_timestamp := isoformat now;
           n_reference := nrows reference_data;
           n_current := nrows current_data;
           dr_features := [];
           overall_drift := false |} in
      (Ok (Some report), set_drift_metrics st (existing ++ [report])).
Proof.
  intros Hflag Hload Hexisting. unfold detect_data_drift.
  rewrite Hflag, Hload. cbn [negb].
  destruct (existsb (examined reference_data current_data) feature_columns)
    eqn:Ex.
  - pose proof (examined_report_not_serializable reference_data current_data
                  threshold feature_columns now Ex) as Hbad.
    destruct (drift_loop ks_2samp reference_data current_data threshold
                feature_columns [] false) as [features overall].
    cbn [fst] in Hbad. cbv zeta.
    rewrite forallb_app, Hexisting. cbn [forallb andb].
    now rewrite Hbad.
  - rewrite (drift_loop_nothing_examined _ _ _ _ Ex). cbv zeta.
    rewrite forallb_app, Hexisting. reflexivity.
Qed.

End DriftFacts.

(** ** [extract_predictions_for_monitoring] *)












(** A key that is not among the keys has no value. *)
Lemma dict_get_absent {V : Type} (d : list (string * V)) (k : string) :
  existsb (String.eqb k) (map fst d) = false -> dict_get d k = None.
Proof.
  intros H. rewrite <- dict_mem_existsb in H. unfold dict_mem in H.
  now destruct (dict_get d k).
Qed.

(** [d.update(other)]: the values of [other] first, then those of [d]. *)
Lemma dict_get_update {V : Type} (other : list (string * V)) :
  distinct (map fst other) = true ->
  forall (d : list (string * V)) (k : string),
    dict_get (dict_update d other) k
    = match dict_get other k with
      | Some v => Some v
      | None => dict_get d k
      end.
Proof.
  induction other as [|[k' v'] other IH]; intros Hd d k; [reflexivity|].
  cbn [map fst distinct] in Hd. apply andb_true_iff in Hd. destruct Hd as [Hk' Hd].
  apply negb_true_iff in Hk'.
  unfold dict_update in *. cbn [fold_left fst snd dict_get].
  rewrite (IH Hd).
  destruct (String.eqb_spec k' k) as [->|Hne].
  - rewrite (dict_get_absent other k Hk'). apply dict_get_set_same.
  - now rewrite dict_get_set_other.
Qed.

(** X10: the row of the features table of a record holds every feature
    under its name.  The column [prediction_id] holds the identifier of
    the record (the empty string when it has none) unless a feature is
    itself named [prediction_id]: that feature then replaces the
    identifier. *)
Theorem feature_row_lookup (d fs : list (string * json)) :
  distinct (map fst fs) = true ->
  dict_get d "features" = Some (JObj fs) ->
  exists row,
    feature_row (JObj d) = Ok (Some row) /\
    forall k,
      dict_get row k
      = match dict_get fs k with
        | Some v => Some v
        | None =>
            if String.eqb k "prediction_id"
            then Some (match dict_get d "prediction_id" with
                       | Some i => i
                       | None => JStr ""
                       end)
            else None
        end.
Proof.
  intros Hfs Hf. unfold feature_row, py_contains, py_getitem, dict_mem, py_get_default.
  rewrite Hf. cbn [bind negb].
  destruct (dict_get d "prediction_id") as [i|]; cbn [bind];
    (eexists; split; [reflexivity|]); intros k;
    rewrite (dict_get_update fs Hfs); cbn [dict_get];
    rewrite (String.eqb_sym k); reflexivity.
Qed.

(** A record with the identifier ["A"] and a feature named
    [prediction_id]. *)
Lemma feature_row_lookup_witness :
  exists row,
    feature_row (JObj record_with_features) = Ok (Some row) /\
    forall k,
      dict_get row k
      = match dict_get [("amount", JInt 5); ("prediction_id", JStr "inner")] k with
        | Some v => Some v
        | None =>
            if String.eqb k "prediction_id"
            then Some (match dict_get record_with_features "prediction_id" with
                       | Some i => i
                       | None => JStr ""
                       end)
            else None
        end.
Proof.
  apply (feature_row_lookup record_with_features
           [("amount", JInt 5); ("prediction_id", JStr "inner")]).
  - reflexivity.
  - reflexivity.
Defined.

(** The two example tables: with the columns [amount], [hour] and
    [missing] the call raises, and with the column [missing] alone it
    returns a report without entries. *)
Lemma drift_report_only_without_examined_column_witness :
  detect_data_drift first_value_test service_monitor noon reference_table
    current_table ["amount"; "hour"; "missing"] (5 # 100)%Q empty_state
  = (Raise TypeError, cut_drift_metrics empty_state) /\
  detect_data_drift first_value_test service_monitor noon reference_table
    current_table ["missing"] (5 # 100)%Q empty_state
  = (Ok (Some {| dr_timestamp := isoformat noon;
                 n_reference := 2;
                 n_current := 2;
                 dr_features := [];
                 overall_drift := false |}),
     set_drift_metrics empty_state
       [{| dr_timestamp := isoformat noon;
           n_reference := 2;
           n_current := 2;
           dr_features := [];
           overall_drift := false |}]).
Proof.
  split.
  - apply (drift_report_only_without_examined_column first_value_test
             service_monitor noon reference_table current_table
             ["amount"; "hour"; "missing"] (5 # 100)%Q empty_state []);
      reflexivity.
  - apply (drift_report_only_without_examined_column first_value_test
             service_monitor noon reference_table current_table
             ["missing"] (5 # 100)%Q empty_state []);
      reflexivity.
Defined.

(** ** [log_batch_predictions] *)

(** The cells of a well-formed column are well formed. *)
Lemma wf_cell (c : column) (i : nat) : wf_column c = true -> wf (cell c i) = true.
Proof.
  destruct c as [cells|cells]; cbn [wf_column cell]; intros H.
  - destruct (nth_error cells i) as [[[z|d]|]|] eqn:E; try reflexivity.
    + destruct (int_cells cells); reflexivity.
    + apply nth_error_In in E. rewrite forallb_forall in H. exact (H _ E).
  - destruct (nth_error cells i) as [v|] eqn:E; try reflexivity.
    apply nth_error_In in E. rewrite forallb_forall in H. exact (H _ E).
Qed.

(** A well-formed cell is well formed in a row of any dtype. *)
Lemma wf_in_row (d : dtype) (v : json) :
  wf v = true -> wf_scalar (in_row d v) = true.
Proof. destruct d, v; cbn [in_row wf_scalar]; auto. Qed.

(** What a row holds for a column is the cell of the column, converted
    to the dtype of the row. *)
Lemma row_get_Ok (df : DataFrame) (i : nat) (col : string) (x : scalar) :
  row_get df i col = Ok x ->
  int64_columns df = true /\
  exists c, dict_get (columns df) col = Some c /\
            x = in_row (row_dtype df) (cell c i).
Proof.
  unfold row_get. destruct (int64_columns df); cbn [negb]; [|discriminate].
  destruct (dict_get (columns df) col) as [c|]; [|discriminate].
  intros [= <-]. split; [reflexivity|]. now exists c.
Qed.

(** The cells of a well-formed table are well formed. *)
Lemma wf_row_get (df : DataFrame) (i : nat) (col : string) (x : scalar) :
  wf_frame df = true -> row_get df i col = Ok x -> wf_scalar x = true.
Proof.
  unfold wf_frame. intros Hdf Hx.
  destruct (row_get_Ok _ _ _ _ Hx) as (_ & c & E & ->).
  apply wf_in_row, wf_cell.
  destruct (dict_get_In _ _ _ E) as [k' Hin].
  rewrite forallb_forall in Hdf. exact (Hdf _ Hin).
Qed.

(** [float(x)] of a well-formed cell is well formed. *)
Lemma wf_py_float (x : scalar) (p : json) :
  wf_scalar x = true -> py_float x = Ok p -> wf p = true.
Proof.
  destruct x as [v|z]; [destruct v as [|b|z|d|k|s|l|l]|];
    cbn [py_float wf_scalar]; intros Hv H; try discriminate H;
    try (destruct (Z.abs z <? 2 ^ 1023)%Z; [|discriminate H]);
    injection H as <-; try reflexivity; exact Hv.
Qed.

(** The features of a row of a well-formed table are well formed. *)
Lemma wf_feature_cells (df : DataFrame) (i : nat) (cols : list string) :
  wf_frame df = true ->
  forall features,
    mapM (fun col => v <- row_get df i col ;; Ok (col, v)) cols = Ok features ->
    forallb (fun kv => wf_scalar (snd kv)) features = true.
Proof.
  intros Hdf. induction cols as [|col cols IH]; intros features H.
  - now injection H as <-.
  - cbn [mapM] in H. destruct (row_get df i col) as [v|] eqn:E; [|discriminate H].
    cbn [bind] in H.
    destruct (mapM _ cols) as [rest|]; [|discriminate H].
    injection H as <-. cbn [forallb snd].
    now rewrite (wf_row_get df i col v Hdf E), (IH rest eq_refl).
Qed.

(** An optional field of an entry, when it is set, is well formed. *)
Lemma wf_optional_float (df : DataFrame) (i : nat) (col : option string)
    (p : json) :
  wf_frame df = true ->
  optional_float df i col = Ok (Some p) -> wf p = true.
Proof.
  intros Hdf. unfold optional_float. destruct col as [c|]; [|discriminate].
  destruct (negb (String.eqb c "") && row_mem df c); [|discriminate].
  destruct (row_get df i c) as [v|] eqn:Ev; cbn [bind]; [|discriminate].
  destruct (py_float v) as [q|] eqn:Eq; cbn [bind]; [|discriminate].
  intros [= <-]. eapply wf_py_float; [|exact Eq]. eapply wf_row_get; eauto.
Qed.

(** What an entry that was built holds. *)
Lemma batch_entry_inv (df : DataFrame) (now : datetime)
    (features_cols : list string) (prediction_col : string)
    (probability_col true_label_col : option string) (id_col : string)
    (i : nat) (e : batch_record) :
  batch_entry df now features_cols prediction_col probability_col
    true_label_col id_col i = Ok e ->
  exists features id,
    mapM (fun col => v <- row_get df i col ;; Ok (col, v))
         (filter (row_mem df) features_cols) = Ok features /\
    br_features e = dict_of_pairs features /\
    row_get df i id_col = Ok id /\
    py_str id = Ok (br_prediction_id e) /\
    br_timestamp e = isoformat now /\
    (if row_mem df prediction_col
     then v <- row_get df i prediction_col ;; py_float v
     else Ok JNull) = Ok (br_prediction e) /\
    optional_float df i probability_col = Ok (br_probability e) /\
    optional_float df i true_label_col = Ok (br_true_label e).
Proof.
  unfold batch_entry.
  destruct (mapM _ (filter (row_mem df) features_cols)) as [features|] eqn:Ef;
    cbn [bind]; [|discriminate].
  destruct (row_get df i id_col) as [id|] eqn:Eid; cbn [bind]; [|discriminate].
  destruct (py_str id) as [s|] eqn:Es; cbn [bind]; [|discriminate].
  destruct (if row_mem df prediction_col
            then v <- row_get df i prediction_col ;; py_float v
            else Ok JNull) as [prediction|] eqn:Ep; cbn [bind]; [|discriminate].
  destruct (optional_float df i probability_col) as [probability|] eqn:Eq;
    cbn [bind]; [|discriminate].
  destruct (optional_float df i true_label_col) as [true_label|] eqn:Et;
    cbn [bind]; [|discriminate].
  intros [= <-]. exists features, id.
  cbn [br_features br_prediction_id br_timestamp br_prediction
       br_probability br_true_label].
  repeat split; assumption.
Qed.

(** The fields of the dictionary of an entry. *)
Lemma entry_dict_fields (e : batch_record) (features : list (string * json)) :
  dict_get (entry_dict e features) "prediction_id"
  = Some (JStr (br_prediction_id e)) /\
  dict_get (entry_dict e features) "timestamp" = Some (JStr (br_timestamp e)) /\
  dict_get (entry_dict e features) "prediction" = Some (br_prediction e) /\
  dict_get (entry_dict e features) "features" = Some (JObj features) /\
  dict_get (entry_dict e features) "true_label" = br_true_label e.
Proof.
  unfold entry_dict.
  destruct (br_probability e) as [p|], (br_true_label e) as [t|];
    cbv zeta; rewrite ?dict_get_set_same;
    rewrite ?dict_get_set_other by discriminate; repeat split; reflexivity.
Qed.

(** The values [json.dumps] writes for well-formed features are well
    formed, under the same keys. *)
Lemma encode_features (features : list (string * scalar)) :
  forall encoded,
    mapM (fun kv => v <- encode_scalar (snd kv) ;; Ok (fst kv, v)) features
    = Ok encoded ->
    map fst encoded = map fst features /\
    (forallb (fun kv => wf_scalar (snd kv)) features = true ->
     forallb (fun kv => wf (snd kv)) encoded = true).
Proof.
  induction features as [|[k x] features IH]; intros encoded H.
  - injection H as <-. now split.
  - cbn [mapM fst snd] in H. destruct x as [v|z]; cbn [encode_scalar bind] in H;
      [|discriminate H].
    destruct (mapM _ features) as [rest|]; [|discriminate H].
    injection H as <-. destruct (IH rest eq_refl) as [Hk Hw].
    cbn [map fst snd forallb wf_scalar]. split; [now rewrite Hk|].
    intros Hall. apply andb_true_iff in Hall as [Hv Hrest].
    now rewrite Hv, Hw.
Qed.

(** The dictionary of an entry with well-formed fields is well formed. *)
Lemma wf_entry_dict (e : batch_record) (features : list (string * json)) :
  wf (br_prediction e) = true ->
  wf (JObj features) = true ->
  match br_probability e with Some p => wf p = true | None => True end ->
  match br_true_label e with Some t => wf t = true | None => True end ->
  wf (JObj (entry_dict e features)) = true.
Proof.
  intros Hp Hf Hq Ht. unfold entry_dict.
  assert (Hbase :
    wf (JObj [("prediction_id", JStr (br_prediction_id e));
              ("timestamp", JStr (br_timestamp e));
              ("prediction", br_prediction e);
              ("features", JObj features)]) = true).
  { cbn [wf map fst snd forallb distinct existsb].
    cbn [wf] in Hf. rewrite Hp, Hf. reflexivity. }
  cbv zeta.
  destruct (br_probability e) as [p|], (br_true_label e) as [t|];
    repeat apply wf_dict_set; auto.
Qed.

(** The entry of a row of a well-formed table, once built, is written as
    a well-formed dictionary unless a feature is a [numpy.int64]. *)
Lemma wf_entry_json (df : DataFrame) (now : datetime)
    (features_cols : list string) (prediction_col : string)
    (probability_col true_label_col : option string) (id_col : string)
    (i : nat) (e : batch_record) (v : json) :
  wf_frame df = true ->
  batch_entry df now features_cols prediction_col probability_col
    true_label_col id_col i = Ok e ->
  entry_json e = Ok v ->
  wf v = true /\ exists features, v = JObj (entry_dict e features).
Proof.
  intros Hdf He Hv.
  destruct (batch_entry_inv _ _ _ _ _ _ _ _ _ He)
    as (features & id & Hf & Hfe & _ & _ & _ & Hp & Hq & Ht).
  unfold entry_json in Hv.
  destruct (mapM _ (br_features e)) as [encoded|] eqn:Eenc; cbn [bind] in Hv;
    [|discriminate Hv].
  injection Hv as <-. split; [|now exists encoded].
  destruct (encode_features _ _ Eenc) as [Hkeys Hwf].
  apply wf_entry_dict.
  - destruct (row_mem df prediction_col); [|now injection Hp as <-].
    destruct (row_get df i prediction_col) as [x|] eqn:Ex; cbn [bind] in Hp;
      [|discriminate Hp].
    eapply wf_py_float; [|exact Hp]. eapply wf_row_get; eauto.
  - cbn [wf]. rewrite Hkeys, Hfe. unfold dict_of_pairs.
    rewrite distinct_fold_dict_set by reflexivity. cbn [andb].
    apply Hwf. rewrite Hfe. unfold dict_of_pairs.
    apply forallb_fold_dict_set; [|reflexivity].
    eapply wf_feature_cells; eauto.
  - destruct (br_probability e) as [p|] eqn:E; [|exact I].
    eapply wf_optional_float; eauto.
  - destruct (br_true_label e) as [t|] eqn:E; [|exact I].
    eapply wf_optional_float; eauto.
Qed.


(** Assigning a well-formed column keeps a table well formed. *)
Lemma wf_frame_set_column (df : DataFrame) (name : string) (c : column) :
  wf_frame df = true -> wf_column c = true ->
  wf_frame (set_column df name c) = true.
Proof.
  unfold wf_frame, set_column. cbn [columns]. intros Hdf Hc.
  apply (forallb_dict_set (fun kc : string * column => wf_column (snd kc)));
    [intros k'; exact Hc|exact Hdf].
Qed.

(** The column of generated identifiers is well formed. *)
Lemma wf_generated_ids (now : nat -> datetime) (n : nat) :
  wf_column (ObjCol (map JStr (generated_ids now n))) = true.
Proof.
  cbn [wf_column]. rewrite forallb_map_comp. apply forallb_forall. reflexivity.
Qed.

(** The table the entries are built from is well formed when the
    caller's table is. *)
Lemma wf_batch_table (now : nat -> datetime) (df : DataFrame)
    (id_col : option string) :
  wf_frame df = true -> wf_frame (batch_table now df id_col) = true.
Proof.
  intros Hdf. unfold batch_table.
  destruct (provided df id_col); [exact Hdf|].
  apply wf_frame_set_column; [exact Hdf|apply wf_generated_ids].
Qed.

(** The lines written for well-formed entries are single lines and are
    read back as the entries. *)
Lemma batch_lines_read_back (entries : list json) :
  forallb wf entries = true ->
  load_logs (map json_dumps entries) = Ok entries /\
  forallb one_line (map json_dumps entries) = true.
Proof.
  induction entries as [|x entries IH]; [now split|].
  cbn [forallb]. intros H. apply andb_true_iff in H. destruct H as [Hx H].
  destruct (IH H) as [IH1 IH2]. unfold load_logs in *. cbn [map mapM forallb].
  rewrite (json_loads_dumps x Hx), IH1, IH2.
  unfold json_dumps. now rewrite (dumps_one_line x Hx).
Qed.

(** The write loop stops at the first entry that [json.dumps] refuses:
    the lines written are the texts of the entries before it. *)
Lemma write_entries_prefix (log_entries : list batch_record) :
  exists written : list json,
    fst (write_entries log_entries) = map json_dumps written /\
    Forall2 (fun e v => entry_json e = Ok v)
      (firstn (List.length written) log_entries) written /\
    match snd (write_entries log_entries) with
    | Ok _ => List.length written = List.length log_entries
    | Raise x =>
        exists e, nth_error log_entries (List.length written) = Some e /\
                  entry_json e = Raise x
    end.
Proof.
  induction log_entries as [|e r IH].
  - exists []. cbn. repeat split. constructor.
  - cbn [write_entries]. unfold dumps_entry.
    destruct (entry_json e) as [v|x] eqn:E; cbn [bind].
    + destruct IH as (written & Hl & Hf & Ho).
      destruct (write_entries r) as [lines outcome]. cbn [fst snd] in *.
      exists (v :: written). cbn [map List.length firstn nth_error].
      rewrite Hl. split; [reflexivity|]. split; [now constructor|].
      destruct outcome; [now rewrite Ho|exact Ho].
    + exists []. cbn. repeat split; [constructor|]. now exists e.
Qed.

(** With monitoring enabled, [log_batch_predictions] builds the entries
    of the table and then writes them. *)
Lemma log_batch_predictions_enabled (m : ModelMonitor) (now : nat -> datetime)
    (predictions_df : nat) (features_cols : list string)
    (prediction_col : string) (probability_col true_label_col : option string)
    (id_col : option string) (st : state) (df : DataFrame) :
  enable_monitoring m = true ->
  nth_error (frames st) predictions_df = Some df ->
  log_batch_predictions m now predictions_df features_cols prediction_col
    probability_col true_label_col id_col st
  = let st1 := if provided df id_col then st
               else set_frame st predictions_df (with_generated_ids now df) in
    match batch_entries now df features_cols prediction_col probability_col
            true_label_col id_col with
    | Raise e => (Raise e, st1)
    | Ok log_entries =>
        (snd (write_entries log_entries),
         append_lines st1 (fst (write_entries log_entries)))
    end.
Proof.
  intros Hen Hdf. unfold log_batch_predictions, batch_entries, batch_table,
    batch_id_col, first_reading, provided, with_generated_ids.
  rewrite Hen, Hdf. cbn [negb].
  destruct id_col as [c|]; [destruct (row_mem df c)|]; cbv zeta iota beta;
    cbn [nrows set_column];
    destruct (mapM _ _) as [log_entries|]; try reflexivity;
    now destruct (write_entries log_entries).
Qed.

(** A state keeps its lines when a table is replaced. *)
Lemma lines_of_batch_state (now : nat -> datetime) (predictions_df : nat)
    (df : DataFrame) (id_col : option string) (st : state) :
  lines_of (if provided df id_col then st
            else set_frame st predictions_df (with_generated_ids now df))
  = lines_of st.
Proof. now destruct (provided df id_col). Qed.

(** A batch that succeeds on a well-formed table: its entries were built,
    each was written as a well-formed dictionary, and the lines come after
    the lines the log had. *)
Lemma batch_written (m : ModelMonitor) (now : nat -> datetime)
    (predictions_df : nat) (features_cols : list string)
    (prediction_col : string) (probability_col true_label_col : option string)
    (id_col : option string) (st : state) (df : DataFrame) :
  enable_monitoring m = true ->
  nth_error (frames st) predictions_df = Some df ->
  wf_frame df = true ->
  fst (log_batch_predictions m now predictions_df features_cols prediction_col
         probability_col true_label_col id_col st) = Ok tt ->
  exists log_entries written,
    batch_entries now df features_cols prediction_col probability_col
      true_label_col id_col = Ok log_entries /\
    Forall2 (fun e v => entry_json e = Ok v) log_entries written /\
    forallb wf written = true /\
    lines_of (snd (log_batch_predictions m now predictions_df features_cols
                     prediction_col probability_col true_label_col id_col st))
    = (lines_of st ++ map json_dumps written)%list.
Proof.
  intros Hen Hdf Hwf.
  rewrite (log_batch_predictions_enabled _ _ _ _ _ _ _ _ _ _ Hen Hdf).
  cbv zeta.
  destruct (batch_entries _ _ _ _ _ _ _) as [log_entries|] eqn:E;
    cbn [fst snd]; [|discriminate].
  intros Hok. exists log_entries.
  destruct (write_entries_prefix log_entries) as (written & Hl & Hf & Ho).
  rewrite Hok in Ho. rewrite Ho, firstn_all in Hf.
  exists written. split; [reflexivity|]. split; [exact Hf|]. split.
  - unfold batch_entries in E. apply mapM_Ok_inv in E.
    clear Ho Hl Hok. revert written Hf.
    induction E as [|i e rows es He Hr IH]; intros written Hf;
      inversion Hf as [|e' v es' vs Hv Hvs]; subst; [reflexivity|].
    cbn [forallb].
    destruct (wf_entry_json _ _ _ _ _ _ _ _ _ _
                (wf_batch_table now df id_col Hwf) He Hv) as [-> _].
    now apply IH.
  - rewrite lines_of_append, lines_of_batch_state. now rewrite Hl.
Qed.

(** The identifier and the timestamp of every entry of a batch. *)
Lemma batch_entries_fields (now : nat -> datetime) (df : DataFrame)
    (features_cols : list string) (prediction_col : string)
    (probability_col true_label_col : option string) (id_col : option string)
    (log_entries : list batch_record) :
  batch_entries now df features_cols prediction_col probability_col
    true_label_col id_col = Ok log_entries ->
  Forall2 (fun i e =>
             br_timestamp e = isoformat (now (first_reading df id_col + i)) /\
             exists id,
               row_get (batch_table now df id_col) i (batch_id_col df id_col)
               = Ok id /\
               py_str id = Ok (br_prediction_id e))
    (seq 0 (nrows df)) log_entries.
Proof.
  unfold batch_entries. intros H. apply mapM_Ok_inv in H.
  induction H as [|i e rows es He Hr IH]; constructor; [|exact IH].
  destruct (batch_entry_inv _ _ _ _ _ _ _ _ _ He)
    as (features & id & _ & _ & Hid & Hstr & Hts & _).
  split; [exact Hts|]. now exists id.
Qed.


(** Two lists related element by element, one of which is the image of
    the other. *)
Lemma Forall2_compose {A B C : Type} (P : A -> B -> Prop) (Q : B -> C -> Prop)
    (R : A -> C -> Prop) (la : list A) (lb : list B) (lc : list C) :
  (forall a b c, In a la -> P a b -> Q b c -> R a c) ->
  Forall2 P la lb -> Forall2 Q lb lc -> Forall2 R la lc.
Proof.
  intros H Hab. revert lc H.
  induction Hab as [|a b la lb Hp Hab IH]; intros lc H Hbc;
    inversion Hbc as [|b' c lb' lc' Hq Hbc']; subst; constructor.
  - eapply H; eauto. now left.
  - apply IH; [|exact Hbc']. intros a' b' c' Hin. apply H. now right.
Qed.

(** X11: when [log_batch_predictions] succeeds with monitoring enabled on
    a table of well-formed cells, it appends one line per row of the
    table, after the lines the log had; every new line is a single line,
    the log is read back as the earlier records followed by the new
    entries, and the entry of row [i] carries the reading of the clock
    that was taken for it: the clock is read once per generated
    identifier and then once per row, so the entries of one batch carry
    different timestamps. *)
Theorem batch_is_read_back (m : ModelMonitor) (now : nat -> datetime)
    (predictions_df : nat) (features_cols : list string)
    (prediction_col : string) (probability_col true_label_col : option string)
    (id_col : option string) (st : state) (df : DataFrame) (logs : list json) :
  enable_monitoring m = true ->
  nth_error (frames st) predictions_df = Some df ->
  wf_frame df = true ->
  load_logs (lines_of st) = Ok logs ->
  fst (log_batch_predictions m now predictions_df features_cols prediction_col
         probability_col true_label_col id_col st) = Ok tt ->
  let st' := snd (log_batch_predictions m now predictions_df features_cols
                    prediction_col probability_col true_label_col id_col st) in
  exists entries,
    List.length entries = nrows df /\
    lines_of st' = (lines_of st ++ map json_dumps entries)%list /\
    forallb one_line (map json_dumps entries) = true /\
    load_logs (lines_of st') = Ok (logs ++ entries)%list /\
    Forall2 (fun i entry =>
               py_getitem entry "timestamp"
               = Ok (JStr (isoformat (now (first_reading df id_col + i)))))
      (seq 0 (nrows df)) entries.
Proof.
  intros Hen Hdf Hwf Hlogs Hok. cbv zeta.
  destruct (batch_written _ _ _ _ _ _ _ _ _ _ Hen Hdf Hwf Hok)
    as (log_entries & entries & Hbuilt & Hjson & Hwfs & Hlines).
  exists entries.
  destruct (batch_lines_read_back entries Hwfs) as [Hload Hone].
  pose proof (batch_entries_fields _ _ _ _ _ _ _ _ Hbuilt) as Hfields.
  split; [|split; [exact Hlines|split; [exact Hone|split]]].
  - apply Forall2_length in Hfields, Hjson. rewrite length_seq in Hfields. lia.
  - rewrite Hlines. unfold load_logs in *. now rewrite mapM_app, Hlogs, Hload.
  - eapply Forall2_compose; [|exact Hfields|exact Hjson].
    intros i e v _ [Hts _] Hv. unfold entry_json in Hv.
    destruct (mapM _ (br_features e)) as [encoded|]; cbn [bind] in Hv;
      [|discriminate Hv].
    injection Hv as <-. cbn [py_getitem].
    destruct (entry_dict_fields e encoded) as (_ & -> & _).
    now rewrite Hts.
Qed.

(** The table of two scored transactions, logged into a new log: the
    identifiers take the readings 0 and 1 of the clock, and the entries
    the readings 2 and 3. *)
Lemma batch_is_read_back_witness :
  let st' := snd (log_batch_predictions service_monitor from_noon 0 ["amount"]
                    "prediction" None None None scored_state) in
  exists entries,
    List.length entries = nrows scored_table /\
    lines_of st' = (lines_of scored_state ++ map json_dumps entries)%list /\
    forallb one_line (map json_dumps entries) = true /\
    load_logs (lines_of st') = Ok ([] ++ entries)%list /\
    Forall2 (fun i entry =>
               py_getitem entry "timestamp"
               = Ok (JStr (isoformat (from_noon (first_reading scored_table None + i)))))
      (seq 0 (nrows scored_table)) entries.
Proof.
  apply (batch_is_read_back service_monitor from_noon 0 ["amount"] "prediction"
           None None None scored_state scored_table []); reflexivity.
Defined.

(** The texts of the timestamps of that batch. *)
Example batch_timestamps_differ :
  map (fun line => match json_loads line with
                   | Ok entry => py_getitem entry "timestamp"
                   | Raise e => Raise e
                   end)
    (lines_of (snd (log_batch_predictions service_monitor from_noon 0
                      ["amount"] "prediction" None None None scored_state)))
  = [Ok (JStr "2024-01-01T12:00:02"); Ok (JStr "2024-01-01T12:00:03")].
Proof. vm_compute. reflexivity. Qed.

(** X12: a batch is not written as a whole.  When
    [log_batch_predictions] raises while it builds the entries, no file
    is opened and the log is as before.  When it raises while it writes
    them, [json.dumps] has refused the entry of a row with [TypeError] (a
    feature of the row is a [numpy.int64], which is what a table of
    integer columns gives): the log file has been opened by then and
    holds, after its earlier lines, the lines of the rows before that
    row, fewer than the table has rows.  Both histories are untouched in
    either case.  The exception is one the code raises: the batch stays
    within what is modelled of [iterrows], [float] and [str]. *)
Theorem failed_batch_keeps_earlier_lines (m : ModelMonitor)
    (now : nat -> datetime) (predictions_df : nat) (features_cols : list string)
    (prediction_col : string) (probability_col true_label_col : option string)
    (id_col : option string) (st : state) (df : DataFrame) (x : exn) :
  enable_monitoring m = true ->
  nth_error (frames st) predictions_df = Some df ->
  fst (log_batch_predictions m now predictions_df features_cols prediction_col
         probability_col true_label_col id_col st) = Raise x ->
  x <> Unmodelled ->
  let st' := snd (log_batch_predictions m now predictions_df features_cols
                    prediction_col probability_col true_label_col id_col st) in
  performance_metrics st' = performance_metrics st /\
  drift_metrics st' = drift_metrics st /\
  match batch_entries now df features_cols prediction_col probability_col
          true_label_col id_col with
  | Raise e =>
      x = e /\ prediction_logs st' = prediction_logs st /\
      written st' = written st
  | Ok log_entries =>
      x = TypeError /\
      written st' = (written st ++ [prediction_logs_jsonl])%list /\
      exists lines_written : list json,
        prediction_logs st'
        = Some (lines_of st ++ map json_dumps lines_written)%list /\
        List.length lines_written < nrows df /\
        Forall2 (fun e v => entry_json e = Ok v)
          (firstn (List.length lines_written) log_entries) lines_written /\
        exists e, nth_error log_entries (List.length lines_written) = Some e /\
                  entry_json e = Raise TypeError
  end.
Proof.
  intros Hen Hdf.
  rewrite (log_batch_predictions_enabled _ _ _ _ _ _ _ _ _ _ Hen Hdf).
  cbv zeta.
  destruct (batch_entries _ _ _ _ _ _ _) as [log_entries|e] eqn:E;
    cbn [fst snd].
  - intros Hx _.
    destruct (write_entries_prefix log_entries) as (lw & Hl & Hf & Ho).
    rewrite Hx in Ho. destruct Ho as (e & Hnth & He).
    assert (Hx' : x = TypeError).
    { unfold entry_json in He.
      destruct (mapM _ (br_features e)) as [encoded|] eqn:Eenc; cbn [bind] in He;
        [discriminate He|].
      injection He as <-. clear - Eenc.
      induction (br_features e) as [|[k [v|z]] fs IH];
        cbn [mapM encode_scalar bind snd fst] in Eenc; try discriminate Eenc.
      - destruct (mapM _ fs) as [rest|] eqn:Er; [discriminate Eenc|].
        injection Eenc as <-. now apply IH.
      - now injection Eenc as <-. }
    subst x.
    assert (Hlen : List.length log_entries = nrows df).
    { unfold batch_entries in E. apply mapM_length in E.
      now rewrite length_seq in E. }
    destruct (provided df id_col);
      (split; [reflexivity|]); (split; [reflexivity|]);
      (split; [reflexivity|]); (split; [reflexivity|]);
      exists lw; rewrite Hl;
      (split; [unfold append_lines, lines_of; cbn [set_prediction_logs
                 set_frame prediction_logs];
               now destruct (prediction_logs st)|]);
      (split; [rewrite <- Hlen; apply nth_error_Some; congruence|]);
      (split; [exact Hf|]); now exists e.
  - intros [= ->] _. now destruct (provided df id_col).
Qed.

(** A table of integer columns with its own column of identifiers: the
    rows hold [numpy.int64], and the call raises [TypeError] while it
    writes. *)
Lemma failed_batch_keeps_earlier_lines_witness :
  let st' := snd (log_batch_predictions service_monitor from_noon 0 ["amount"]
                    "prediction" None None (Some "id") integer_table_state) in
  performance_metrics st' = performance_metrics integer_table_state /\
  drift_metrics st' = drift_metrics integer_table_state /\
  match batch_entries from_noon integer_table ["amount"] "prediction" None
          None (Some "id") with
  | Raise e =>
      TypeError = e /\
      prediction_logs st' = prediction_logs integer_table_state /\
      written st' = written integer_table_state
  | Ok log_entries =>
      TypeError = TypeError /\
      written st'
      = (written integer_table_state ++ [prediction_logs_jsonl])%list /\
      exists lines_written : list json,
        prediction_logs st'
        = Some (lines_of integer_table_state
                ++ map json_dumps lines_written)%list /\
        List.length lines_written < nrows integer_table /\
        Forall2 (fun e v => entry_json e = Ok v)
          (firstn (List.length lines_written) log_entries) lines_written /\
        exists e, nth_error log_entries (List.length lines_written) = Some e /\
                  entry_json e = Raise TypeError
  end.
Proof.
  apply (failed_batch_keeps_earlier_lines service_monitor from_noon 0
           ["amount"] "prediction" None None (Some "id")
           integer_table_state integer_table TypeError);
    try reflexivity.
  discriminate.
Defined.

(** On that table the first entry is refused: the log, which did not
    exist, is created and left without a line. *)
Example batch_of_integers_is_cut :
  log_batch_predictions service_monitor from_noon 0 ["amount"] "prediction"
    None None (Some "id") integer_table_state
  = (Raise TypeError, append_lines integer_table_state []) /\
  prediction_logs integer_table_state = None /\
  prediction_logs (append_lines integer_table_state []) = Some [] /\
  written (append_lines integer_table_state []) = [prediction_logs_jsonl].
Proof. repeat split. Qed.

(** A table whose column of predictions holds [None] in its second row:
    [float] raises [TypeError] before any file is opened. *)
Example batch_with_missing_prediction :
  log_batch_predictions service_monitor from_noon 0 ["amount"] "prediction"
    None None None missing_prediction_state
  = (Raise TypeError,
     set_frame missing_prediction_state 0
       (with_generated_ids from_noon missing_prediction)) /\
  written (set_frame missing_prediction_state 0
             (with_generated_ids from_noon missing_prediction)) = [].
Proof. split; reflexivity. Qed.



(** The identifiers that are read back from that log. *)
Example upcast_identifiers :
  map (fun line => match json_loads line with
                   | Ok entry => py_getitem entry "prediction_id"
                   | Raise e => Raise e
                   end)
    (lines_of (snd (log_batch_predictions service_monitor from_noon 0
                      ["amount"] "prediction" None None (Some "id")
                      numbered_state)))
  = [Ok (JStr "1.0"); Ok (JStr "2.0")].
Proof. vm_compute. reflexivity. Qed.

(** ** Timestamps *)

(** A number below [10 ^ w] has [w] decimal digits, the lowest first. *)
Lemma little_digits (w : nat) :
  forall n : N, (n < 10 ^ N.of_nat w)%N ->
  exists lu, nb_digits lu = w /\ DecimalPos.Unsigned.of_lu lu = n.
Proof.
  induction w as [|w IH]; intros n Hn.
  - exists Nil. split; [reflexivity|].
    change (10 ^ N.of_nat 0)%N with 1%N in Hn. cbn. lia.
  - assert (Hq : (n / 10 < 10 ^ N.of_nat w)%N).
    { apply N.Div0.div_lt_upper_bound.
      rewrite Nat2N.inj_succ, N.pow_succ_r' in Hn. exact Hn. }
    destruct (IH _ Hq) as (lq & Hlen & Hval).
    assert (Hr : (n mod 10 < 10)%N) by (apply N.mod_upper_bound; discriminate).
    assert (Hdm : (n = 10 * (n / 10) + n mod 10)%N)
      by (apply N.div_mod; discriminate).
    rewrite <- Hval in Hdm. clear Hq Hval.
    set (r := (n mod 10)%N) in *. clearbody r.
    assert (Hcases : (r = 0 \/ r = 1 \/ r = 2 \/ r = 3 \/ r = 4 \/ r = 5 \/ r = 6 \/
                      r = 7 \/ r = 8 \/ r = 9)%N) by lia.
    destruct Hcases as [H|[H|[H|[H|[H|[H|[H|[H|[H|H]]]]]]]]];
      [exists (D0 lq)|exists (D1 lq)|exists (D2 lq)|exists (D3 lq)|exists (D4 lq)
      |exists (D5 lq)|exists (D6 lq)|exists (D7 lq)|exists (D8 lq)|exists (D9 lq)];
      (split; [cbn [nb_digits]; now rewrite Hlen|]);
      cbn [DecimalPos.Unsigned.of_lu]; lia.
Qed.

(** The text of digits after [k] leading zeros. *)
Lemma string_of_iter_D0 (k : nat) (u : uint) :
  NilEmpty.string_of_uint (Nat.iter k D0 u) = zeros k ++ NilEmpty.string_of_uint u.
Proof.
  induction k as [|k IH]; [reflexivity|].
  change (Nat.iter (S k) D0 u) with (D0 (Nat.iter k D0 u)).
  cbn [NilEmpty.string_of_uint zeros append]. now rewrite IH.
Qed.

(** The text of digits has one character per digit. *)
Lemma length_string_of_uint (u : uint) :
  String.length (NilEmpty.string_of_uint u) = nb_digits u.
Proof. induction u; cbn; congruence. Qed.

(** [pad w n] is the text of the [w] digits of [n]. *)
Lemma pad_digits (w : nat) (n : N) :
  0 < w -> (n < 10 ^ N.of_nat w)%N ->
  exists u, nb_digits u = w /\ N.of_uint u = n /\
            pad w n = NilEmpty.string_of_uint u.
Proof.
  intros Hw Hn. destruct (little_digits w n Hn) as (lu & Hlen & Hval).
  exists (rev lu). rewrite nb_digits_rev. split; [exact Hlen|].
  assert (Hof : N.of_uint (rev lu) = n).
  { unfold N.of_uint. now rewrite DecimalPos.Unsigned.of_lu_rev. }
  split; [exact Hof|].
  assert (Hnil : rev lu <> Nil)
    by (apply nb_digits_n0; rewrite nb_digits_rev; lia).
  unfold pad, print_N. clear Hval. subst n w.
  rewrite DecimalN.Unsigned.to_of, length_string_of_uint.
  rewrite <- string_of_iter_D0. f_equal.
  rewrite <- (nb_digits_rev lu). now apply iter_D0_unorm.
Qed.

(** The digits of a text of digits are taken back. *)
Lemma take_digits_uint (u : uint) (rest : string) :
  take_digits (nb_digits u) (NilEmpty.string_of_uint u ++ rest)
  = Some (NilEmpty.string_of_uint u, rest).
Proof.
  induction u; cbn [nb_digits NilEmpty.string_of_uint append take_digits];
    try reflexivity;
    match goal with |- context [is_digit ?c] => change (is_digit c) with true end;
    cbv iota; now rewrite IHu.
Qed.

(** A field written by [pad] is read back by [take_number]. *)
Lemma take_number_pad (w : nat) (n : N) (rest : string) :
  0 < w -> (n < 10 ^ N.of_nat w)%N ->
  take_number w (pad w n ++ rest) = Ok (n, rest).
Proof.
  intros Hw Hn. destruct (pad_digits w n Hw Hn) as (u & Hlen & Hof & ->).
  unfold take_number. rewrite <- Hlen, take_digits_uint.
  unfold N_of_digits. now rewrite NilEmpty.usu, Hof.
Qed.

(** No month has more than 31 days. *)
Lemma days_in_month_le (y m : N) : (days_in_month y m <= 31)%N.
Proof.
  unfold days_in_month.
  destruct (m =? 2)%N; [destruct (is_leap y); lia|].
  destruct ((m =? 4) || (m =? 6) || (m =? 9) || (m =? 11))%N; lia.
Qed.

(** [fromisoformat] reads back what [isoformat] writes. *)
Lemma fromisoformat_isoformat (d : datetime) :
  valid_datetime d = true -> fromisoformat (isoformat d) = Ok d.
Proof.
  intros Hv. pose proof Hv as Hv'. unfold valid_datetime in Hv'.
  repeat (apply andb_true_iff in Hv'; destruct Hv' as [Hv' ?]).
  repeat match goal with H : (_ <=? _)%N = true |- _ => apply N.leb_le in H end.
  pose proof (days_in_month_le (year d) (month d)).
  assert (Hread : read_isoformat (isoformat d) = Ok d).
  { unfold read_isoformat, isoformat.
    rewrite take_number_pad by (cbn; lia).
    cbn [bind expect append Ascii.eqb Bool.eqb]. cbv iota.
    rewrite take_number_pad by (cbn; lia).
    cbn [bind expect append Ascii.eqb Bool.eqb]. cbv iota.
    rewrite take_number_pad by (cbn; lia).
    cbn [bind expect append Ascii.eqb Bool.eqb]. cbv iota.
    rewrite take_number_pad by (cbn; lia).
    cbn [bind expect append Ascii.eqb Bool.eqb]. cbv iota.
    rewrite take_number_pad by (cbn; lia).
    cbn [bind expect append Ascii.eqb Bool.eqb]. cbv iota.
    rewrite take_number_pad by (cbn; lia). cbn [bind].
    destruct (microsecond d =? 0)%N eqn:Eus.
    - apply N.eqb_eq in Eus. cbn [bind].
      destruct d as [y mo dd h mi s us]. cbn in Eus. now subst us.
    - cbn [append bind expect Ascii.eqb Bool.eqb]. cbv iota.
      rewrite <- (append_nil_r (pad 6 (microsecond d))).
      rewrite take_number_pad by (cbn; lia). cbn [bind].
      now destruct d. }
  unfold fromisoformat. now rewrite Hread, Hv.
Qed.

(** A record with the timestamp [isoformat now] is read as logged at
    [now]. *)
Lemma timestamp_of_logged (now : datetime) (log : json) :
  valid_datetime now = true ->
  py_getitem log "timestamp" = Ok (JStr (isoformat now)) ->
  timestamp_of log = Ok now.
Proof.
  intros Hv H. unfold timestamp_of. rewrite H. cbn [bind fromisoformat_value].
  now apply fromisoformat_isoformat.
Qed.

(** The timestamp of the entry of [log_prediction]. *)
Lemma prediction_entry_timestamp (now : datetime) (prediction_id : string)
    (features : list (string * json)) (prediction : number)
    (probability : option decimal) (true_label : option number)
    (metadata : option (list (string * json))) :
  py_getitem (JObj (prediction_entry now prediction_id features prediction
                      probability true_label metadata)) "timestamp"
  = Ok (JStr (isoformat now)).
Proof.
  unfold prediction_entry, py_getitem.
  destruct (truthy_dict metadata); [|reflexivity].
  now rewrite dict_get_set_other.
Qed.

(** X14: the timestamp [log_prediction] writes for a valid time is read
    back by [datetime.fromisoformat] as that very time.  So the time
    filter of [calculate_performance_metrics] keeps the record exactly
    when [start_time <= now <= end_time], and the filter of
    [get_recent_predictions] keeps it exactly when the cutoff is not
    after [now]. *)
Theorem logged_timestamp_is_read_back (now : datetime) (prediction_id : string)
    (features : list (string * json)) (prediction : number)
    (probability : option decimal) (true_label : option number)
    (metadata : option (list (string * json)))
    (start_time end_time : option datetime) (cutoff : datetime) :
  valid_datetime now = true ->
  let record := JObj (prediction_entry now prediction_id features prediction
                        probability true_label metadata) in
  timestamp_of record = Ok now /\
  in_time_range start_time end_time record
  = Ok (closed_window start_time end_time now) /\
  recent cutoff record = dt_leb cutoff now.
Proof.
  intros Hv record.
  assert (Hts : timestamp_of record = Ok now)
    by (apply timestamp_of_logged; [exact Hv|apply prediction_entry_timestamp]).
  split; [exact Hts|]. split.
  - now apply in_time_range_closed.
  - unfold recent. now rewrite Hts.
Qed.

(** A record logged at one o'clock, and the window from noon to one
    o'clock. *)
Lemma logged_timestamp_is_read_back_witness :
  let record := JObj (prediction_entry one_pm "A" [("amount", JInt 5)] (NInt 1)
                        None (Some (NInt 1)) None) in
  timestamp_of record = Ok one_pm /\
  in_time_range (Some noon) (Some one_pm) record
  = Ok (closed_window (Some noon) (Some one_pm) one_pm) /\
  recent noon record = dt_leb noon one_pm.
Proof.
  apply (logged_timestamp_is_read_back one_pm "A" [("amount", JInt 5)] (NInt 1)
           None (Some (NInt 1)) None (Some noon) (Some one_pm) noon).
  reflexivity.
Defined.

(** ** [log_predictions] *)




(** [log_batch_predictions] touches neither history, allocates no table
    and changes no table but the one it is given. *)
Lemma batch_effects (m : ModelMonitor) (now : nat -> datetime)
    (predictions_df : nat) (features_cols : list string)
    (prediction_col : string) (probability_col true_label_col : option string)
    (id_col : option string) (st : state) :
  let st' := snd (log_batch_predictions m now predictions_df features_cols
                    prediction_col probability_col true_label_col id_col st) in
  performance_metrics st' = performance_metrics st /\
  drift_metrics st' = drift_metrics st /\
  List.length (frames st') = List.length (frames st) /\
  forall other, other <> predictions_df ->
    nth_error (frames st') other = nth_error (frames st) other.
Proof.
  cbv zeta.
  assert (Hlen : forall (df' : DataFrame),
            List.length (set_nth (frames st) predictions_df df')
            = List.length (frames st)).
  { intros df'. generalize predictions_df.
    induction (frames st) as [|x l IH]; intros [|i]; simpl; auto. }
  destruct (enable_monitoring m) eqn:Hen;
    [|unfold log_batch_predictions; rewrite Hen; now repeat split].
  destruct (nth_error (frames st) predictions_df) as [df|] eqn:Hdf;
    [|unfold log_batch_predictions; rewrite Hen, Hdf; now repeat split].
  rewrite (log_batch_predictions_enabled _ _ _ _ _ _ _ _ _ _ Hen Hdf).
  cbv zeta.
  destruct (provided df id_col), (batch_entries _ _ _ _ _ _ _);
    cbn [snd append_lines set_prediction_logs set_frame
         performance_metrics drift_metrics frames];
    repeat split; auto; intros other Hne; now apply nth_error_set_nth_other.
Qed.

(** [log_batch_predictions] keeps the lines the log has. *)
Lemma batch_appends (m : ModelMonitor) (now : nat -> datetime)
    (predictions_df : nat) (features_cols : list string)
    (prediction_col : string) (probability_col true_label_col : option string)
    (id_col : option string) (st : state) :
  exists new_lines,
    lines_of (snd (log_batch_predictions m now predictions_df features_cols
                     prediction_col probability_col true_label_col id_col st))
    = (lines_of st ++ new_lines)%list.
Proof.
  destruct (enable_monitoring m) eqn:Hen;
    [|unfold log_batch_predictions; rewrite Hen;
      exists []; now rewrite List.app_nil_r].
  destruct (nth_error (frames st) predictions_df) as [df|] eqn:Hdf;
    [|unfold log_batch_predictions; rewrite Hen, Hdf;
      exists []; now rewrite List.app_nil_r].
  rewrite (log_batch_predictions_enabled _ _ _ _ _ _ _ _ _ _ Hen Hdf).
  cbv zeta.
  destruct (batch_entries _ _ _ _ _ _ _) as [log_entries|]; cbn [snd].
  - exists (fst (write_entries log_entries)).
    now rewrite lines_of_append, lines_of_batch_state.
  - exists []. now rewrite List.app_nil_r, lines_of_batch_state.
Qed.






(** A copy leaves every object at its address. *)
Lemma nth_error_new_frame (st : state) (df : DataFrame) (a : nat) (x : DataFrame) :
  nth_error (frames st) a = Some x ->
  a <> fst (new_frame st df) /\
  nth_error (frames (snd (new_frame st df))) a = Some x.
Proof.
  intros H. cbn [new_frame fst snd frames].
  assert (a < List.length (frames st)) by (apply nth_error_Some; congruence).
  split; [lia|]. now rewrite nth_error_app1.
Qed.

(** X15: [log_predictions] works on a copy: whatever the arguments and
    whether or not an exception is caught, every table of the process,
    the table of the request included, is as before, both histories are
    untouched, and the prediction log keeps its lines (new lines only
    come after them). *)
Theorem log_predictions_works_on_a_copy (prediction_id : string) (data : nat)
    (predictions : list number) (probabilities : option (list number))
    (monitor : ModelMonitor) (now : nat -> datetime) (st : state) :
  let st' := log_predictions prediction_id data predictions probabilities
               monitor now st in
  (forall a df, nth_error (frames st) a = Some df ->
                nth_error (frames st') a = Some df) /\
  performance_metrics st' = performance_metrics st /\
  drift_metrics st' = drift_metrics st /\
  exists new_lines, lines_of st' = (lines_of st ++ new_lines)%list.
Proof.
  cbv zeta. unfold log_predictions.
  destruct (nth_error (frames st) data) as [df|] eqn:Hdata.
  2:{ repeat split; auto. exists []. now rewrite List.app_nil_r. }
  destruct (new_frame st df) as [copy st0] eqn:Enew.
  assert (Hnew : forall a x, nth_error (frames st) a = Some x ->
                   a <> copy /\ nth_error (frames st0) a = Some x).
  { intros a x Hx. destruct (nth_error_new_frame st df a x Hx) as [H1 H2].
    rewrite Enew in H1, H2. now split. }
  assert (Hst0 : performance_metrics st0 = performance_metrics st /\
                 drift_metrics st0 = drift_metrics st /\
                 lines_of st0 = lines_of st).
  { unfold new_frame in Enew. injection Enew as <- <-. now repeat split. }
  destruct Hst0 as (Hp0 & Hd0 & Hl0).
  destruct (assign_values df "prediction" predictions) as [df1|].
  2:{ repeat split; auto.
      - intros a x Hx. now apply Hnew.
      - exists []. now rewrite List.app_nil_r. }
  destruct (match probabilities with
            | Some ps => assign_values df1 "probability" ps
            | None => Ok df1
            end) as [df2|].
  2:{ repeat split; auto.
      - intros a x Hx. destruct (Hnew a x Hx) as [Hne Hx0].
        cbn [set_frame frames]. now rewrite nth_error_set_nth_other.
      - exists []. now rewrite List.app_nil_r. }
  match goal with
  | |- context [log_batch_predictions ?m ?n ?a ?fc ?pc ?pr ?tl ?id ?s] =>
      destruct (batch_effects m n a fc pc pr tl id s) as (Hp & Hd & _ & Hother);
      destruct (batch_appends m n a fc pc pr tl id s) as [new_lines Hlines]
  end.
  cbv zeta in Hp, Hd, Hother.
  repeat split.
  - intros a x Hx. destruct (Hnew a x Hx) as [Hne Hx0].
    rewrite Hother by exact Hne.
    cbn [set_frame frames]. now rewrite !nth_error_set_nth_other.
  - now rewrite Hp.
  - now rewrite Hd.
  - exists new_lines. rewrite Hlines. unfold lines_of in *.
    cbn [set_frame prediction_logs]. now rewrite Hl0.
Qed.




(** ** [check_drift] and [get_metrics] *)

Section ServiceFacts.

Variable ks_2samp : list Q -> list Q -> Q * Q.

(** An instance of [ModelMonitor] has no attribute
    [extract_predictions_for_monitoring]. *)
Lemma extract_is_no_method :
  monitor_getattr "extract_predictions_for_monitoring" = Raise AttributeError.
Proof. reflexivity. Qed.

(** X17: [check_drift] never answers [success] and never writes: the state
    is left as it is, and the answer is 503, 500, [no_data] or [error].
    When there are recent predictions, the model has feature names and
    the reference table is read, the lookup of
    [extract_predictions_for_monitoring] on the monitor raises
    [AttributeError], which is answered as HTTP 500. *)
Theorem check_drift_never_succeeds (monitor : option ModelMonitor)
    (model : option FraudModel) (reference : option (result DataFrame))
    (cutoff since now : datetime) (st : state) :
  let r := check_drift ks_2samp monitor model reference cutoff since now st in
  snd r = st /\
  (forall detected details, fst r <> Ok (drift_success detected details)) /\
  (forall m md row rows name names reference_data,
     monitor = Some m -> model = Some md ->
     get_recent_predictions cutoff 1000 st = Ok (row :: rows) ->
     feature_names md = Some (name :: names) ->
     reference = Some (Ok reference_data) ->
     fst r = Raise (HTTPException 500)).
Proof.
  cbv zeta. unfold check_drift. rewrite extract_is_no_method. cbn [bind].
  destruct monitor as [m|]; [|repeat split; try discriminate].
  destruct model as [md|]; [|repeat split; try discriminate].
  split; [|split].
  - destruct (get_recent_predictions cutoff 1000 st) as [[|row rows]|];
      try reflexivity.
    destruct (feature_names md) as [[|name names]|]; try reflexivity.
    destruct reference as [[reference_data|]|]; reflexivity.
  - intros detected details.
    destruct (get_recent_predictions cutoff 1000 st) as [[|row rows]|];
      try discriminate.
    destruct (feature_names md) as [[|name names]|]; try discriminate.
    destruct reference as [[reference_data|]|]; discriminate.
  - intros m' md' row rows name names reference_data [= <-] [= <-] -> -> ->.
    reflexivity.
Qed.

End ServiceFacts.

(** The log of [two_records_X], a model with a feature and the example
    reference table. *)
Lemma check_drift_never_succeeds_witness :
  let r := check_drift first_value_test (Some service_monitor) (Some amount_model)
             (Some (Ok reference_table)) noon noon two_pm two_records_X in
  snd r = two_records_X /\
  (forall detected details, fst r <> Ok (drift_success detected details)) /\
  (forall m md row rows name names reference_data,
     Some service_monitor = Some m -> Some amount_model = Some md ->
     get_recent_predictions noon 1000 two_records_X = Ok (row :: rows) ->
     feature_names md = Some (name :: names) ->
     Some (Ok reference_table) = Some (Ok reference_data) ->
     fst r = Raise (HTTPException 500)).
Proof.
  apply (check_drift_never_succeeds first_value_test (Some service_monitor)
           (Some amount_model) (Some (Ok reference_table)) noon noon two_pm
           two_records_X).
Defined.

(** The answer and the state for these inputs. *)
Example check_drift_with_everything_available :
  check_drift first_value_test (Some service_monitor) (Some amount_model)
    (Some (Ok reference_table)) noon noon two_pm two_records_X
  = (Raise (HTTPException 500), two_records_X).
Proof. vm_compute. reflexivity. Qed.

(** X18: [get_metrics] is not read-only.  Metrics that are answered and
    not empty have been appended, as a snapshot, to the metrics history;
    an empty answer means nothing was written.  The prediction log is
    never changed.  A failure is answered as 503 exactly when there is no
    monitor (the state is then untouched), and as 500 otherwise. *)
Theorem get_metrics_records_what_it_returns (monitor : option ModelMonitor)
    (now : datetime) (st : state) :
  let r := get_metrics monitor now st in
  prediction_logs (snd r) = prediction_logs st /\
  (forall e, fst r = Raise e ->
     (e = HTTPException 503 /\ monitor = None /\ snd r = st) \/
     (e = HTTPException 500 /\ monitor <> None)) /\
  (fst r = Ok [] -> snd r = st) /\
  (forall ms, fst r = Ok ms -> ms <> [] ->
     performance_metrics (snd r)
     = Some (HList (existing_entries (performance_metrics st) ++ [ms])%list) /\
     written (snd r) = (written st ++ [performance_metrics_json])%list).
Proof.
  cbv zeta. unfold get_metrics.
  destruct monitor as [m|].
  2:{ cbn [fst snd]. split; [reflexivity|]. split; [|split; discriminate].
      intros e [= <-]. left. now repeat split. }
  pose proof (calculate_keeps_prediction_logs m now None None st) as Hlog.
  unfold calculate_performance_metrics in *.
  destruct (negb (enable_monitoring m)).
  { cbn [fst snd]. split; [reflexivity|]. split; [discriminate|].
    split; [reflexivity|]. intros ms' [= <-] H. now elim H. }
  destruct (prediction_logs st) as [lines|] eqn:El.
  2:{ cbn [fst snd]. split; [exact El|]. split; [discriminate|].
      split; [reflexivity|]. intros ms' [= <-] H. now elim H. }
  unfold save_metrics in *.
  destruct (compute_metrics lines None None) as [[snapshot|]|e]; cbn [fst snd] in *.
  - destruct (_check_metric_alerts _ _) as [alerts|e]; cbn [fst snd] in *.
    + split; [exact Hlog|]. split; [discriminate|]. split.
      * intros H. injection H as H.
        pose proof (dict_get_set_same snapshot "timestamp" (MStr (isoformat now)))
          as Hts.
        rewrite H in Hts. discriminate Hts.
      * intros ms' [= <-] _. now split.
    + split; [exact Hlog|]. split; [|split; discriminate].
      intros e' [= <-]. right. split; [reflexivity|discriminate].
  - split; [exact Hlog|]. split; [discriminate|]. split; [reflexivity|].
    intros ms' [= <-] H. now elim H.
  - split; [exact Hlog|]. split; [|split; discriminate].
    intros e' [= <-]. right. split; [reflexivity|discriminate].
Qed.

(** ** Feedback after logging *)

(** The entry of [log_prediction] carries the identifier it was logged
    with. *)
Lemma matches_prediction_entry (now : datetime) (prediction_id : string)
    (features : list (string * json)) (prediction : number)
    (probability : option decimal) (true_label : option number)
    (metadata : option (list (string * json))) :
  matches prediction_id
    (prediction_entry now prediction_id features prediction probability
       true_label metadata) = true.
Proof.
  unfold matches, prediction_entry.
  destruct (truthy_dict metadata).
  - rewrite dict_get_set_other by discriminate. cbn. apply String.eqb_refl.
  - cbn. apply String.eqb_refl.
Qed.

(** On a log of dictionaries one of which matches, [process_feedback]
    rewrites every record with its feedback. *)
Lemma process_feedback_rewrites (prediction_id : string) (label : Z)
    (m : ModelMonitor) (now : datetime) (st : state)
    (entries : list (list (string * json))) :
  mapM (fun line => json_loads (strip line)) (lines_of st) = Ok (map JObj entries) ->
  existsb (matches prediction_id) entries = true ->
  lines_of (process_feedback prediction_id label m now st)
  = map (fun d => json_dumps (JObj (with_feedback prediction_id label d))) entries.
Proof.
  intros Hparse Hmatch. unfold lines_of at 1. rewrite process_feedback_log.
  unfold lines_of in Hparse.
  destruct (prediction_logs st) as [lines|].
  - rewrite (mapM_feedback_lines _ _ _ _ Hparse), existsb_snd_map, Hmatch.
    now rewrite map_map.
  - destruct entries; [discriminate Hmatch|discriminate Hparse].
Qed.

(** X19: a prediction logged by [log_prediction] accepts feedback under
    its identifier: after [log_prediction] (monitoring enabled, on a log
    of dictionaries) and [process_feedback] for the same prediction_id,
    the log is read back as the earlier records and the new one, each
    with its feedback; the new record then carries the label as its
    true_label and still carries its prediction. *)
Theorem logged_prediction_accepts_feedback (m : ModelMonitor) (now now' : datetime)
    (prediction_id : string) (features : list (string * json))
    (prediction : number) (probability : option decimal)
    (true_label : option number) (metadata : option (list (string * json)))
    (label : Z) (st : state) (entries : list (list (string * json))) :
  enable_monitoring m = true ->
  wf (JObj features) = true ->
  wf_number prediction = true ->
  wf (json_of_option JFloat probability) = true ->
  wf (json_of_option json_of_number true_label) = true ->
  wf (json_of_option JObj metadata) = true ->
  mapM (fun line => json_loads (strip line)) (lines_of st) = Ok (map JObj entries) ->
  let record := prediction_entry now prediction_id features prediction
                  probability true_label metadata in
  let logged := log_prediction m now prediction_id features prediction
                  probability true_label metadata st in
  load_logs (lines_of (process_feedback prediction_id label m now' logged))
  = Ok (map (fun d => JObj (with_feedback prediction_id label d))
          (entries ++ [record])%list) /\
  dict_get (with_feedback prediction_id label record) "true_label"
  = Some (JInt label) /\
  dict_get (with_feedback prediction_id label record) "prediction"
  = Some (json_of_number prediction).
Proof.
  intros Hen Hf Hp Hq Ht Hm Hparse record logged.
  assert (Hwf : wf (JObj record) = true) by now apply wf_prediction_entry.
  assert (Hlines : lines_of logged = (lines_of st ++ [json_dumps (JObj record)])%list).
  { unfold logged, log_prediction. rewrite Hen. cbn [negb].
    now rewrite lines_of_append. }
  assert (Hparse' : mapM (fun line => json_loads (strip line)) (lines_of logged)
                    = Ok (map JObj (entries ++ [record])%list)).
  { rewrite Hlines, mapM_app, Hparse. cbn [mapM]. unfold json_dumps.
    rewrite strip_dumps_object. fold (json_dumps (JObj record)).
    rewrite (json_loads_dumps _ Hwf).
    now rewrite map_app. }
  assert (Hmatch : matches prediction_id record = true)
    by apply matches_prediction_entry.
  split; [|split].
  - rewrite (process_feedback_rewrites _ _ _ _ _ _ Hparse').
    + rewrite (load_rewritten_log _ _ _ _ Hparse'). now rewrite map_map.
    + rewrite existsb_app. cbn [existsb]. rewrite Hmatch. now rewrite orb_true_r.
  - unfold with_feedback. rewrite Hmatch. apply dict_get_set_same.
  - unfold with_feedback. rewrite Hmatch.
    rewrite dict_get_set_other by discriminate.
    unfold record, prediction_entry. destruct (truthy_dict metadata); [|reflexivity].
    now rewrite dict_get_set_other.
Qed.

(** A record ["Y"] logged after the two records of [two_records_X], then
    labeled 1. *)
Lemma logged_prediction_accepts_feedback_witness :
  let record := prediction_entry two_pm "Y" [("amount", JInt 7)] (NInt 1)
                  None None None in
  let logged := log_prediction service_monitor two_pm "Y" [("amount", JInt 7)]
                  (NInt 1) None None None two_records_X in
  load_logs (lines_of (process_feedback "Y" 1 service_monitor two_pm logged))
  = Ok (map (fun d => JObj (with_feedback "Y" 1 d))
          ([prediction_entry noon "X" [("amount", JInt 3)] (NInt 1)
              None None None;
            prediction_entry one_pm "X" [("amount", JInt 5)] (NInt 0)
              (Some {| dneg := false; dint := 0; dfrac := "25" |}) None None]
           ++ [record])%list) /\
  dict_get (with_feedback "Y" 1 record) "true_label" = Some (JInt 1) /\
  dict_get (with_feedback "Y" 1 record) "prediction" = Some (json_of_number (NInt 1)).
Proof.
  apply (logged_prediction_accepts_feedback service_monitor two_pm two_pm "Y"
           [("amount", JInt 7)] (NInt 1) None None None 1 two_records_X
           [prediction_entry noon "X" [("amount", JInt 3)] (NInt 1)
              None None None;
            prediction_entry one_pm "X" [("amount", JInt 5)] (NInt 0)
              (Some {| dneg := false; dint := 0; dfrac := "25" |}) None None]);
    reflexivity.
Defined.

(** Feedback for one identifier does not change which identifier a record
    carries. *)
Lemma matches_after_feedback (prediction_id other : string) (label : Z)
    (d : list (string * json)) :
  matches other (with_feedback prediction_id label d) = matches other d.
Proof.
  unfold with_feedback. destruct (matches prediction_id d); [|reflexivity].
  unfold matches. now rewrite dict_get_set_other.
Qed.

(** A record carries one identifier. *)
Lemma matches_one_id (a b : string) (d : list (string * json)) :
  a <> b -> matches a d = true -> matches b d = false.
Proof.
  unfold matches. intros Hne. destruct (dict_get d "prediction_id") as [v|];
    [|discriminate].
  destruct v; cbn [eq_str]; try discriminate.
  intros Ha. apply String.eqb_eq in Ha. subst.
  now apply String.eqb_neq.
Qed.

(** Feedbacks for two different identifiers can be applied to a record in
    either order. *)
Lemma with_feedback_commute (a b : string) (la lb : Z) (d : list (string * json)) :
  a <> b ->
  with_feedback b lb (with_feedback a la d)
  = with_feedback a la (with_feedback b lb d).
Proof.
  intros Hne. unfold with_feedback at 1 3. rewrite !matches_after_feedback.
  unfold with_feedback.
  destruct (matches a d) eqn:Ea, (matches b d) eqn:Eb; try reflexivity.
  rewrite (matches_one_id a b d Hne Ea) in Eb. discriminate Eb.
Qed.

(** Feedback for one identifier does not change which records carry
    another. *)
Lemma existsb_matches_after_feedback (prediction_id other : string) (label : Z)
    (entries : list (list (string * json))) :
  existsb (matches other) (map (with_feedback prediction_id label) entries)
  = existsb (matches other) entries.
Proof.
  induction entries as [|d entries IH]; [reflexivity|].
  cbn [map existsb]. now rewrite matches_after_feedback, IH.
Qed.

(** Whether the read loop of [process_feedback] raises does not depend on
    the identifier or on the label. *)
Lemma feedback_lines_fail_together (a b : string) (la lb : Z)
    (lines : list string) (e : exn) :
  mapM (feedback_line a la) lines = Raise e ->
  exists e', mapM (feedback_line b lb) lines = Raise e'.
Proof.
  intros Ha. destruct (mapM (feedback_line b lb) lines) as [logs|e'] eqn:Eb;
    [|now exists e'].
  destruct (feedback_lines_entries _ _ _ _ Eb) as [entries Hentries].
  rewrite (mapM_feedback_lines a la _ _ Hentries) in Ha. discriminate Ha.
Qed.

(** The log after two runs of [process_feedback] on a log of
    dictionaries. *)
Lemma two_feedbacks_log (a b : string) (la lb : Z) (m : ModelMonitor)
    (now now' : datetime) (st : state) (lines : list string)
    (entries : list (list (string * json))) :
  prediction_logs st = Some lines ->
  mapM (fun line => json_loads (strip line)) lines = Ok (map JObj entries) ->
  prediction_logs (process_feedback b lb m now' (process_feedback a la m now st))
  = Some (if existsb (matches a) entries
          then if existsb (matches b) entries
               then map (fun d => json_dumps
                                    (JObj (with_feedback b lb (with_feedback a la d))))
                      entries
               else map (fun d => json_dumps (JObj (with_feedback a la d))) entries
          else if existsb (matches b) entries
               then map (fun d => json_dumps (JObj (with_feedback b lb d))) entries
               else lines).
Proof.
  intros El Hentries.
  rewrite (process_feedback_log b lb m now' (process_feedback _ _ _ _ _)).
  rewrite (process_feedback_log a la), El.
  rewrite (mapM_feedback_lines a la _ _ Hentries), existsb_snd_map.
  destruct (existsb (matches a) entries) eqn:Ea.
  - rewrite map_map. cbn [fst].
    rewrite (mapM_feedback_lines b lb _ _
               (loads_rewritten_lines a la _ _ Hentries)).
    rewrite existsb_snd_map, existsb_matches_after_feedback.
    destruct (existsb (matches b) entries); [|reflexivity].
    now rewrite !map_map.
  - rewrite (mapM_feedback_lines b lb _ _ Hentries), existsb_snd_map.
    destruct (existsb (matches b) entries); [|reflexivity].
    now rewrite map_map.
Qed.

(** X20: feedbacks for two different prediction_ids commute: the
    prediction log after both runs of [process_feedback] is the same in
    either order, whatever the log holds. *)
Theorem feedbacks_for_different_ids_commute (a b : string) (la lb : Z)
    (m : ModelMonitor) (now1 now2 now3 now4 : datetime) (st : state) :
  a <> b ->
  prediction_logs
    (process_feedback b lb m now2 (process_feedback a la m now1 st))
  = prediction_logs
      (process_feedback a la m now4 (process_feedback b lb m now3 st)).
Proof.
  intros Hne.
  destruct (prediction_logs st) as [lines|] eqn:El.
  2:{ rewrite !process_feedback_log, El. reflexivity. }
  destruct (mapM (feedback_line a la) lines) as [logs|e] eqn:Ea.
  - destruct (feedback_lines_entries _ _ _ _ Ea) as [entries Hentries].
    rewrite (two_feedbacks_log a b la lb m now1 now2 st lines entries El Hentries).
    rewrite (two_feedbacks_log b a lb la m now3 now4 st lines entries El Hentries).
    destruct (existsb (matches a) entries), (existsb (matches b) entries);
      try reflexivity.
    f_equal. apply map_ext. intros d. now rewrite with_feedback_commute.
  - destruct (feedback_lines_fail_together a b la lb lines e Ea) as [e' Eb].
    rewrite (process_feedback_log b lb m now2 (process_feedback _ _ _ _ _)).
    rewrite (process_feedback_log a la m now1 st), El, Ea, Eb.
    rewrite (process_feedback_log a la m now4 (process_feedback _ _ _ _ _)).
    rewrite (process_feedback_log b lb m now3 st), El, Eb, Ea. reflexivity.
Qed.

(** Feedback for ["A"] and for ["B"] on the log of
    [one_labeled_one_not]. *)
Lemma feedbacks_for_different_ids_commute_witness :
  prediction_logs
    (process_feedback "B" 0 service_monitor two_pm
       (process_feedback "A" 1 service_monitor two_pm one_labeled_one_not))
  = prediction_logs
      (process_feedback "A" 1 service_monitor two_pm
         (process_feedback "B" 0 service_monitor two_pm one_labeled_one_not)).
Proof.
  apply (feedbacks_for_different_ids_commute "A" "B" 1 0 service_monitor
           two_pm two_pm two_pm two_pm one_labeled_one_not).
  discriminate.
Defined.

(** ** Batch logging followed by the metrics *)

(** The float of the label 0 or 1 is a binary label. *)
Lemma float_of_binary (z : Z) :
  ((z =? 0) || (z =? 1))%Z = true -> binary_label (float_of_Z z) = true.
Proof.
  intros H. apply orb_true_iff in H.
  destruct H as [H|H]; apply Z.eqb_eq in H; now subst.
Qed.

(** A row of a column of binary cells holds a value whose float is a
    binary label, whatever the dtype of the row. *)
Lemma binary_cell (df : DataFrame) (col : string) (i : nat) (x : scalar) :
  binary_cells df col = true -> i < nrows df ->
  row_get df i col = Ok x ->
  exists p, py_float x = Ok p /\ binary_label p = true.
Proof.
  intros H Hi Hx. destruct (row_get_Ok _ _ _ _ Hx) as (_ & c & E & ->).
  unfold binary_cells in H. rewrite E in H.
  destruct c as [cells|cells]; [|discriminate].
  apply andb_true_iff in H. destruct H as [Hlen Hall].
  apply Nat.leb_le in Hlen.
  cbn [cell]. destruct (nth_error cells i) as [c|] eqn:En.
  - rewrite forallb_forall in Hall. specialize (Hall c (nth_error_In _ _ En)).
    destruct c as [[z|d]|]; [| |discriminate]; cbn [json_of_number] in Hall.
    + unfold binary_label in Hall. cbn [label_value] in Hall.
      assert (Hz : (Z.abs z <? 2 ^ 1023)%Z = true).
      { apply orb_true_iff in Hall.
        destruct Hall as [Hz|Hz]; apply Z.eqb_eq in Hz; now subst. }
      destruct (int_cells cells), (row_dtype df); cbn [in_row float_of_Z];
        cbn [py_float]; rewrite ?Hz; eexists;
        (split; [reflexivity|]); now apply float_of_binary.
    + destruct (row_dtype df); cbn [in_row]; eexists;
        cbn [py_float]; now split.
  - apply nth_error_None in En. lia.
Qed.

(** A table with a column of binary cells has the column. *)
Lemma binary_cells_mem (df : DataFrame) (col : string) :
  binary_cells df col = true -> row_mem df col = true.
Proof.
  unfold binary_cells, row_mem, dict_mem.
  now destruct (dict_get (columns df) col).
Qed.

(** Assigning another column keeps a column of binary cells. *)
Lemma binary_cells_set_column (df : DataFrame) (name col : string) (c : column) :
  col <> name ->
  binary_cells (set_column df name c) col = binary_cells df col.
Proof.
  intros Hne. unfold binary_cells, set_column. cbn [columns nrows].
  rewrite dict_get_set_other by congruence. reflexivity.
Qed.

(** A binary label is not [None]. *)
Lemma binary_not_none (v : json) : binary_label v = true -> is_none v = false.
Proof. destruct v; try reflexivity. discriminate. Qed.

(** The entry of a row whose prediction and true label are binary cells is
    written as a well-formed labeled record of the binary
    classification. *)
Lemma batch_entry_labeled (df : DataFrame) (now : datetime)
    (features_cols : list string) (prediction_col true_label_col : string)
    (probability_col : option string) (id_col : string) (i : nat)
    (e : batch_record) (v : json) :
  wf_frame df = true ->
  binary_cells df prediction_col = true ->
  binary_cells df true_label_col = true ->
  true_label_col <> "" ->
  i < nrows df ->
  batch_entry df now features_cols prediction_col probability_col
    (Some true_label_col) id_col i = Ok e ->
  entry_json e = Ok v ->
  exists d,
    v = JObj d /\ wf v = true /\
    record_pair d <> [] /\ forallb binary_pair (record_pair d) = true.
Proof.
  intros Hwf Hp Ht Hne Hi He Hv.
  destruct (wf_entry_json _ _ _ _ _ _ _ _ _ _ Hwf He Hv)
    as (Hw & encoded & ->).
  exists (entry_dict e encoded). split; [reflexivity|]. split; [exact Hw|].
  destruct (batch_entry_inv _ _ _ _ _ _ _ _ _ He)
    as (features & id & _ & _ & _ & _ & _ & Hpe & _ & Hte).
  rewrite (binary_cells_mem _ _ Hp) in Hpe.
  destruct (row_get df i prediction_col) as [xp|] eqn:Hxp; cbn [bind] in Hpe;
    [|discriminate Hpe].
  destruct (binary_cell df prediction_col i xp Hp Hi Hxp) as (p & Hfp & Hbp).
  rewrite Hfp in Hpe. injection Hpe as Hpe.
  cbn [optional_float] in Hte.
  apply String.eqb_neq in Hne. rewrite Hne, (binary_cells_mem _ _ Ht) in Hte.
  cbn [negb andb] in Hte.
  destruct (row_get df i true_label_col) as [xt|] eqn:Hxt; cbn [bind] in Hte;
    [|discriminate Hte].
  destruct (binary_cell df true_label_col i xt Ht Hi Hxt) as (t & Hft & Hbt).
  rewrite Hft in Hte. cbn [bind] in Hte. injection Hte as Hte.
  destruct (entry_dict_fields e encoded) as (_ & _ & Hdp & _ & Hdt).
  unfold record_pair. rewrite Hdp, Hdt, <- Hpe, <- Hte.
  rewrite (binary_not_none t Hbt).
  split; [discriminate|]. cbn [forallb]. unfold binary_pair. cbn [fst snd].
  now rewrite Hbp, Hbt.
Qed.

(** Concatenating singletons gives one element per list. *)
Lemma length_flat_map_singletons {A B : Type} (f : A -> list B) (l : list A) :
  Forall (fun x => List.length (f x) = 1) l ->
  List.length (flat_map f l) = List.length l.
Proof.
  induction 1 as [|x l Hx Hl IH]; [reflexivity|].
  cbn [flat_map]. rewrite length_app, Hx, IH. reflexivity.
Qed.

(** A record contributes at most one pair to the metrics. *)
Lemma length_record_pair (d : list (string * json)) :
  record_pair d <> [] -> List.length (record_pair d) = 1.
Proof.
  unfold record_pair.
  destruct (dict_get d "prediction"), (dict_get d "true_label") as [t|];
    try (intros H; now elim H).
  destruct (is_none t); [intros H; now elim H|reflexivity].
Qed.

(** The records of a batch of binary predictions and labels that was
    written: each is a well-formed labeled record. *)
Lemma labeled_batch_records (df : DataFrame) (now : nat -> datetime)
    (readings : nat) (features_cols : list string)
    (prediction_col true_label_col : string) (probability_col : option string)
    (id_col : string) (rows : list nat) (log_entries : list batch_record)
    (lines_written : list json) :
  wf_frame df = true ->
  binary_cells df prediction_col = true ->
  binary_cells df true_label_col = true ->
  true_label_col <> "" ->
  (forall i, In i rows -> i < nrows df) ->
  mapM (fun i => batch_entry df (now (readings + i)) features_cols
                   prediction_col probability_col (Some true_label_col)
                   id_col i) rows = Ok log_entries ->
  Forall2 (fun e v => entry_json e = Ok v) log_entries lines_written ->
  exists ds,
    lines_written = map JObj ds /\ forallb wf lines_written = true /\
    List.length ds = List.length rows /\
    Forall (fun d => record_pair d <> [] /\
                     forallb binary_pair (record_pair d) = true) ds.
Proof.
  intros Hwf Hp Ht Hne Hin E Hw. apply mapM_Ok_inv in E.
  revert lines_written Hw Hin.
  induction E as [|i e rows es He Hr IH]; intros lw Hw Hin;
    inversion Hw as [|e' v es' lw' Hv Hw' E1 E2]; subst.
  - exists []. repeat split. constructor.
  - destruct (batch_entry_labeled _ _ _ _ _ _ _ _ _ _ Hwf Hp Ht Hne
                (Hin i (or_introl eq_refl)) He Hv) as (d & -> & Hwd & Hd).
    destruct (IH lw' Hw') as (ds & -> & Hws & Hlen & Hall);
      [intros j Hj; apply Hin; now right|].
    exists (d :: ds). split; [reflexivity|]. split.
    + cbn [forallb]. cbn [map] in Hws. now rewrite Hwd, Hws.
    + split; [cbn [List.length]; now rewrite Hlen|].
      constructor; [exact Hd|exact Hall].
Qed.

(** The log after a batch that was written into a log without lines. *)
Lemma batch_log_from_nothing (now : nat -> datetime) (predictions_df : nat)
    (df : DataFrame) (id_col : option string) (st : state)
    (lines : list string) :
  lines_of st = [] ->
  prediction_logs
    (append_lines (if provided df id_col then st
                   else set_frame st predictions_df (with_generated_ids now df))
       lines)
  = Some lines.
Proof.
  intros Hlines.
  pose proof (lines_of_batch_state now predictions_df df id_col st) as Hst.
  rewrite Hlines in Hst. revert Hst.
  unfold append_lines, lines_of. cbn [set_prediction_logs prediction_logs].
  destruct (prediction_logs _); [now intros ->|reflexivity].
Qed.

(** The records of a batch that was written with the empty text as the
    name of the column of labels: none carries a label. *)
Lemma unlabeled_batch_records (df : DataFrame) (now : nat -> datetime)
    (readings : nat) (features_cols : list string) (prediction_col : string)
    (probability_col : option string) (id_col : string) (rows : list nat)
    (log_entries : list batch_record) (lines_written : list json) :
  wf_frame df = true ->
  mapM (fun i => batch_entry df (now (readings + i)) features_cols
                   prediction_col probability_col (Some "") id_col i) rows
  = Ok log_entries ->
  Forall2 (fun e v => entry_json e = Ok v) log_entries lines_written ->
  forallb wf lines_written = true /\
  forall log, In log lines_written ->
    exists d, log = JObj d /\ has_true_label d = false.
Proof.
  intros Hwf E Hw. apply mapM_Ok_inv in E. revert lines_written Hw.
  induction E as [|i e rows es He Hr IH]; intros lw Hw;
    inversion Hw as [|e' v es' lw' Hv Hw' E1 E2]; subst.
  - split; [reflexivity|intros log []].
  - destruct (IH lw' Hw') as [Hws Hnone].
    destruct (wf_entry_json _ _ _ _ _ _ _ _ _ _ Hwf He Hv)
      as (Hwv & encoded & ->).
    split; [cbn [forallb]; now rewrite Hwv, Hws|].
    intros log [<-|Hin]; [|now apply Hnone].
    exists (entry_dict e encoded). split; [reflexivity|].
    destruct (batch_entry_inv _ _ _ _ _ _ _ _ _ He)
      as (features & id & _ & _ & _ & _ & _ & _ & _ & Hte).
    cbn in Hte. injection Hte as Hte.
    destruct (entry_dict_fields e encoded) as (_ & _ & _ & _ & Hdt).
    unfold has_true_label. now rewrite Hdt, <- Hte.
Qed.

(** With the empty text as the name of the column of labels,
    [if true_label_col and ...] sets no label, and the metrics of the
    batch are empty. *)
Lemma unnamed_labels_are_not_counted (m : ModelMonitor) (now : nat -> datetime)
    (now' : datetime) (predictions_df : nat) (features_cols : list string)
    (prediction_col : string) (probability_col id_col : option string)
    (st : state) (df : DataFrame) :
  enable_monitoring m = true ->
  lines_of st = [] ->
  nth_error (frames st) predictions_df = Some df ->
  wf_frame df = true ->
  fst (log_batch_predictions m now predictions_df features_cols prediction_col
         probability_col (Some "") id_col st) = Ok tt ->
  fst (calculate_performance_metrics m now' None None
         (snd (log_batch_predictions m now predictions_df features_cols
                 prediction_col probability_col (Some "") id_col st)))
  = Ok [].
Proof.
  intros Hen Hlines Hdf Hwf.
  rewrite (log_batch_predictions_enabled _ _ _ _ _ _ _ _ _ _ Hen Hdf).
  cbv zeta.
  destruct (batch_entries _ _ _ _ _ _ _) as [log_entries|] eqn:E;
    cbn [fst snd]; [|discriminate].
  intros Hok.
  destruct (write_entries_prefix log_entries) as (lw & Hl & Hf & Ho).
  rewrite Hok in Ho. rewrite Ho, firstn_all in Hf.
  unfold batch_entries in E.
  destruct (unlabeled_batch_records _ _ _ _ _ _ _ _ _ lw
              (wf_batch_table now df id_col Hwf) E Hf) as [Hws Hnone].
  destruct (batch_lines_read_back _ Hws) as [Hload _].
  unfold calculate_performance_metrics, compute_metrics, labeled_pairs.
  rewrite Hen, Hl, (batch_log_from_nothing _ _ _ _ _ _ Hlines), Hload.
  cbn [negb bind filter_by_time].
  now rewrite (extract_labeled_none _ Hnone).
Qed.

(** With another name, every row of the batch is a labeled record. *)
Lemma named_labels_are_counted (m : ModelMonitor) (now : nat -> datetime)
    (now' : datetime) (predictions_df : nat) (features_cols : list string)
    (prediction_col true_label_col : string) (probability_col id_col : option string)
    (st : state) (df : DataFrame) :
  enable_monitoring m = true ->
  thresholds_on_numbers m = true ->
  lines_of st = [] ->
  nth_error (frames st) predictions_df = Some df ->
  wf_frame df = true ->
  0 < nrows df ->
  binary_cells df prediction_col = true ->
  binary_cells df true_label_col = true ->
  prediction_col <> "prediction_id" ->
  true_label_col <> "prediction_id" ->
  true_label_col <> "" ->
  fst (log_batch_predictions m now predictions_df features_cols prediction_col
         probability_col (Some true_label_col) id_col st) = Ok tt ->
  let st' := snd (log_batch_predictions m now predictions_df features_cols
                    prediction_col probability_col (Some true_label_col)
                    id_col st) in
  exists accuracy precision recall f1,
    fst (calculate_performance_metrics m now' None None st')
    = Ok [("count", MInt (Z.of_nat (nrows df)));
          ("accuracy", MFloat accuracy);
          ("precision", MFloat precision);
          ("recall", MFloat recall);
          ("f1", MFloat f1);
          ("timestamp", MStr (isoformat now'))].
Proof.
  intros Hen Hth Hlines Hdf Hwf Hpos Hp Ht Hpn Htn Hne.
  rewrite (log_batch_predictions_enabled _ _ _ _ _ _ _ _ _ _ Hen Hdf).
  cbv zeta.
  destruct (batch_entries _ _ _ _ _ _ _) as [log_entries|] eqn:E;
    cbn [fst snd]; [|discriminate].
  intros Hok.
  destruct (write_entries_prefix log_entries) as (lw & Hl & Hf & Ho).
  rewrite Hok in Ho. rewrite Ho, firstn_all in Hf.
  assert (Hp' : binary_cells (batch_table now df id_col) prediction_col = true).
  { unfold batch_table. destruct (provided df id_col); [exact Hp|].
    unfold with_generated_ids. now rewrite binary_cells_set_column. }
  assert (Ht' : binary_cells (batch_table now df id_col) true_label_col = true).
  { unfold batch_table. destruct (provided df id_col); [exact Ht|].
    unfold with_generated_ids. now rewrite binary_cells_set_column. }
  assert (Hrows : nrows (batch_table now df id_col) = nrows df).
  { unfold batch_table. now destruct (provided df id_col). }
  assert (Hin : forall i, In i (seq 0 (nrows df)) ->
                          i < nrows (batch_table now df id_col)).
  { intros i Hi. apply in_seq in Hi. rewrite Hrows. lia. }
  unfold batch_entries in E.
  destruct (labeled_batch_records _ _ _ _ _ _ _ _ _ _ lw
              (wf_batch_table now df id_col Hwf) Hp' Ht' Hne Hin E Hf)
    as (ds & -> & Hws & Hlen & Hall).
  rewrite length_seq in Hlen.
  destruct (batch_lines_read_back _ Hws) as [Hload _].
  set (pairs := flat_map record_pair ds).
  assert (Hcount : List.length pairs = nrows df).
  { unfold pairs. rewrite length_flat_map_singletons; [exact Hlen|].
    eapply Forall_impl; [|exact Hall]. intros d [Hd _].
    now apply length_record_pair. }
  assert (Hnil : pairs <> []).
  { intros Heq. rewrite Heq in Hcount. cbn in Hcount. lia. }
  assert (Hbin : forallb binary_pair pairs = true).
  { unfold pairs. rewrite forallb_flat_map. apply forallb_forall.
    intros d Hd. rewrite Forall_forall in Hall. now apply Hall. }
  match goal with
  | |- context [append_lines ?st1 _] =>
      assert (Hlog : prediction_logs
                       (append_lines st1 (fst (write_entries log_entries)))
                     = Some (map json_dumps (map JObj ds)))
  end.
  { rewrite Hl. pose proof (lines_of_batch_state now predictions_df df id_col st)
      as Hst. rewrite Hlines in Hst. revert Hst.
    unfold append_lines, lines_of. cbn [set_prediction_logs prediction_logs].
    destruct (prediction_logs _); [now intros ->|reflexivity]. }
  unfold calculate_performance_metrics, compute_metrics, labeled_pairs.
  rewrite Hen, Hlog, Hload. cbn [negb bind filter_by_time].
  rewrite extract_labeled_records. cbn [bind]. fold pairs.
  rewrite (metrics_of_binary pairs Hnil Hbin).
  unfold save_metrics. rewrite snapshot_with_timestamp.
  match goal with
  | |- context [_check_metric_alerts _
                  [("count", MInt ?n); ("accuracy", MFloat ?a);
                   ("precision", MFloat ?p); ("recall", MFloat ?r);
                   ("f1", MFloat ?f); ("timestamp", MStr ?ts)]] =>
      destruct (snapshot_alerts_ok m n a p r f ts Hth) as [alerts ->]
  end.
  cbn [fst]. rewrite Hcount. now eexists _, _, _, _.
Qed.

(** X21: the flow of [predict.py]: after [log_batch_predictions] has
    logged a table with binary predictions and a column of binary true
    labels into a log without lines, [calculate_performance_metrics]
    without bounds returns a snapshot whose count is the number of rows
    of the table: the values [float] writes (0.0 and 1.0) are accepted as
    labels, and every row is a labeled record.  The one exception is a
    column of labels whose name is the empty text: [if true_label_col and
    ...] then sets no label, and the metrics are empty. *)
Theorem labeled_batch_is_counted (m : ModelMonitor) (now : nat -> datetime)
    (now' : datetime) (predictions_df : nat) (features_cols : list string)
    (prediction_col true_label_col : string) (probability_col id_col : option string)
    (st : state) (df : DataFrame) :
  enable_monitoring m = true ->
  thresholds_on_numbers m = true ->
  lines_of st = [] ->
  nth_error (frames st) predictions_df = Some df ->
  wf_frame df = true ->
  0 < nrows df ->
  binary_cells df prediction_col = true ->
  binary_cells df true_label_col = true ->
  prediction_col <> "prediction_id" ->
  true_label_col <> "prediction_id" ->
  fst (log_batch_predictions m now predictions_df features_cols prediction_col
         probability_col (Some true_label_col) id_col st) = Ok tt ->
  let st' := snd (log_batch_predictions m now predictions_df features_cols
                    prediction_col probability_col (Some true_label_col)
                    id_col st) in
  if String.eqb true_label_col ""
  then fst (calculate_performance_metrics m now' None None st') = Ok []
  else
    exists accuracy precision recall f1,
      fst (calculate_performance_metrics m now' None None st')
      = Ok [("count", MInt (Z.of_nat (nrows df)));
            ("accuracy", MFloat accuracy);
            ("precision", MFloat precision);
            ("recall", MFloat recall);
            ("f1", MFloat f1);
            ("timestamp", MStr (isoformat now'))].
Proof.
  intros Hen Hth Hlines Hdf Hwf Hpos Hp Ht Hpn Htn Hok. cbv zeta.
  destruct (String.eqb true_label_col "") eqn:Hname.
  - apply String.eqb_eq in Hname. subst true_label_col.
    now apply (unnamed_labels_are_not_counted m now now' predictions_df
                 features_cols prediction_col probability_col id_col st df).
  - apply String.eqb_neq in Hname. now apply named_labels_are_counted.
Qed.

(** A table of two scored transactions with the label column
    [is_fraud]. *)
Lemma labeled_batch_is_counted_witness :
  let st' := snd (log_batch_predictions service_monitor from_noon 0 ["amount"]
                    "prediction" None (Some "is_fraud") None
                    labeled_table_state) in
  exists accuracy precision recall f1,
    fst (calculate_performance_metrics service_monitor two_pm None None st')
    = Ok [("count", MInt (Z.of_nat (nrows labeled_table)));
          ("accuracy", MFloat accuracy);
          ("precision", MFloat precision);
          ("recall", MFloat recall);
          ("f1", MFloat f1);
          ("timestamp", MStr (isoformat two_pm))].
Proof.
  apply (labeled_batch_is_counted service_monitor from_noon two_pm 0 ["amount"]
           "prediction" "is_fraud" None None labeled_table_state labeled_table);
    try reflexivity; try discriminate.
  cbn. lia.
Defined.

(** The same batch with the labels in a column under the empty name: the
    batch is logged, and the metrics find no labeled record. *)
Example batch_with_unnamed_labels :
  binary_cells unnamed_labels_table "" = true /\
  fst (log_batch_predictions service_monitor from_noon 0 ["amount"]
         "prediction" None (Some "") None unnamed_labels_state) = Ok tt /\
  fst (calculate_performance_metrics service_monitor two_pm None None
         (snd (log_batch_predictions service_monitor from_noon 0 ["amount"]
                 "prediction" None (Some "") None unnamed_labels_state)))
  = Ok [].
Proof. repeat split; vm_compute; reflexivity. Qed.
